(** * Shadow agents platform: a shallow embedding of the console backend

  The development follows the layering of the Python code base:

  - Python values and the text helpers the services rely on;
  - the relational store (one list per table, in insertion order) and the
    repositories, written as functions on the store;
  - the domain services [TenantService], [AppService], [AuthService] and
    [ModelProviderService], written in a state-and-exception monad;
  - the [json] codec used by [ModelProvider.encrypt_credentials] and by the
    streaming adapter [OpenAIProvider.stream_invoke].

  Collaborators that are not part of the repository (password hashing, the
  JWT codec, the textual form of a UUID, the HTTP client) are interfaces:
  type classes whose fields are the operations the code calls.

  Conventions.  A Python [str] is a [string] whose characters are the code
  points below 256.  A primary key drawn by [uuid.uuid4] is an explicit
  argument of the operation that inserts the row.  Time is counted in whole
  seconds.  Display-only columns and the [created_at]/[updated_at] stamps
  are left out of the records. *)

From Stdlib Require Import ZArith NArith List String Ascii Bool Lia.
From Stdlib Require Import DecimalString DecimalN DecimalPos DecimalFacts.
Import ListNotations.
Open Scope string_scope.

(** ** Text helpers *)

Module Text.

Definition code (c : ascii) : N := N_of_ascii c.

(** [str.isspace] on the code points below 256. *)
Definition isspace (c : ascii) : bool :=
  let n := code c in
  ((9 <=? n) && (n <=? 13) || (28 <=? n) && (n <=? 32)
   || (n =? 133) || (n =? 160))%N.

Fixpoint lstrip (s : string) : string :=
  match s with
  | String c r => if isspace c then lstrip r else s
  | EmptyString => EmptyString
  end.

Fixpoint rstrip (s : string) : string :=
  match s with
  | String c r =>
      match rstrip r with
      | EmptyString => if isspace c then EmptyString else String c EmptyString
      | r' => String c r'
      end
  | EmptyString => EmptyString
  end.

(** [s.strip()] *)
Definition strip (s : string) : string := lstrip (rstrip s).

(** [s.startswith(p)] *)
Fixpoint startswith (p s : string) : bool :=
  match p, s with
  | EmptyString, _ => true
  | String a p', String b s' => Ascii.eqb a b && startswith p' s'
  | String _ _, EmptyString => false
  end.

(** [s[n:]] *)
Fixpoint drop (n : nat) (s : string) : string :=
  match n, s with
  | O, _ => s
  | S n', String _ r => drop n' r
  | S _, EmptyString => EmptyString
  end.

(** [len(s)] *)
Definition len (s : string) : N := N.of_nat (String.length s).
Arguments len : simpl never.

(** [not s] for a string *)
Definition is_empty (s : string) : bool :=
  match s with EmptyString => true | _ => false end.

End Text.

(** ** Python values

  The values [json.loads] produces and [json.dumps] accepts.  A float is
  carried as the literal it was read from: binary64 rounding is not part of
  the embedding.  A dictionary is the list of its items in insertion order;
  keys are values, as in Python. *)

Unset Elimination Schemes.
Inductive pyval : Type :=
| PyNone
| PyBool (b : bool)
| PyInt (z : Z)
| PyFloat (literal : string)
| PyStr (s : string)
| PyList (items : list pyval)
| PyTuple (items : list pyval)
| PyDict (items : list (pyval * pyval)).
Set Elimination Schemes.

(** Induction on Python values, through the lists and dictionaries. *)

Section PyvalInd.
Variable P : pyval -> Prop.
Hypothesis HNone : P PyNone.
Hypothesis HBool : forall b, P (PyBool b).
Hypothesis HInt : forall z, P (PyInt z).
Hypothesis HFloat : forall lit, P (PyFloat lit).
Hypothesis HStr : forall s, P (PyStr s).
Hypothesis HList : forall l, Forall P l -> P (PyList l).
Hypothesis HTuple : forall l, Forall P l -> P (PyTuple l).
Hypothesis HDict : forall d, Forall (fun kv => P (snd kv)) d -> P (PyDict d).

Fixpoint pyval_ind (v : pyval) : P v :=
  match v with
  | PyNone => HNone
  | PyBool b => HBool b
  | PyInt z => HInt z
  | PyFloat lit => HFloat lit
  | PyStr s => HStr s
  | PyList l =>
      HList l ((fix all (l : list pyval) : Forall P l :=
                  match l with
                  | [] => Forall_nil _
                  | x :: r => Forall_cons x (pyval_ind x) (all r)
                  end) l)
  | PyTuple l =>
      HTuple l ((fix all (l : list pyval) : Forall P l :=
                   match l with
                   | [] => Forall_nil _
                   | x :: r => Forall_cons x (pyval_ind x) (all r)
                   end) l)
  | PyDict d =>
      HDict d ((fix all (d : list (pyval * pyval)) : Forall (fun kv => P (snd kv)) d :=
                  match d with
                  | [] => Forall_nil _
                  | kv :: r => Forall_cons kv (pyval_ind (snd kv)) (all r)
                  end) d)
  end.
End PyvalInd.

Module Py.

(** [key == k] for a [str] [k]: only a string equals a string. *)
Definition key_is (k : string) (key : pyval) : bool :=
  match key with
  | PyStr s => String.eqb s k
  | _ => false
  end.

Fixpoint lookup (k : string) (items : list (pyval * pyval)) : option pyval :=
  match items with
  | [] => None
  | (key, v) :: rest => if key_is k key then Some v else lookup k rest
  end.

(** [d[k] = v] on the item list: an existing key keeps its place. *)
Fixpoint setitem (k : string) (v : pyval) (items : list (pyval * pyval))
  : list (pyval * pyval) :=
  match items with
  | [] => [(PyStr k, v)]
  | (key, w) :: rest =>
      if key_is k key then (key, v) :: rest else (key, w) :: setitem k v rest
  end.

(** Does the literal of a float denote a non-zero number?  [NaN] and the
    infinities count as non-zero; a literal is zero when its mantissa has
    no digit other than [0]. *)
Fixpoint mantissa_nonzero (s : string) : bool :=
  match s with
  | EmptyString => false
  | String c r =>
      if (Ascii.eqb c "e" || Ascii.eqb c "E")%bool then false
      else if ((49 <=? Text.code c) && (Text.code c <=? 57))%N then true
      else if (Ascii.eqb c "N" || Ascii.eqb c "I")%bool then true
      else mantissa_nonzero r
  end.

(** [bool(v)] *)
Definition truthy (v : pyval) : bool :=
  match v with
  | PyNone => false
  | PyBool b => b
  | PyInt z => negb (z =? 0)%Z
  | PyFloat lit => mantissa_nonzero lit
  | PyStr s => negb (Text.is_empty s)
  | PyList l | PyTuple l => match l with [] => false | _ => true end
  | PyDict l => match l with [] => false | _ => true end
  end.

(** [type(v).__name__] *)
Definition type_name (v : pyval) : string :=
  match v with
  | PyNone => "NoneType"
  | PyBool _ => "bool"
  | PyInt _ => "int"
  | PyFloat _ => "float"
  | PyStr _ => "str"
  | PyList _ => "list"
  | PyTuple _ => "tuple"
  | PyDict _ => "dict"
  end.

End Py.

(** ** Exceptions and results *)

Definition UUID := N.

Inductive ident : Type :=
| IdUUID (u : UUID)
| IdText (s : string).

(** The service-layer exceptions of [services/exceptions.py] and the Python
  built-ins the embedded code can raise.  [OutsideModel] is not a Python
  exception: it marks an input the embedding does not cover (a code point
  above 255, the [repr] of a float). *)
Inductive exn : Type :=
| ValidationError (message : string)
| AuthenticationError (message : string)
| AuthorizationError (message : string)
| ResourceNotFoundError (resource : string) (identifier : ident)
| ResourceConflictError (message : string)
| BusinessLogicError (message : string)
| IntegrityError (message : string)
| ValueError (message : string)
| KeyError (message : string)
| IndexError (message : string)
| TypeError (message : string)
| AttributeError (message : string)
| JSONDecodeError
| OtherError (message : string)
| OutsideModel.

Inductive result (A : Type) : Type :=
| Ok (a : A)
| Raise (e : exn).
Arguments Ok {A} a.
Arguments Raise {A} e.

Definition is_ok {A} (r : result A) : bool :=
match r with Ok _ => true | Raise _ => false end.

(** ** The [json] codec

  [dumps] follows [json.dumps] with its default arguments ([ensure_ascii],
  separators [", "] and [": "]); [loads] follows the scanner behind
  [json.loads] (strict mode).  Nesting depth and integer length are not
  bounded. *)

Module Json.

Definition quote : ascii := "034"%char.
Definition backslash : ascii := "092"%char.

(** *** Encoder *)

Definition hex_digit (n : N) : ascii :=
  if (n <? 10)%N then ascii_of_N (48 + n) else ascii_of_N (87 + n).

(** One character under [ESCAPE_ASCII]. *)
Definition escape_char (c : ascii) : string :=
  let n := Text.code c in
  let esc (e : ascii) := String backslash (String e EmptyString) in
  if (n =? 34)%N then esc quote
  else if (n =? 92)%N then esc backslash
  else if (n =? 10)%N then esc "n"%char
  else if (n =? 13)%N then esc "r"%char
  else if (n =? 9)%N then esc "t"%char
  else if (n =? 8)%N then esc "b"%char
  else if (n =? 12)%N then esc "f"%char
  else if ((n <? 32) || (126 <? n))%N then
    String backslash
      (String "u" (String "0" (String "0"
         (String (hex_digit (n / 16)) (String (hex_digit (n mod 16)) EmptyString)))))
  else String c EmptyString.

Fixpoint escape (s : string) : string :=
  match s with
  | EmptyString => EmptyString
  | String c r => escape_char c ++ escape r
  end.

Definition encode_basestring_ascii (s : string) : string :=
  String quote (escape s ++ String quote EmptyString).

(** [int.__repr__] *)
Definition repr_int (z : Z) : string :=
  match z with
  | Z0 => "0"
  | Zpos p => NilEmpty.string_of_uint (Pos.to_uint p)
  | Zneg p => String "-" (NilEmpty.string_of_uint (Pos.to_uint p))
  end.

(** The text a dictionary key is written as; keys of other types raise. *)
Definition key_text (k : pyval) : result string :=
  match k with
  | PyStr s => Ok s
  | PyNone => Ok "null"
  | PyBool true => Ok "true"
  | PyBool false => Ok "false"
  | PyInt z => Ok (repr_int z)
  | PyFloat _ => Raise OutsideModel
  | _ => Raise (TypeError ("keys must be str, int, float, bool or None, not "
                             ++ Py.type_name k))
  end.

Fixpoint dumps (v : pyval) : result string :=
  match v with
  | PyNone => Ok "null"
  | PyBool true => Ok "true"
  | PyBool false => Ok "false"
  | PyInt z => Ok (repr_int z)
  | PyFloat _ => Raise OutsideModel
  | PyStr s => Ok (encode_basestring_ascii s)
  | PyList l | PyTuple l =>
      let fix items (l : list pyval) : result (list string) :=
        match l with
        | [] => Ok []
        | x :: r =>
            match dumps x with
            | Raise e => Raise e
            | Ok sx =>
                match items r with
                | Raise e => Raise e
                | Ok sr => Ok (sx :: sr)
                end
            end
        end in
      match items l with
      | Ok ss => Ok ("[" ++ String.concat ", " ss ++ "]")
      | Raise e => Raise e
      end
  | PyDict d =>
      let fix items (d : list (pyval * pyval)) : result (list string) :=
        match d with
        | [] => Ok []
        | (k, x) :: r =>
            match key_text k with
            | Raise e => Raise e
            | Ok sk =>
                match dumps x with
                | Raise e => Raise e
                | Ok sx =>
                    match items r with
                    | Raise e => Raise e
                    | Ok sr => Ok ((encode_basestring_ascii sk ++ ": " ++ sx) :: sr)
                    end
                end
            end
        end in
      match items d with
      | Ok ss => Ok ("{" ++ String.concat ", " ss ++ "}")
      | Raise e => Raise e
      end
  end.

(** The values [loads] can give back as they are: [None], booleans,
    integers, strings, lists of such values, and dictionaries of such values
    under distinct string keys. *)
Fixpoint distinct (ks : list string) : bool :=
  match ks with
  | [] => true
  | k :: r => negb (existsb (String.eqb k) r) && distinct r
  end.

Definition str_keys (d : list (pyval * pyval)) : list string :=
  flat_map (fun kv => match fst kv with PyStr s => [s] | _ => [] end) d.

Fixpoint native (v : pyval) : bool :=
  match v with
  | PyNone | PyBool _ | PyInt _ | PyStr _ => true
  | PyFloat _ | PyTuple _ => false
  | PyList l => forallb native l
  | PyDict d =>
      forallb (fun kv => match fst kv with PyStr _ => native (snd kv) | _ => false end) d
      && distinct (str_keys d)
  end.

(** *** Decoder *)

Inductive parsed (A : Type) : Type :=
| Parsed (a : A) (rest : string)
| Malformed
| Wide
| Exhausted.
Arguments Parsed {A} a rest.
Arguments Malformed {A}.
Arguments Wide {A}.
Arguments Exhausted {A}.

Definition pmap {A B} (f : A -> B) (p : parsed A) : parsed B :=
  match p with
  | Parsed a r => Parsed (f a) r
  | Malformed => Malformed
  | Wide => Wide
  | Exhausted => Exhausted
  end.

Definition is_ws (c : ascii) : bool :=
  let n := Text.code c in ((n =? 32) || (n =? 9) || (n =? 10) || (n =? 13))%N.

Fixpoint skip_ws (s : string) : string :=
  match s with
  | String c r => if is_ws c then skip_ws r else s
  | EmptyString => EmptyString
  end.

Definition is_digit (c : ascii) : bool :=
  ((48 <=? Text.code c) && (Text.code c <=? 57))%N.

Fixpoint span_digits (s : string) : string * string :=
  match s with
  | String c r =>
      if is_digit c then let (d, r') := span_digits r in (String c d, r')
      else (EmptyString, s)
  | EmptyString => (EmptyString, EmptyString)
  end.

Definition hex_value (c : ascii) : option N :=
  let n := Text.code c in
  if ((48 <=? n) && (n <=? 57))%N then Some (n - 48)%N
  else if ((97 <=? n) && (n <=? 102))%N then Some (n - 87)%N
  else if ((65 <=? n) && (n <=? 70))%N then Some (n - 55)%N
  else None.

Definition hex4 (a b c d : ascii) : option N :=
  match hex_value a, hex_value b, hex_value c, hex_value d with
  | Some x, Some y, Some z, Some w => Some (((x * 16 + y) * 16 + z) * 16 + w)%N
  | _, _, _, _ => None
  end.

(** The character a one-letter escape stands for. *)
Definition unescape (e : ascii) : option ascii :=
  if Ascii.eqb e quote then Some quote
  else if Ascii.eqb e backslash then Some backslash
  else if Ascii.eqb e "/" then Some "/"%char
  else if Ascii.eqb e "b" then Some "008"%char
  else if Ascii.eqb e "f" then Some "012"%char
  else if Ascii.eqb e "n" then Some "010"%char
  else if Ascii.eqb e "r" then Some "013"%char
  else if Ascii.eqb e "t" then Some "009"%char
  else None.

(** [scanstring], entered after the opening quote. *)
Fixpoint scanstring (s : string) : parsed string :=
  match s with
  | EmptyString => Malformed
  | String c r =>
      if Ascii.eqb c quote then Parsed EmptyString r
      else if Ascii.eqb c backslash then
        match r with
        | EmptyString => Malformed
        | String e r1 =>
            if Ascii.eqb e "u" then
              match r1 with
              | String h1 (String h2 (String h3 (String h4 r2))) =>
                  match hex4 h1 h2 h3 h4 with
                  | Some n =>
                      if (n <? 256)%N
                      then pmap (String (ascii_of_N n)) (scanstring r2)
                      else Wide
                  | None => Malformed
                  end
              | _ => Malformed
              end
            else
              match unescape e with
              | Some c' => pmap (String c') (scanstring r1)
              | None => Malformed
              end
        end
      else if (Text.code c <? 32)%N then Malformed
      else pmap (String c) (scanstring r)
  end.

(** The value of a string of decimal digits. *)
Definition digits_value (ds : string) : Z :=
  match NilEmpty.uint_of_string ds with
  | Some u => Z.of_N (N.of_uint u)
  | None => 0%Z
  end.

(** The optional [.digits] group of a number. *)
Definition scan_frac (s : string) : string * string :=
  match s with
  | String c r =>
      if Ascii.eqb c "." then
        match span_digits r with
        | (EmptyString, _) => (EmptyString, s)
        | (fd, r') => (String c fd, r')
        end
      else (EmptyString, s)
  | EmptyString => (EmptyString, s)
  end.

(** The optional exponent group of a number. *)
Definition scan_exp (s : string) : string * string :=
  match s with
  | String c r =>
      if (Ascii.eqb c "e" || Ascii.eqb c "E")%bool then
        let (sign, r1) :=
          match r with
          | String g r' =>
              if (Ascii.eqb g "-" || Ascii.eqb g "+")%bool
              then (String g EmptyString, r') else (EmptyString, r)
          | EmptyString => (EmptyString, r)
          end in
        match span_digits r1 with
        | (EmptyString, _) => (EmptyString, s)
        | (ed, r') => (String c (sign ++ ed), r')
        end
      else (EmptyString, s)
  | EmptyString => (EmptyString, s)
  end.

(** [NUMBER_RE] after the sign: an integer part, then the optional groups. *)
Definition magnitude (neg : bool) (s : string) : parsed pyval :=
  match s with
  | String c r =>
      if is_digit c then
        let (ds, r1) :=
          if Ascii.eqb c "0" then (String c EmptyString, r)
          else let (d, r') := span_digits r in (String c d, r') in
        let (frac, r2) := scan_frac r1 in
        let (ex, r3) := scan_exp r2 in
        match frac, ex with
        | EmptyString, EmptyString =>
            Parsed (PyInt (if neg then - digits_value ds else digits_value ds)%Z) r3
        | _, _ =>
            Parsed (PyFloat ((if neg then "-" else "") ++ ds ++ frac ++ ex)) r3
        end
      else Malformed
  | EmptyString => Malformed
  end.

(** [NUMBER_RE] *)
Definition number (s : string) : parsed pyval :=
  match s with
  | String c r => if Ascii.eqb c "-" then magnitude true r else magnitude false s
  | EmptyString => Malformed
  end.

(** A constant spelled [w] at the head of [s]. *)
Definition literal (w : string) (v : pyval) (s : string) : option (parsed pyval) :=
  if Text.startswith w s then Some (Parsed v (Text.drop (String.length w) s))
  else None.

Definition constant (s : string) : parsed pyval :=
  match literal "null" PyNone s with Some p => p | None =>
  match literal "true" (PyBool true) s with Some p => p | None =>
  match literal "false" (PyBool false) s with Some p => p | None =>
  match literal "NaN" (PyFloat "NaN") s with Some p => p | None =>
  match literal "Infinity" (PyFloat "Infinity") s with Some p => p | None =>
  match literal "-Infinity" (PyFloat "-Infinity") s with Some p => p | None =>
  number s
  end end end end end end.

(** The dictionary built from the pairs of an object, in textual order. *)
Definition dict_of (kvs : list (string * pyval)) : list (pyval * pyval) :=
  fold_left (fun d kv => Py.setitem (fst kv) (snd kv) d) kvs [].

(** [scan_once] with the array and object loops. *)
Fixpoint value (fuel : nat) (s : string) {struct fuel} : parsed pyval :=
  match fuel with
  | O => Exhausted
  | S fuel' =>
      match s with
      | EmptyString => Malformed
      | String c r =>
          if Ascii.eqb c quote then pmap PyStr (scanstring r)
          else if Ascii.eqb c "[" then
            match skip_ws r with
            | EmptyString => Malformed
            | String c1 r1 =>
                if Ascii.eqb c1 "]" then Parsed (PyList []) r1
                else pmap PyList (elements fuel' (String c1 r1))
            end
          else if Ascii.eqb c "{" then
            match skip_ws r with
            | EmptyString => Malformed
            | String c1 r1 =>
                if Ascii.eqb c1 "}" then Parsed (PyDict []) r1
                else pmap (fun kvs => PyDict (dict_of kvs))
                          (members fuel' (String c1 r1))
            end
          else constant s
      end
  end
with elements (fuel : nat) (s : string) {struct fuel} : parsed (list pyval) :=
  match fuel with
  | O => Exhausted
  | S fuel' =>
      match value fuel' s with
      | Parsed v r =>
          match skip_ws r with
          | EmptyString => Malformed
          | String c1 r1 =>
              if Ascii.eqb c1 "]" then Parsed [v] r1
              else if Ascii.eqb c1 "," then
                pmap (cons v) (elements fuel' (skip_ws r1))
              else Malformed
          end
      | Malformed => Malformed
      | Wide => Wide
      | Exhausted => Exhausted
      end
  end
with members (fuel : nat) (s : string) {struct fuel}
  : parsed (list (string * pyval)) :=
  match fuel with
  | O => Exhausted
  | S fuel' =>
      match s with
      | EmptyString => Malformed
      | String c r =>
          if Ascii.eqb c quote then
            match scanstring r with
            | Parsed k r1 =>
                match skip_ws r1 with
                | EmptyString => Malformed
                | String c2 r2 =>
                    if Ascii.eqb c2 ":" then
                      match value fuel' (skip_ws r2) with
                      | Parsed v r3 =>
                          match skip_ws r3 with
                          | EmptyString => Malformed
                          | String c4 r4 =>
                              if Ascii.eqb c4 "}" then Parsed [(k, v)] r4
                              else if Ascii.eqb c4 "," then
                                pmap (cons (k, v)) (members fuel' (skip_ws r4))
                              else Malformed
                          end
                      | Malformed => Malformed
                      | Wide => Wide
                      | Exhausted => Exhausted
                      end
                    else Malformed
                end
            | Malformed => Malformed
            | Wide => Wide
            | Exhausted => Exhausted
            end
          else Malformed
      end
  end.

(** [json.loads] on a [str]. *)
Definition loads (s : string) : result pyval :=
  match value (2 * String.length s + 1) (skip_ws s) with
  | Parsed v r =>
      match skip_ws r with
      | EmptyString => Ok v
      | String _ _ => Raise JSONDecodeError
      end
  | Malformed => Raise JSONDecodeError
  | Wide => Raise OutsideModel
  | Exhausted => Raise OutsideModel
  end.

End Json.

(** ** Entities *)

Module AccountStatus.
Inductive t : Type := ACTIVE | INACTIVE | BANNED.
Definition eqb (a b : t) : bool :=
  match a, b with
  | ACTIVE, ACTIVE | INACTIVE, INACTIVE | BANNED, BANNED => true
  | _, _ => false
  end.
End AccountStatus.

Module TenantPlan.
Inductive t : Type := FREE | PRO | ENTERPRISE.
End TenantPlan.

Module TenantStatus.
Inductive t : Type := ACTIVE | SUSPENDED | DELETED.
End TenantStatus.

Module TenantRole.
Inductive t : Type := OWNER | ADMIN | MEMBER.
Definition eqb (a b : t) : bool :=
  match a, b with
  | OWNER, OWNER | ADMIN, ADMIN | MEMBER, MEMBER => true
  | _, _ => false
  end.
End TenantRole.

Module AppMode.
Inductive t : Type := CHAT | COMPLETION | AGENT | WORKFLOW.
End AppMode.

Module AppStatus.
Inductive t : Type := NORMAL | ARCHIVED.
Definition eqb (a b : t) : bool :=
  match a, b with
  | NORMAL, NORMAL | ARCHIVED, ARCHIVED => true
  | _, _ => false
  end.
End AppStatus.

Module ProviderType.
Inductive t : Type := OPENAI | TEI.
End ProviderType.

Module Account.
Record t : Type := mk {
  id : UUID;
  email : string;
  password_hash : string;
  name : string;
  status : AccountStatus.t;
  last_login_at : option Z
}.
Inductive attr : Type :=
| Set_password_hash (v : string)
| Set_status (v : AccountStatus.t)
| Set_last_login_at (v : Z).
Definition setattr (a : attr) (x : t) : t :=
  match a with
  | Set_password_hash v => mk (id x) (email x) v (name x) (status x) (last_login_at x)
  | Set_status v => mk (id x) (email x) (password_hash x) (name x) v (last_login_at x)
  | Set_last_login_at v => mk (id x) (email x) (password_hash x) (name x) (status x) (Some v)
  end.
Definition is_active (x : t) : bool := AccountStatus.eqb (status x) AccountStatus.ACTIVE.
Definition is_banned (x : t) : bool := AccountStatus.eqb (status x) AccountStatus.BANNED.
End Account.

Module Tenant.
Record t : Type := mk {
  id : UUID;
  name : string;
  plan : TenantPlan.t;
  status : TenantStatus.t
}.
Inductive attr : Type :=
| Set_name (v : string)
| Set_plan (v : TenantPlan.t)
| Set_status (v : TenantStatus.t).
Definition setattr (a : attr) (x : t) : t :=
  match a with
  | Set_name v => mk (id x) v (plan x) (status x)
  | Set_plan v => mk (id x) (name x) v (status x)
  | Set_status v => mk (id x) (name x) (plan x) v
  end.
End Tenant.

Module TenantAccountJoin.
Record t : Type := mk {
  id : UUID;
  tenant_id : UUID;
  account_id : UUID;
  role : TenantRole.t
}.
Definition with_role (r : TenantRole.t) (x : t) : t :=
  mk (id x) (tenant_id x) (account_id x) r.
Definition is_owner (x : t) : bool := TenantRole.eqb (role x) TenantRole.OWNER.
Definition is_admin (x : t) : bool :=
  TenantRole.eqb (role x) TenantRole.OWNER || TenantRole.eqb (role x) TenantRole.ADMIN.
End TenantAccountJoin.

Module App.
Record t : Type := mk {
  id : UUID;
  tenant_id : UUID;
  name : string;
  description : option string;
  mode : AppMode.t;
  enable_site : bool;
  enable_api : bool;
  status : AppStatus.t;
  created_by : option UUID
}.
Inductive attr : Type :=
| Set_name (v : string)
| Set_description (v : option string)
| Set_mode (v : AppMode.t)
| Set_enable_site (v : bool)
| Set_enable_api (v : bool)
| Set_status (v : AppStatus.t).
Definition setattr (a : attr) (x : t) : t :=
  match a with
  | Set_name v =>
      mk (id x) (tenant_id x) v (description x) (mode x) (enable_site x)
         (enable_api x) (status x) (created_by x)
  | Set_description v =>
      mk (id x) (tenant_id x) (name x) v (mode x) (enable_site x)
         (enable_api x) (status x) (created_by x)
  | Set_mode v =>
      mk (id x) (tenant_id x) (name x) (description x) v (enable_site x)
         (enable_api x) (status x) (created_by x)
  | Set_enable_site v =>
      mk (id x) (tenant_id x) (name x) (description x) (mode x) v
         (enable_api x) (status x) (created_by x)
  | Set_enable_api v =>
      mk (id x) (tenant_id x) (name x) (description x) (mode x) (enable_site x)
         v (status x) (created_by x)
  | Set_status v =>
      mk (id x) (tenant_id x) (name x) (description x) (mode x) (enable_site x)
         (enable_api x) v (created_by x)
  end.
End App.

Module ModelProvider.
Record t : Type := mk {
  id : UUID;
  tenant_id : UUID;
  name : string;
  provider_type : ProviderType.t;
  encrypted_credentials : string;
  is_active : bool;
  config : pyval;
  quota_config : pyval;
  created_by : option UUID;
  updated_by : option UUID
}.
Definition with_is_active (b : bool) (x : t) : t :=
  mk (id x) (tenant_id x) (name x) (provider_type x) (encrypted_credentials x) b
     (config x) (quota_config x) (created_by x) (updated_by x).

(** The columns [ModelProviderService.update_provider] assigns. *)
Inductive attr : Type :=
| Set_name (v : string)
| Set_encrypted_credentials (v : string)
| Set_config (v : pyval)
| Set_quota_config (v : pyval)
| Set_updated_by (v : UUID).
Definition setattr (a : attr) (x : t) : t :=
  match a with
  | Set_name v =>
      mk (id x) (tenant_id x) v (provider_type x) (encrypted_credentials x) (is_active x)
         (config x) (quota_config x) (created_by x) (updated_by x)
  | Set_encrypted_credentials v =>
      mk (id x) (tenant_id x) (name x) (provider_type x) v (is_active x)
         (config x) (quota_config x) (created_by x) (updated_by x)
  | Set_config v =>
      mk (id x) (tenant_id x) (name x) (provider_type x) (encrypted_credentials x) (is_active x)
         v (quota_config x) (created_by x) (updated_by x)
  | Set_quota_config v =>
      mk (id x) (tenant_id x) (name x) (provider_type x) (encrypted_credentials x) (is_active x)
         (config x) v (created_by x) (updated_by x)
  | Set_updated_by v =>
      mk (id x) (tenant_id x) (name x) (provider_type x) (encrypted_credentials x) (is_active x)
         (config x) (quota_config x) (created_by x) (Some v)
  end.

(** [encrypt_credentials]: for now a plain [json.dumps]. *)
Definition encrypt_credentials (credentials : pyval) : result string :=
  Json.dumps credentials.

(** [decrypt_credentials]: for now a plain [json.loads]. *)
Definition decrypt_credentials (encrypted_credentials : string) : result pyval :=
  Json.loads encrypted_credentials.
End ModelProvider.

(** ** The store and the monad of service calls *)

Record Store : Type := mkStore {
  accounts : list Account.t;
  tenants : list Tenant.t;
  tenant_account_joins : list TenantAccountJoin.t;
  apps : list App.t;
  model_providers : list ModelProvider.t
}.

Definition empty_store : Store := mkStore [] [] [] [] [].

Definition with_accounts (l : list Account.t) (st : Store) : Store :=
  mkStore l (tenants st) (tenant_account_joins st) (apps st) (model_providers st).
Definition with_tenants (l : list Tenant.t) (st : Store) : Store :=
  mkStore (accounts st) l (tenant_account_joins st) (apps st) (model_providers st).
Definition with_joins (l : list TenantAccountJoin.t) (st : Store) : Store :=
  mkStore (accounts st) (tenants st) l (apps st) (model_providers st).
Definition with_apps (l : list App.t) (st : Store) : Store :=
  mkStore (accounts st) (tenants st) (tenant_account_joins st) l (model_providers st).
Definition with_providers (l : list ModelProvider.t) (st : Store) : Store :=
  mkStore (accounts st) (tenants st) (tenant_account_joins st) (apps st) l.

(** A service call: it reads and updates the store and returns or raises. *)
Definition M (A : Type) : Type := Store -> result A * Store.

Definition ret {A} (a : A) : M A := fun st => (Ok a, st).
Definition raise {A} (e : exn) : M A := fun st => (Raise e, st).
Definition bind {A B} (m : M A) (k : A -> M B) : M B :=
  fun st =>
    match m st with
    | (Ok a, st') => k a st'
    | (Raise e, st') => (Raise e, st')
    end.
Definition gets {A} (q : Store -> A) : M A := fun st => (Ok (q st), st).
Definition modify (f : Store -> Store) : M unit := fun st => (Ok tt, f st).
Definition lift {A} (r : result A) : M A := fun st => (r, st).

Declare Scope service_scope.
Delimit Scope service_scope with service.
Notation "x <- m ;; k" := (bind m (fun x => k))
  (at level 61, m at next level, right associativity) : service_scope.
Notation "m ;;; k" := (bind m (fun _ => k))
  (at level 61, right associativity) : service_scope.
Open Scope service_scope.

(** ** Repositories *)

(** The first row satisfying [p] replaced by [y]. *)
Fixpoint replace_first {T} (p : T -> bool) (y : T) (l : list T) : list T :=
  match l with
  | [] => []
  | x :: r => if p x then y :: r else x :: replace_first p y r
  end.

(** The first row satisfying [p] removed. *)
Fixpoint remove_first {T} (p : T -> bool) (l : list T) : list T :=
  match l with
  | [] => []
  | x :: r => if p x then r else x :: remove_first p r
  end.

Definition pk_taken {T} (pk : T -> UUID) (new_id : UUID) (l : list T) : bool :=
  existsb (fun x => N.eqb (pk x) new_id) l.

Definition duplicate_key : exn := IntegrityError "duplicate key value violates unique constraint".

Module AccountRepository.
Definition get_by_id (id : UUID) (st : Store) : option Account.t :=
  find (fun a => N.eqb (Account.id a) id) (accounts st).
Definition get_by_email (email : string) (st : Store) : option Account.t :=
  find (fun a => String.eqb (Account.email a) email) (accounts st).
Definition email_exists (email : string) (st : Store) : bool :=
  existsb (fun a => String.eqb (Account.email a) email) (accounts st).
Definition update (id : UUID) (kwargs : list Account.attr) : M (option Account.t) :=
  instance <- gets (get_by_id id) ;;
  match instance with
  | None => ret None
  | Some x =>
      let x' := fold_left (fun x a => Account.setattr a x) kwargs x in
      modify (fun st =>
        with_accounts (replace_first (fun a => N.eqb (Account.id a) id) x' (accounts st)) st) ;;;
      ret (Some x')
  end.
(** [create]: the row is refused when its key or its [email], a unique
    column, is already there. *)
Definition create (new_id : UUID) (email password_hash name : string)
    (status : AccountStatus.t) : M Account.t :=
  taken <- gets (fun st => pk_taken Account.id new_id (accounts st) || email_exists email st) ;;
  if taken : bool then raise duplicate_key
  else
    let instance := Account.mk new_id email password_hash name status None in
    modify (fun st => with_accounts (accounts st ++ [instance]) st) ;;;
    ret instance.
End AccountRepository.

Module TenantRepository.
Definition get_by_id (id : UUID) (st : Store) : option Tenant.t :=
  find (fun t => N.eqb (Tenant.id t) id) (tenants st).
Definition get_by_name (name : string) (st : Store) : option Tenant.t :=
  find (fun t => String.eqb (Tenant.name t) name) (tenants st).
Definition create (new_id : UUID) (name : string) (plan : TenantPlan.t)
    (status : TenantStatus.t) : M Tenant.t :=
  taken <- gets (fun st => pk_taken Tenant.id new_id (tenants st)) ;;
  if taken : bool then raise duplicate_key
  else
    let instance := Tenant.mk new_id name plan status in
    modify (fun st => with_tenants (tenants st ++ [instance]) st) ;;;
    ret instance.
Definition update (id : UUID) (kwargs : list Tenant.attr) : M (option Tenant.t) :=
  instance <- gets (get_by_id id) ;;
  match instance with
  | None => ret None
  | Some x =>
      let x' := fold_left (fun x a => Tenant.setattr a x) kwargs x in
      modify (fun st =>
        with_tenants (replace_first (fun t => N.eqb (Tenant.id t) id) x' (tenants st)) st) ;;;
      ret (Some x')
  end.
Definition is_join (tenant_id account_id : UUID) (j : TenantAccountJoin.t) : bool :=
  N.eqb (TenantAccountJoin.tenant_id j) tenant_id
  && N.eqb (TenantAccountJoin.account_id j) account_id.
Definition get_member_join (tenant_id account_id : UUID) (st : Store)
    : option TenantAccountJoin.t :=
  find (is_join tenant_id account_id) (tenant_account_joins st).
Definition get_member_role (tenant_id account_id : UUID) (st : Store)
    : option TenantRole.t :=
  match find (is_join tenant_id account_id) (tenant_account_joins st) with
  | Some j => Some (TenantAccountJoin.role j)
  | None => None
  end.
Definition is_member (tenant_id account_id : UUID) (st : Store) : bool :=
  existsb (is_join tenant_id account_id) (tenant_account_joins st).
Definition add_member (new_id : UUID) (tenant_id account_id : UUID)
    (role : TenantRole.t) : M (option TenantAccountJoin.t) :=
  existing <- gets (get_member_join tenant_id account_id) ;;
  match existing with
  | Some _ => ret None
  | None =>
      taken <- gets (fun st => pk_taken TenantAccountJoin.id new_id (tenant_account_joins st)) ;;
      if taken : bool then raise duplicate_key
      else
        let join := TenantAccountJoin.mk new_id tenant_id account_id role in
        modify (fun st => with_joins (tenant_account_joins st ++ [join]) st) ;;;
        ret (Some join)
  end.
Definition remove_member (tenant_id account_id : UUID) : M bool :=
  join <- gets (get_member_join tenant_id account_id) ;;
  match join with
  | None => ret false
  | Some _ =>
      modify (fun st =>
        with_joins (remove_first (is_join tenant_id account_id) (tenant_account_joins st)) st) ;;;
      ret true
  end.
Definition update_member_role (tenant_id account_id : UUID) (role : TenantRole.t)
    : M (option TenantAccountJoin.t) :=
  join <- gets (get_member_join tenant_id account_id) ;;
  match join with
  | None => ret None
  | Some j =>
      let j' := TenantAccountJoin.with_role role j in
      modify (fun st =>
        with_joins (replace_first (is_join tenant_id account_id) j' (tenant_account_joins st)) st) ;;;
      ret (Some j')
  end.
Definition get_tenant_members (tenant_id : UUID) (st : Store) : list Account.t :=
  filter (fun a =>
            existsb (fun j => N.eqb (TenantAccountJoin.tenant_id j) tenant_id
                              && N.eqb (TenantAccountJoin.account_id j) (Account.id a))
                    (tenant_account_joins st))
         (accounts st).
End TenantRepository.

Module AppRepository.
Definition get_by_id (id : UUID) (st : Store) : option App.t :=
  find (fun a => N.eqb (App.id a) id) (apps st).
Definition create (instance : App.t) : M App.t :=
  taken <- gets (fun st => pk_taken App.id (App.id instance) (apps st)) ;;
  if taken : bool then raise duplicate_key
  else
    modify (fun st => with_apps (apps st ++ [instance]) st) ;;;
    ret instance.
Definition update (id : UUID) (kwargs : list App.attr) : M (option App.t) :=
  instance <- gets (get_by_id id) ;;
  match instance with
  | None => ret None
  | Some x =>
      let x' := fold_left (fun x a => App.setattr a x) kwargs x in
      modify (fun st =>
        with_apps (replace_first (fun a => N.eqb (App.id a) id) x' (apps st)) st) ;;;
      ret (Some x')
  end.
Definition delete (id : UUID) : M bool :=
  instance <- gets (get_by_id id) ;;
  match instance with
  | None => ret false
  | Some _ =>
      modify (fun st =>
        with_apps (remove_first (fun a => N.eqb (App.id a) id) (apps st)) st) ;;;
      ret true
  end.
Definition get_by_tenant (tenant_id : UUID) (st : Store) : list App.t :=
  filter (fun a => N.eqb (App.tenant_id a) tenant_id) (apps st).
Definition get_active_apps_by_tenant (tenant_id : UUID) (st : Store) : list App.t :=
  filter (fun a => N.eqb (App.tenant_id a) tenant_id
                   && AppStatus.eqb (App.status a) AppStatus.NORMAL) (apps st).
Definition archive (id : UUID) : M (option App.t) :=
  update id [App.Set_status AppStatus.ARCHIVED].
Definition unarchive (id : UUID) : M (option App.t) :=
  update id [App.Set_status AppStatus.NORMAL].
Definition enable_site (id : UUID) (enable : bool) : M (option App.t) :=
  update id [App.Set_enable_site enable].
Definition enable_api (id : UUID) (enable : bool) : M (option App.t) :=
  update id [App.Set_enable_api enable].
End AppRepository.

Module ModelProviderRepository.
Definition get_by_id (id : UUID) (st : Store) : option ModelProvider.t :=
  find (fun p => N.eqb (ModelProvider.id p) id) (model_providers st).
Definition create (instance : ModelProvider.t) : M ModelProvider.t :=
  taken <- gets (fun st => pk_taken ModelProvider.id (ModelProvider.id instance)
                                    (model_providers st)) ;;
  if taken : bool then raise duplicate_key
  else
    modify (fun st => with_providers (model_providers st ++ [instance]) st) ;;;
    ret instance.
Definition delete (id : UUID) : M bool :=
  instance <- gets (get_by_id id) ;;
  match instance with
  | None => ret false
  | Some _ =>
      modify (fun st =>
        with_providers
          (remove_first (fun p => N.eqb (ModelProvider.id p) id) (model_providers st)) st) ;;;
      ret true
  end.
Definition get_active_by_tenant_and_name (tenant_id : UUID) (name : string) (st : Store)
    : option ModelProvider.t :=
  find (fun p => N.eqb (ModelProvider.tenant_id p) tenant_id
                 && String.eqb (ModelProvider.name p) name
                 && Bool.eqb (ModelProvider.is_active p) true)
       (model_providers st).
Definition get_by_tenant_and_id (tenant_id provider_id : UUID) (st : Store)
    : option ModelProvider.t :=
  find (fun p => N.eqb (ModelProvider.tenant_id p) tenant_id
                 && N.eqb (ModelProvider.id p) provider_id)
       (model_providers st).
Definition set_active (provider_id : UUID) (b : bool) : M bool :=
  provider <- gets (get_by_id provider_id) ;;
  match provider with
  | None => ret false
  | Some p =>
      modify (fun st =>
        with_providers
          (replace_first (fun p => N.eqb (ModelProvider.id p) provider_id)
                         (ModelProvider.with_is_active b p) (model_providers st)) st) ;;;
      ret true
  end.
Definition activate (provider_id : UUID) : M bool := set_active provider_id true.
Definition deactivate (provider_id : UUID) : M bool := set_active provider_id false.
Definition update (id : UUID) (kwargs : list ModelProvider.attr)
    : M (option ModelProvider.t) :=
  instance <- gets (get_by_id id) ;;
  match instance with
  | None => ret None
  | Some x =>
      let x' := fold_left (fun x a => ModelProvider.setattr a x) kwargs x in
      modify (fun st =>
        with_providers
          (replace_first (fun p => N.eqb (ModelProvider.id p) id) x' (model_providers st)) st) ;;;
      ret (Some x')
  end.
End ModelProviderRepository.

(** ** Domain services *)

(** [role in [OWNER, ADMIN]] *)
Definition owner_or_admin (r : TenantRole.t) : bool :=
  TenantRole.eqb r TenantRole.OWNER || TenantRole.eqb r TenantRole.ADMIN.

Module TenantService.

(** [tenant_pk] and [join_pk] are the keys of the two rows inserted. *)
Definition create_tenant (tenant_pk join_pk : UUID) (name : string)
    (owner_account_id : UUID) (plan : TenantPlan.t) : M Tenant.t :=
  if Text.is_empty name || (Text.len (Text.strip name) =? 0)%N
  then raise (ValidationError "Tenant name is required")
  else if (100 <? Text.len (Text.strip name))%N
  then raise (ValidationError "Tenant name is too long (max 100 characters)")
  else
    owner <- gets (AccountRepository.get_by_id owner_account_id) ;;
    match owner with
    | None => raise (ResourceNotFoundError "Account" (IdUUID owner_account_id))
    | Some _ =>
        existing <- gets (TenantRepository.get_by_name (Text.strip name)) ;;
        match existing with
        | Some _ => raise (ResourceConflictError ("Tenant name already exists: " ++ name))
        | None =>
            tenant <- TenantRepository.create tenant_pk (Text.strip name) plan
                        TenantStatus.ACTIVE ;;
            TenantRepository.add_member join_pk (Tenant.id tenant) owner_account_id
              TenantRole.OWNER ;;;
            ret tenant
        end
    end.

Definition add_member (join_pk : UUID) (tenant_id account_id : UUID)
    (role : TenantRole.t) (operator_account_id : UUID) : M unit :=
  tenant <- gets (TenantRepository.get_by_id tenant_id) ;;
  match tenant with
  | None => raise (ResourceNotFoundError "Tenant" (IdUUID tenant_id))
  | Some _ =>
      account <- gets (AccountRepository.get_by_id account_id) ;;
      match account with
      | None => raise (ResourceNotFoundError "Account" (IdUUID account_id))
      | Some _ =>
          operator_role <- gets (TenantRepository.get_member_role tenant_id operator_account_id) ;;
          match operator_role with
          | Some r =>
              if owner_or_admin r then
                already <- gets (TenantRepository.is_member tenant_id account_id) ;;
                if already : bool
                then raise (ResourceConflictError "Account is already a member of this tenant")
                else
                  TenantRepository.add_member join_pk tenant_id account_id role ;;;
                  ret tt
              else raise (AuthorizationError "Only owner or admin can add members")
          | None => raise (AuthorizationError "Only owner or admin can add members")
          end
      end
  end.

Definition remove_member (tenant_id account_id operator_account_id : UUID) : M unit :=
  tenant <- gets (TenantRepository.get_by_id tenant_id) ;;
  match tenant with
  | None => raise (ResourceNotFoundError "Tenant" (IdUUID tenant_id))
  | Some _ =>
      operator_role <- gets (TenantRepository.get_member_role tenant_id operator_account_id) ;;
      match operator_role with
      | None => raise (AuthorizationError "Only owner or admin can remove members")
      | Some op =>
          if negb (owner_or_admin op)
          then raise (AuthorizationError "Only owner or admin can remove members")
          else
            member_role <- gets (TenantRepository.get_member_role tenant_id account_id) ;;
            match member_role with
            | None => raise (ResourceNotFoundError "Member" (IdUUID account_id))
            | Some mr =>
                if TenantRole.eqb mr TenantRole.OWNER
                then raise (BusinessLogicError "Cannot remove tenant owner")
                else if TenantRole.eqb op TenantRole.ADMIN && TenantRole.eqb mr TenantRole.ADMIN
                then raise (AuthorizationError "Admin cannot remove another admin")
                else
                  TenantRepository.remove_member tenant_id account_id ;;;
                  ret tt
            end
      end
  end.

Definition update_member_role (tenant_id account_id : UUID) (new_role : TenantRole.t)
    (operator_account_id : UUID) : M unit :=
  tenant <- gets (TenantRepository.get_by_id tenant_id) ;;
  match tenant with
  | None => raise (ResourceNotFoundError "Tenant" (IdUUID tenant_id))
  | Some _ =>
      operator_role <- gets (TenantRepository.get_member_role tenant_id operator_account_id) ;;
      match operator_role with
      | Some TenantRole.OWNER =>
          member_role <- gets (TenantRepository.get_member_role tenant_id account_id) ;;
          match member_role with
          | None => raise (ResourceNotFoundError "Member" (IdUUID account_id))
          | Some mr =>
              if TenantRole.eqb mr TenantRole.OWNER
              then raise (BusinessLogicError "Cannot change owner role")
              else if TenantRole.eqb new_role TenantRole.OWNER
              then raise (BusinessLogicError "Cannot set member to owner role")
              else
                TenantRepository.update_member_role tenant_id account_id new_role ;;;
                ret tt
          end
      | _ => raise (AuthorizationError "Only owner can update member roles")
      end
  end.

Definition get_tenant_members (tenant_id : UUID) (st : Store) : result (list Account.t) :=
  match TenantRepository.get_by_id tenant_id st with
  | None => Raise (ResourceNotFoundError "Tenant" (IdUUID tenant_id))
  | Some _ => Ok (TenantRepository.get_tenant_members tenant_id st)
  end.

Definition is_member (tenant_id account_id : UUID) (st : Store) : bool :=
  match TenantRepository.get_member_role tenant_id account_id st with
  | Some _ => true
  | None => false
  end.

Definition check_permission (tenant_id account_id : UUID) (required_role : TenantRole.t)
    (st : Store) : bool :=
  match TenantRepository.get_member_role tenant_id account_id st with
  | None => false
  | Some member_role =>
      if TenantRole.eqb member_role TenantRole.OWNER then true
      else if TenantRole.eqb member_role TenantRole.ADMIN then
        TenantRole.eqb required_role TenantRole.ADMIN
        || TenantRole.eqb required_role TenantRole.MEMBER
      else TenantRole.eqb required_role TenantRole.MEMBER
  end.

Definition update_tenant (tenant_id operator_account_id : UUID)
    (updates : list Tenant.attr) : M (option Tenant.t) :=
  tenant <- gets (TenantRepository.get_by_id tenant_id) ;;
  match tenant with
  | None => raise (ResourceNotFoundError "Tenant" (IdUUID tenant_id))
  | Some _ =>
      operator_role <- gets (TenantRepository.get_member_role tenant_id operator_account_id) ;;
      match operator_role with
      | Some TenantRole.OWNER => TenantRepository.update tenant_id updates
      | _ => raise (AuthorizationError "Only owner can update tenant")
      end
  end.

End TenantService.

Module AppService.

Definition create_app (app_pk : UUID) (tenant_id account_id : UUID) (name : string)
    (mode : AppMode.t) (description : option string) : M App.t :=
  if Text.is_empty name || (Text.len (Text.strip name) =? 0)%N
  then raise (ValidationError "App name is required")
  else if (100 <? Text.len (Text.strip name))%N
  then raise (ValidationError "App name is too long (max 100 characters)")
  else
    tenant <- gets (TenantRepository.get_by_id tenant_id) ;;
    match tenant with
    | None => raise (ResourceNotFoundError "Tenant" (IdUUID tenant_id))
    | Some _ =>
        member <- gets (TenantRepository.is_member tenant_id account_id) ;;
        if member : bool then
          AppRepository.create
            (App.mk app_pk tenant_id (Text.strip name) description mode true true
                    AppStatus.NORMAL (Some account_id))
        else raise (AuthorizationError "Not a member of this tenant")
    end.

(** The prologue shared by the member-gated operations on one app. *)
Definition as_member {A} (app_id account_id : UUID) (k : App.t -> M A) : M A :=
  app <- gets (AppRepository.get_by_id app_id) ;;
  match app with
  | None => raise (ResourceNotFoundError "App" (IdUUID app_id))
  | Some a =>
      member <- gets (TenantRepository.is_member (App.tenant_id a) account_id) ;;
      if member : bool then k a
      else raise (AuthorizationError "Not a member of this tenant")
  end.

Definition update_app (app_id account_id : UUID) (updates : list App.attr)
    : M (option App.t) :=
  as_member app_id account_id (fun _ => AppRepository.update app_id updates).

Definition delete_app (app_id account_id : UUID) : M unit :=
  app <- gets (AppRepository.get_by_id app_id) ;;
  match app with
  | None => raise (ResourceNotFoundError "App" (IdUUID app_id))
  | Some a =>
      member_role <- gets (TenantRepository.get_member_role (App.tenant_id a) account_id) ;;
      match member_role with
      | Some r =>
          if owner_or_admin r then AppRepository.delete app_id ;;; ret tt
          else raise (AuthorizationError "Only admin or owner can delete apps")
      | None => raise (AuthorizationError "Only admin or owner can delete apps")
      end
  end.

Definition archive_app (app_id account_id : UUID) : M (option App.t) :=
  as_member app_id account_id (fun _ => AppRepository.archive app_id).

Definition unarchive_app (app_id account_id : UUID) : M (option App.t) :=
  as_member app_id account_id (fun _ => AppRepository.unarchive app_id).

Definition toggle_site (app_id account_id : UUID) (enable : bool) : M (option App.t) :=
  as_member app_id account_id (fun _ => AppRepository.enable_site app_id enable).

Definition toggle_api (app_id account_id : UUID) (enable : bool) : M (option App.t) :=
  as_member app_id account_id (fun _ => AppRepository.enable_api app_id enable).

Definition get_tenant_apps (tenant_id account_id : UUID) (include_archived : bool)
    (st : Store) : result (list App.t) :=
  match TenantRepository.get_by_id tenant_id st with
  | None => Raise (ResourceNotFoundError "Tenant" (IdUUID tenant_id))
  | Some _ =>
      if TenantRepository.is_member tenant_id account_id st then
        if include_archived then Ok (AppRepository.get_by_tenant tenant_id st)
        else Ok (AppRepository.get_active_apps_by_tenant tenant_id st)
      else Raise (AuthorizationError "Not a member of this tenant")
  end.

End AppService.

(** ** Collaborators *)

(** [str(u)] and [uuid.UUID(s)]. *)
Class UuidText : Type := {
  uuid_str : UUID -> string;
  UUID_of_str : string -> option UUID
}.

Record UuidTextLaws (U : UuidText) : Prop := {
  UUID_of_str_uuid_str : forall u, UUID_of_str (uuid_str u) = Some u;
  uuid_str_not_empty : forall u, uuid_str u <> EmptyString
}.

(** [werkzeug.security.check_password_hash]. *)
Class PasswordHasher : Type := {
  check_password_hash : string -> string -> bool
}.

(** [werkzeug.security.generate_password_hash]; the salt it draws is an
    explicit argument. *)
Class PasswordGenerator : Type := {
  generate_password_hash : string -> string -> string
}.

(** A hash checks against the password it was generated from. *)
Record PasswordLaws (H : PasswordHasher) (G : PasswordGenerator) : Prop := {
  check_generate : forall salt password,
    check_password_hash (generate_password_hash salt password) password = true
}.

(** What [jwt.decode] does with a token at a given time. *)
Inductive decoded : Type :=
| Decoded (payload : pyval)
| ExpiredSignatureError
| InvalidTokenError.

(** [jwt.encode] and [jwt.decode] for one algorithm; [jwt_payload] reads the
    claims of a token without verifying it. *)
Class JwtCodec : Type := {
  token : Type;
  jwt_encode : pyval -> string -> token;
  jwt_decode : token -> string -> Z -> decoded;
  jwt_payload : token -> option pyval
}.

Definition claim (name : string) (payload : pyval) : option pyval :=
  match payload with
  | PyDict d => Py.lookup name d
  | _ => None
  end.

Record JwtLaws (J : JwtCodec) : Prop := {
  (** a token verifies under the key it was signed with, from its [iat]
      until its [exp] *)
  jwt_decode_encode : forall payload key now exp iat,
    claim "exp" payload = Some (PyInt exp) ->
    claim "iat" payload = Some (PyInt iat) ->
    (iat <= now)%Z -> (now < exp)%Z ->
    jwt_decode (jwt_encode payload key) key now = Decoded payload;
  (** what [jwt.decode] returns is the payload of the token *)
  jwt_decode_payload : forall t key now payload,
    jwt_decode t key now = Decoded payload -> jwt_payload t = Some payload;
  (** [jwt.decode] returns no payload whose [exp] has passed *)
  jwt_decode_fresh : forall t key now payload exp,
    jwt_decode t key now = Decoded payload ->
    claim "exp" payload = Some (PyInt exp) -> (now < exp)%Z
}.

(** What an [httpx] request does. *)
Inductive http_reply : Type :=
| Http2xx
| HttpError (message : string)
| HttpRaises (e : exn).

(** What a streamed request does: it fails before the first line, or it
    delivers lines and then ends or fails. *)
Inductive stream_reply : Type :=
| StreamFails (message : string)
| StreamLines (lines : list string) (broken : option string).

Class HttpClient : Type := {
  http_get : string -> option pyval -> http_reply;
  http_stream : string -> pyval -> pyval -> stream_reply
}.

(** ** Regular expressions

  The fragment of [re] that [_validate_email] uses: literal characters,
  character classes repeated a minimum number of times, and [$].  A pattern
  is the list of its items; [matches] is [re.match], which anchors the
  pattern at the start of the string. *)

Module Re.

Inductive item : Type :=
| Literal (c : ascii)
| Repeat (cls : ascii -> bool) (min : nat)
| AtEnd.

(** [cls{min,}] followed by [k]. *)
Fixpoint many (cls : ascii -> bool) (k : string -> bool) (min : nat) (s : string) : bool :=
  match s with
  | String c r => cls c && many cls k (Nat.pred min) r || Nat.eqb min 0 && k s
  | EmptyString => Nat.eqb min 0 && k s
  end.

(** [$]: at the end of the string, or just before a newline that ends it. *)
Definition at_end (s : string) : bool :=
  match s with
  | EmptyString => true
  | String c EmptyString => Ascii.eqb c "010"
  | _ => false
  end.

Fixpoint matches (pattern : list item) (s : string) : bool :=
  match pattern with
  | [] => true
  | Literal c :: rest =>
      match s with
      | String d r => Ascii.eqb d c && matches rest r
      | EmptyString => false
      end
  | Repeat cls min :: rest => many cls (matches rest) min s
  | AtEnd :: rest => at_end s && matches rest s
  end.

Definition between (lo hi : N) (c : ascii) : bool :=
  ((lo <=? Text.code c) && (Text.code c <=? hi))%N.

(** [c] is one of the characters of [set]. *)
Definition one_of (set : string) (c : ascii) : bool :=
  existsb (Ascii.eqb c) (list_ascii_of_string set).

(** [a-zA-Z] *)
Definition alpha (c : ascii) : bool := between 97 122 c || between 65 90 c.

(** [a-zA-Z0-9] *)
Definition alnum (c : ascii) : bool := alpha c || between 48 57 c.

(** Every character of [s] is in [cls]. *)
Fixpoint every (cls : ascii -> bool) (s : string) : bool :=
  match s with
  | EmptyString => true
  | String c r => cls c && every cls r
  end.

End Re.

(** ** Authentication service *)

Module AuthService.

Record t : Type := mk {
  secret_key : string;
  token_expiry_hours : Z
}.

Section WithCollaborators.
Context {U : UuidText} {H : PasswordHasher} {J : JwtCodec}.

Definition _generate_token (self : t) (utcnow : Z) (account_id : UUID) (email : string)
    : token :=
  let payload :=
    PyDict [ (PyStr "account_id", PyStr (uuid_str account_id));
             (PyStr "email", PyStr email);
             (PyStr "exp", PyInt (utcnow + 3600 * token_expiry_hours self));
             (PyStr "iat", PyInt utcnow) ] in
  jwt_encode payload (secret_key self).

Definition login (self : t) (utcnow : Z) (email password : string)
    : M (Account.t * token) :=
  account <- gets (AccountRepository.get_by_email email) ;;
  match account with
  | None => raise (AuthenticationError "Invalid email or password")
  | Some a =>
      match Account.status a with
      | AccountStatus.BANNED => raise (AuthenticationError "Account has been banned")
      | AccountStatus.INACTIVE => raise (AuthenticationError "Account is inactive")
      | AccountStatus.ACTIVE =>
          if check_password_hash (Account.password_hash a) password then
            updated <- AccountRepository.update (Account.id a)
                         [Account.Set_last_login_at utcnow] ;;
            let a' := match updated with Some x => x | None => a end in
            ret (a', _generate_token self utcnow (Account.id a) (Account.email a))
          else raise (AuthenticationError "Invalid email or password")
      end
  end.

Definition verify_token (self : t) (now : Z) (tok : token) (st : Store)
    : result Account.t :=
  match jwt_decode tok (secret_key self) now with
  | ExpiredSignatureError => Raise (AuthenticationError "Token has expired")
  | InvalidTokenError => Raise (AuthenticationError "Invalid token")
  | Decoded payload =>
      match payload with
      | PyDict d =>
          let account_id := match Py.lookup "account_id" d with
                            | Some v => v
                            | None => PyNone
                            end in
          if negb (Py.truthy account_id)
          then Raise (AuthenticationError "Invalid token")
          else
            match account_id with
            | PyStr s =>
                match UUID_of_str s with
                | None => Raise (ValueError "badly formed hexadecimal UUID string")
                | Some u =>
                    match AccountRepository.get_by_id u st with
                    | None => Raise (AuthenticationError "Account not found")
                    | Some account =>
                        if negb (Account.is_active account)
                        then Raise (AuthenticationError "Account is not active")
                        else Ok account
                    end
                end
            | v => Raise (AttributeError ("'" ++ Py.type_name v
                                            ++ "' object has no attribute 'replace'"))
            end
      | v => Raise (AttributeError ("'" ++ Py.type_name v
                                      ++ "' object has no attribute 'get'"))
      end
  end.

End WithCollaborators.

(** [[a-zA-Z0-9._%+-]] *)
Definition local_char (c : ascii) : bool := Re.alnum c || Re.one_of "._%+-" c.

(** [[a-zA-Z0-9.-]] *)
Definition domain_char (c : ascii) : bool := Re.alnum c || Re.one_of ".-" c.

(** [^[a-zA-Z0-9._%+-]+@[a-zA-Z0-9.-]+\.[a-zA-Z]{2,}$] *)
Definition email_pattern : list Re.item :=
  [ Re.Repeat local_char 1; Re.Literal "@"; Re.Repeat domain_char 1; Re.Literal ".";
    Re.Repeat Re.alpha 2; Re.AtEnd ].

Definition _validate_email (email : string) : bool := Re.matches email_pattern email.

Definition _validate_password (password : string) : bool := (6 <=? Text.len password)%N.

Section WithPasswords.
Context {H : PasswordHasher} {G : PasswordGenerator}.

(** [account_pk] is the key of the row inserted, [salt] the salt of the hash. *)
Definition register (account_pk : UUID) (salt : string) (email password name : string)
    : M Account.t :=
  if negb (_validate_email email) then raise (ValidationError "Invalid email format")
  else if negb (_validate_password password)
  then raise (ValidationError "Password must be at least 6 characters")
  else if Text.is_empty name || (Text.len (Text.strip name) =? 0)%N
  then raise (ValidationError "Name is required")
  else
    taken <- gets (AccountRepository.email_exists email) ;;
    if taken : bool then raise (ResourceConflictError ("Email already exists: " ++ email))
    else
      AccountRepository.create account_pk email (generate_password_hash salt password)
        (Text.strip name) AccountStatus.ACTIVE.

Definition change_password (salt : string) (account_id : UUID)
    (old_password new_password : string) : M (option Account.t) :=
  account <- gets (AccountRepository.get_by_id account_id) ;;
  match account with
  | None => raise (ResourceNotFoundError "Account" (IdUUID account_id))
  | Some a =>
      if negb (check_password_hash (Account.password_hash a) old_password)
      then raise (AuthenticationError "Old password is incorrect")
      else if negb (_validate_password new_password)
      then raise (ValidationError "New password must be at least 6 characters")
      else
        AccountRepository.update account_id
          [Account.Set_password_hash (generate_password_hash salt new_password)]
  end.

Definition reset_password (salt : string) (email new_password : string)
    : M (option Account.t) :=
  account <- gets (AccountRepository.get_by_email email) ;;
  match account with
  | None => raise (ResourceNotFoundError "Account" (IdText email))
  | Some a =>
      if negb (_validate_password new_password)
      then raise (ValidationError "Password must be at least 6 characters")
      else
        AccountRepository.update (Account.id a)
          [Account.Set_password_hash (generate_password_hash salt new_password)]
  end.

End WithPasswords.
End AuthService.

(** ** Provider adapters *)

Module ProviderCredentials.
(** [credentials.get(key, default)] on the wrapped dictionary. *)
Definition get (credentials : pyval) (key : string) (default : pyval) : result pyval :=
  match credentials with
  | PyDict d => Ok (match Py.lookup key d with Some v => v | None => default end)
  | v => Raise (AttributeError ("'" ++ Py.type_name v ++ "' object has no attribute 'get'"))
  end.
End ProviderCredentials.

(** [s.rstrip('/')] *)
Fixpoint rstrip_slash (s : string) : string :=
  match s with
  | String c r =>
      match rstrip_slash r with
      | EmptyString => if Ascii.eqb c "/" then EmptyString else String c EmptyString
      | r' => String c r'
      end
  | EmptyString => EmptyString
  end.

(** [f"{base_url.rstrip('/')}{path}"] *)
Definition endpoint (base_url : pyval) (path : string) : result string :=
  match base_url with
  | PyStr s => Ok (rstrip_slash s ++ path)
  | v => Raise (AttributeError ("'" ++ Py.type_name v ++ "' object has no attribute 'rstrip'"))
  end.

Module ModelConfig.
Record t : Type := mk {
  model : string;
  temperature : string;
  max_tokens : option Z;
  top_p : string;
  frequency_penalty : string;
  presence_penalty : string;
  stop : option (list string);
  stream : bool
}.
Definition to_dict (self : t) : list (pyval * pyval) :=
  let data :=
    [ (PyStr "model", PyStr (model self));
      (PyStr "temperature", PyFloat (temperature self));
      (PyStr "top_p", PyFloat (top_p self));
      (PyStr "frequency_penalty", PyFloat (frequency_penalty self));
      (PyStr "presence_penalty", PyFloat (presence_penalty self));
      (PyStr "stream", PyBool (stream self)) ] in
  let data := match max_tokens self with
              | Some n => Py.setitem "max_tokens" (PyInt n) data
              | None => data
              end in
  match stop self with
  | Some l => Py.setitem "stop" (PyList (map PyStr l)) data
  | None => data
  end.
End ModelConfig.

Module LLMMessage.
Record t : Type := mk { role : string; content : string }.
End LLMMessage.

Module LLMResultChunk.
Record t : Type := mk {
  model : pyval;
  delta : pyval;
  finish_reason : pyval;
  index : pyval
}.
End LLMResultChunk.

(** What a generator has done once it is exhausted: the items it yielded and
    the exception that ended it, if any. *)
Record generated (A : Type) : Type := Generated {
  yielded : list A;
  raised : option exn
}.
Arguments Generated {A} yielded raised.
Arguments yielded {A} g.
Arguments raised {A} g.

Definition yield {A} (x : A) (g : generated A) : generated A :=
  Generated (x :: yielded g) (raised g).

(** [v[k]] for a [str] [k] *)
Definition getitem (v : pyval) (k : string) : result pyval :=
  match v with
  | PyDict d =>
      match Py.lookup k d with
      | Some x => Ok x
      | None => Raise (KeyError ("'" ++ k ++ "'"))
      end
  | PyList _ => Raise (TypeError "list indices must be integers or slices, not str")
  | PyTuple _ => Raise (TypeError "tuple indices must be integers or slices, not str")
  | PyStr _ => Raise (TypeError "string indices must be integers, not 'str'")
  | v => Raise (TypeError ("'" ++ Py.type_name v ++ "' object is not subscriptable"))
  end.

(** A key that equals [0]. *)
Definition key_is_zero (key : pyval) : bool :=
  match key with
  | PyInt z => (z =? 0)%Z
  | PyBool b => negb b
  | PyFloat lit => negb (Py.mantissa_nonzero lit)
  | _ => false
  end.

(** [v[0]] *)
Definition getitem0 (v : pyval) : result pyval :=
  match v with
  | PyList (x :: _) => Ok x
  | PyList [] => Raise (IndexError "list index out of range")
  | PyTuple (x :: _) => Ok x
  | PyTuple [] => Raise (IndexError "tuple index out of range")
  | PyStr (String c _) => Ok (PyStr (String c EmptyString))
  | PyStr EmptyString => Raise (IndexError "string index out of range")
  | PyDict d =>
      match find (fun kv => key_is_zero (fst kv)) d with
      | Some kv => Ok (snd kv)
      | None => Raise (KeyError "0")
      end
  | v => Raise (TypeError ("'" ++ Py.type_name v ++ "' object is not subscriptable"))
  end.

(** [v.get(k, default)] *)
Definition get (v : pyval) (k : string) (default : pyval) : result pyval :=
  match v with
  | PyDict d => Ok (match Py.lookup k d with Some x => x | None => default end)
  | v => Raise (AttributeError ("'" ++ Py.type_name v ++ "' object has no attribute 'get'"))
  end.

Definition try {A B} (r : result A) (k : A -> result B) : result B :=
  match r with
  | Ok a => k a
  | Raise e => Raise e
  end.

Module OpenAIProvider.

Definition default_base_url : pyval := PyStr "https://api.openai.com/v1".

(** The body of the [try] in the streaming loop, for one line: the chunk to
    yield, if any. *)
Definition chunk_of_line (line : string) : result (option LLMResultChunk.t) :=
  try (Json.loads line) (fun data =>
  try (getitem data "choices") (fun choices =>
  try (getitem0 choices) (fun choice =>
  try (get choice "delta" (PyDict [])) (fun delta =>
  try (get delta "content" (PyStr EmptyString)) (fun content =>
  if Py.truthy content then
    try (getitem data "model") (fun model =>
    try (get choice "finish_reason" PyNone) (fun finish_reason =>
    try (get choice "index" (PyInt 0)) (fun index =>
    Ok (Some (LLMResultChunk.mk model content finish_reason index)))))
  else Ok None))))).

(** [for line in response.iter_lines(): ...], over the lines the response
    delivers; [broken] is the transport error that ends the response, if any,
    as the enclosing handler re-raises it. *)
Fixpoint parse_stream (lines : list string) (broken : option string)
    : generated LLMResultChunk.t :=
  match lines with
  | [] =>
      match broken with
      | Some m => Generated [] (Some (ValueError ("Failed to stream invoke model: " ++ m)))
      | None => Generated [] None
      end
  | line :: rest =>
      if Text.is_empty line then parse_stream rest broken
      else
        let line := if Text.startswith "data: " line then Text.drop 6 line else line in
        if String.eqb line "[DONE]" then Generated [] None
        else
          match chunk_of_line line with
          | Ok (Some chunk) => yield chunk (parse_stream rest broken)
          | Ok None => parse_stream rest broken
          | Raise JSONDecodeError => parse_stream rest broken
          | Raise e => Generated [] (Some e)
          end
  end.

Section WithHttp.
Context {C : HttpClient}.

Definition validate_credentials (credentials : pyval) : result bool :=
  try (ProviderCredentials.get credentials "api_key" PyNone) (fun api_key =>
  try (ProviderCredentials.get credentials "base_url" default_base_url) (fun base_url =>
  if negb (Py.truthy api_key) then Raise (ValueError "api_key is required")
  else
    try (endpoint base_url "/models") (fun url =>
    match http_get url (Some api_key) with
    | Http2xx => Ok true
    | HttpError m => Raise (ValueError ("Failed to validate credentials: " ++ m))
    | HttpRaises e => Raise e
    end))).

Definition stream_invoke (credentials : pyval) (model_config : ModelConfig.t)
    (messages : list LLMMessage.t) : generated LLMResultChunk.t :=
  let fail e := Generated [] (Some e) in
  match ProviderCredentials.get credentials "api_key" PyNone with
  | Raise e => fail e
  | Ok api_key =>
  match ProviderCredentials.get credentials "base_url" default_base_url with
  | Raise e => fail e
  | Ok base_url =>
      if negb (Py.truthy api_key) then fail (ValueError "api_key is required")
      else
        match messages with
        | [] => fail (ValueError "messages cannot be empty")
        | _ :: _ =>
            let request_data := ModelConfig.to_dict model_config in
            let request_data :=
              Py.setitem "messages"
                (PyList (map (fun msg =>
                                PyDict [ (PyStr "role", PyStr (LLMMessage.role msg));
                                         (PyStr "content", PyStr (LLMMessage.content msg)) ])
                             messages))
                request_data in
            let request_data := Py.setitem "stream" (PyBool true) request_data in
            match endpoint base_url "/chat/completions" with
            | Raise e => fail e
            | Ok url =>
                match http_stream url api_key (PyDict request_data) with
                | StreamFails m =>
                    fail (ValueError ("Failed to stream invoke model: " ++ m))
                | StreamLines lines broken => parse_stream lines broken
                end
            end
        end
  end
  end.

End WithHttp.
End OpenAIProvider.

Module TEIProvider.
Section WithHttp.
Context {C : HttpClient}.

Definition validate_credentials (credentials : pyval) : result bool :=
  try (ProviderCredentials.get credentials "base_url" PyNone) (fun base_url =>
  if negb (Py.truthy base_url) then Raise (ValueError "base_url is required")
  else
    try (endpoint base_url "/health") (fun url =>
    match http_get url None with
    | Http2xx => Ok true
    | HttpError m => Raise (ValueError ("Failed to validate credentials: " ++ m))
    | HttpRaises e => Raise e
    end)).

End WithHttp.
End TEIProvider.

(** ** Model provider service *)

Module ModelProviderService.
Section WithCollaborators.
Context {U : UuidText} {C : HttpClient}.

(** [str(e)] *)
Definition exn_str (e : exn) : string :=
  match e with
  | ValidationError m | AuthenticationError m | AuthorizationError m
  | ResourceConflictError m | BusinessLogicError m | IntegrityError m
  | ValueError m | KeyError m | IndexError m | TypeError m | AttributeError m
  | OtherError m => m
  | ResourceNotFoundError resource (IdUUID u) => resource ++ " not found: " ++ uuid_str u
  | ResourceNotFoundError resource (IdText s) => resource ++ " not found: " ++ s
  | JSONDecodeError | OutsideModel => EmptyString
  end.

(** [ModelProviderFactory.get_provider(type).validate_credentials(...)] *)
Definition _validate_credentials (provider_type : ProviderType.t) (credentials : pyval)
    : result bool :=
  match provider_type with
  | ProviderType.OPENAI => OpenAIProvider.validate_credentials credentials
  | ProviderType.TEI => TEIProvider.validate_credentials credentials
  end.

(** [x or {}] *)
Definition or_empty_dict (x : option pyval) : pyval :=
  match x with
  | Some v => if Py.truthy v then v else PyDict []
  | None => PyDict []
  end.

Definition add_provider (provider_pk : UUID) (tenant_id : UUID) (name : string)
    (provider_type : ProviderType.t) (credentials : pyval)
    (config quota_config : option pyval) (created_by : option UUID)
    : M ModelProvider.t :=
  tenant <- gets (TenantRepository.get_by_id tenant_id) ;;
  match tenant with
  | None => raise (ResourceNotFoundError "Tenant" (IdUUID tenant_id))
  | Some _ =>
      if Text.is_empty name || (Text.len (Text.strip name) =? 0)%N
      then raise (ValidationError "Provider name is required")
      else if (100 <? Text.len name)%N
      then raise (ValidationError "Provider name is too long (max 100 characters)")
      else
        existing <- gets (ModelProviderRepository.get_active_by_tenant_and_name tenant_id name) ;;
        match existing with
        | Some _ =>
            raise (ResourceConflictError ("Provider with name '" ++ name ++ "' already exists"))
        | None =>
            if negb (Py.truthy credentials)
            then raise (ValidationError "Credentials are required")
            else
              match _validate_credentials provider_type credentials with
              | Raise e => raise (BusinessLogicError ("Invalid credentials: " ++ exn_str e))
              | Ok _ =>
                  encrypted_credentials <- lift (ModelProvider.encrypt_credentials credentials) ;;
                  ModelProviderRepository.create
                    (ModelProvider.mk provider_pk tenant_id name provider_type
                       encrypted_credentials true (or_empty_dict config)
                       (or_empty_dict quota_config) created_by None)
              end
        end
  end.

Definition get_provider (tenant_id provider_id : UUID) : M ModelProvider.t :=
  provider <- gets (ModelProviderRepository.get_by_tenant_and_id tenant_id provider_id) ;;
  match provider with
  | None => raise (ResourceNotFoundError "Provider" (IdUUID provider_id))
  | Some p => ret p
  end.

Definition delete_provider (tenant_id provider_id : UUID) : M bool :=
  get_provider tenant_id provider_id ;;;
  ModelProviderRepository.delete provider_id.

Definition activate_provider (tenant_id provider_id : UUID) : M (option ModelProvider.t) :=
  provider <- get_provider tenant_id provider_id ;;
  if ModelProvider.is_active provider
  then raise (BusinessLogicError "Provider is already active")
  else
    ModelProviderRepository.activate provider_id ;;;
    gets (ModelProviderRepository.get_by_id provider_id).

Definition deactivate_provider (tenant_id provider_id : UUID) : M (option ModelProvider.t) :=
  provider <- get_provider tenant_id provider_id ;;
  if negb (ModelProvider.is_active provider)
  then raise (BusinessLogicError "Provider is already inactive")
  else
    ModelProviderRepository.deactivate provider_id ;;;
    gets (ModelProviderRepository.get_by_id provider_id).

(** The entries [update_provider] collects for a new name. *)
Definition name_updates (tenant_id : UUID) (provider : ModelProvider.t)
    (name : option string) : M (list ModelProvider.attr) :=
  match name with
  | None => ret []
  | Some name =>
      if (Text.len (Text.strip name) =? 0)%N
      then raise (ValidationError "Provider name cannot be empty")
      else if (100 <? Text.len name)%N
      then raise (ValidationError "Provider name is too long (max 100 characters)")
      else if negb (String.eqb name (ModelProvider.name provider)) then
        existing <- gets (ModelProviderRepository.get_active_by_tenant_and_name tenant_id name) ;;
        match existing with
        | Some _ =>
            raise (ResourceConflictError ("Provider with name '" ++ name ++ "' already exists"))
        | None => ret [ModelProvider.Set_name name]
        end
      else ret [ModelProvider.Set_name name]
  end.

(** The entry [update_provider] collects for new credentials. *)
Definition credentials_updates (provider : ModelProvider.t) (credentials : option pyval)
    : M (list ModelProvider.attr) :=
  match credentials with
  | None => ret []
  | Some credentials =>
      match _validate_credentials (ModelProvider.provider_type provider) credentials with
      | Raise e => raise (BusinessLogicError ("Invalid credentials: " ++ exn_str e))
      | Ok _ =>
          encrypted_credentials <- lift (ModelProvider.encrypt_credentials credentials) ;;
          ret [ModelProvider.Set_encrypted_credentials encrypted_credentials]
      end
  end.

Definition update_provider (tenant_id provider_id : UUID) (name : option string)
    (credentials config quota_config : option pyval) (updated_by : option UUID)
    : M (option ModelProvider.t) :=
  provider <- get_provider tenant_id provider_id ;;
  named <- name_updates tenant_id provider name ;;
  keyed <- credentials_updates provider credentials ;;
  let updates :=
    (named ++ keyed
     ++ match config with Some v => [ModelProvider.Set_config v] | None => [] end
     ++ match quota_config with Some v => [ModelProvider.Set_quota_config v] | None => [] end
     ++ match updated_by with Some v => [ModelProvider.Set_updated_by v] | None => [] end)%list in
  match updates with
  | [] => ret (Some provider)
  | _ :: _ => ModelProviderRepository.update provider_id updates
  end.

(** The dictionary [test_connection] returns. *)
Definition connection_report (success : bool) (message : string) : pyval :=
  PyDict [(PyStr "success", PyBool success); (PyStr "message", PyStr message)].

Definition test_connection (tenant_id provider_id : UUID) (st : Store) : result pyval :=
  match fst (get_provider tenant_id provider_id st) with
  | Raise e => Raise e
  | Ok provider =>
      match ModelProvider.decrypt_credentials (ModelProvider.encrypted_credentials provider) with
      | Raise e => Raise e
      | Ok credentials =>
          match _validate_credentials (ModelProvider.provider_type provider) credentials with
          | Ok _ => Ok (connection_report true "Connection successful")
          | Raise e => Ok (connection_report false (exn_str e))
          end
      end
  end.

End WithCollaborators.
End ModelProviderService.

(** ** Sequences of service calls *)

Module Trace.
Section WithCollaborators.
Context {U : UuidText} {H : PasswordHasher} {J : JwtCodec} {C : HttpClient}.

(** One call of a mutating service method, with its arguments. *)
Inductive call : Type :=
| Create_tenant (tenant_pk join_pk : UUID) (name : string) (owner_account_id : UUID)
    (plan : TenantPlan.t)
| Add_member (join_pk tenant_id account_id : UUID) (role : TenantRole.t)
    (operator_account_id : UUID)
| Remove_member (tenant_id account_id operator_account_id : UUID)
| Update_member_role (tenant_id account_id : UUID) (new_role : TenantRole.t)
    (operator_account_id : UUID)
| Update_tenant (tenant_id operator_account_id : UUID) (updates : list Tenant.attr)
| Create_app (app_pk tenant_id account_id : UUID) (name : string) (mode : AppMode.t)
    (description : option string)
| Update_app (app_id account_id : UUID) (updates : list App.attr)
| Delete_app (app_id account_id : UUID)
| Archive_app (app_id account_id : UUID)
| Unarchive_app (app_id account_id : UUID)
| Toggle_site (app_id account_id : UUID) (enable : bool)
| Toggle_api (app_id account_id : UUID) (enable : bool)
| Login (self : AuthService.t) (utcnow : Z) (email password : string)
| Add_provider (provider_pk tenant_id : UUID) (name : string)
    (provider_type : ProviderType.t) (credentials : pyval)
    (config quota_config : option pyval) (created_by : option UUID)
| Delete_provider (tenant_id provider_id : UUID)
| Activate_provider (tenant_id provider_id : UUID)
| Deactivate_provider (tenant_id provider_id : UUID).

(** The store a call leaves behind, whether it returns or raises. *)
Definition run (c : call) (st : Store) : Store :=
  match c with
  | Create_tenant tpk jpk name owner plan =>
      snd (TenantService.create_tenant tpk jpk name owner plan st)
  | Add_member jpk t a role op => snd (TenantService.add_member jpk t a role op st)
  | Remove_member t a op => snd (TenantService.remove_member t a op st)
  | Update_member_role t a r op => snd (TenantService.update_member_role t a r op st)
  | Update_tenant t op updates => snd (TenantService.update_tenant t op updates st)
  | Create_app pk t a name mode d => snd (AppService.create_app pk t a name mode d st)
  | Update_app i a updates => snd (AppService.update_app i a updates st)
  | Delete_app i a => snd (AppService.delete_app i a st)
  | Archive_app i a => snd (AppService.archive_app i a st)
  | Unarchive_app i a => snd (AppService.unarchive_app i a st)
  | Toggle_site i a e => snd (AppService.toggle_site i a e st)
  | Toggle_api i a e => snd (AppService.toggle_api i a e st)
  | Login self now email password => snd (AuthService.login self now email password st)
  | Add_provider pk t name ty creds cfg quota by_ =>
      snd (ModelProviderService.add_provider pk t name ty creds cfg quota by_ st)
  | Delete_provider t p => snd (ModelProviderService.delete_provider t p st)
  | Activate_provider t p => snd (ModelProviderService.activate_provider t p st)
  | Deactivate_provider t p => snd (ModelProviderService.deactivate_provider t p st)
  end.

Definition run_all (cs : list call) (st : Store) : Store :=
  fold_left (fun st c => run c st) cs st.



End WithCollaborators.
End Trace.

(** ** Integrity of the store *)




(** ** Descriptions used in the statements *)

(** May [operator] manage the members of [tenant_id]? *)
Definition manages (tenant_id operator : UUID) (st : Store) : bool :=
  match TenantRepository.get_member_role tenant_id operator st with
  | Some r => owner_or_admin r
  | None => false
  end.

(** Is [operator] an owner of [tenant_id]? *)
Definition owns (tenant_id operator : UUID) (st : Store) : bool :=
  match TenantRepository.get_member_role tenant_id operator st with
  | Some r => TenantRole.eqb r TenantRole.OWNER
  | None => false
  end.

(** The row with primary key [i]. *)
Definition has_pk {T} (pk : T -> UUID) (i : UUID) (x : T) : bool := N.eqb (pk x) i.

(** [add_provider] accepts the name: not blank, at most 100 characters. *)
Definition provider_name_ok (name : string) : bool :=
  negb (Text.is_empty name || (Text.len (Text.strip name) =? 0)%N)
  && negb (100 <? Text.len name)%N.

(** Some provider of the tenant has the name and is active. *)
Definition active_name_taken (tenant_id : UUID) (name : string) (st : Store) : bool :=
  existsb (fun p => N.eqb (ModelProvider.tenant_id p) tenant_id
                    && String.eqb (ModelProvider.name p) name
                    && ModelProvider.is_active p)
          (model_providers st).

(** *** The stream of the completions API *)

Module Sse.

(** What is left of a line once the SSE prefix is taken off. *)
Definition payload_of (line : string) : string :=
  if Text.startswith "data: " line then Text.drop 6 line else line.

(** The payloads before the first [[DONE]]. *)
Fixpoint until_done (payloads : list string) : list string :=
  match payloads with
  | [] => []
  | p :: rest => if String.eqb p "[DONE]" then [] else p :: until_done rest
  end.

(** The payloads of a response, as the description of the stream has them:
    empty lines skipped, prefix stripped, cut at the end marker. *)
Definition payloads (lines : list string) : list string :=
  until_done (map payload_of (filter (fun l => negb (Text.is_empty l)) lines)).








(** Single quotes for double quotes, to write JSON text. *)
Fixpoint js (s : string) : string :=
  match s with
  | EmptyString => EmptyString
  | String c r => String (if Ascii.eqb c "'" then Json.quote else c) (js r)
  end.

End Sse.

(** *** Text written by the encoder *)

(** A string of decimal digits. *)
Fixpoint all_digits (s : string) : bool :=
  match s with
  | EmptyString => true
  | String c r => Json.is_digit c && all_digits r
  end.

(** The text that may follow a value in the output of the encoder: nothing,
    or a separator or a closing bracket. *)
Definition closes (rest : string) : bool :=
  match rest with
  | EmptyString => true
  | String c _ => Ascii.eqb c "," || Ascii.eqb c "]" || Ascii.eqb c "}"
  end.

(** The first character of an encoded value: neither blank nor closing. *)
Definition opens (s : string) : bool :=
  match s with
  | EmptyString => false
  | String c _ => negb (Json.is_ws c) && negb (Ascii.eqb c "]") && negb (Ascii.eqb c "}")
  end.

(** [s] is read back as [v] in front of any closing text. *)
Definition reads_back (v : pyval) (s : string) : Prop :=
  forall fuel rest,
    String.length s < fuel -> closes rest = true ->
    Json.value fuel (s ++ rest) = Json.Parsed v rest.

(** The items of a list, encoded one by one. *)
Fixpoint dumps_items (l : list pyval) : result (list string) :=
  match l with
  | [] => Ok []
  | x :: r =>
      match Json.dumps x with
      | Raise e => Raise e
      | Ok sx =>
          match dumps_items r with
          | Raise e => Raise e
          | Ok sr => Ok (sx :: sr)
          end
      end
  end.

(** The items of a dictionary, encoded one by one. *)
Fixpoint dumps_entries (d : list (pyval * pyval)) : result (list string) :=
  match d with
  | [] => Ok []
  | (k, x) :: r =>
      match Json.key_text k with
      | Raise e => Raise e
      | Ok sk =>
          match Json.dumps x with
          | Raise e => Raise e
          | Ok sx =>
              match dumps_entries r with
              | Raise e => Raise e
              | Ok sr => Ok ((Json.encode_basestring_ascii sk ++ ": " ++ sx) :: sr)
              end
          end
      end
  end.

(** The text of one item of a dictionary. *)
Definition entry_text (k sx : string) : string :=
  Json.encode_basestring_ascii k ++ ": " ++ sx.

(** The dictionary whose items are the given pairs, under string keys. *)
Definition keyed (kvs : list (string * pyval)) : list (pyval * pyval) :=
  map (fun kv => (PyStr (fst kv), snd kv)) kvs.

(** ** Collaborators to run the services with *)

Module Sample.

Definition uuid_text : UuidText := {|
  uuid_str := fun u => DecimalString.NilEmpty.string_of_uint (N.to_uint u);
  UUID_of_str := fun s => option_map N.of_uint (DecimalString.NilEmpty.uint_of_string s)
|}.

Definition hasher : PasswordHasher := {|
  check_password_hash := fun pwhash password => String.eqb pwhash ("plain:" ++ password)
|}.

(** A token is the payload together with the key that signed it. *)
Definition jwt : JwtCodec := {|
  token := pyval * string;
  jwt_encode := fun payload key => (payload, key);
  jwt_decode := fun t key now =>
    if String.eqb (snd t) key then
      match claim "exp" (fst t) with
      | Some (PyInt exp) => if (now <? exp)%Z then Decoded (fst t) else ExpiredSignatureError
      | Some _ => InvalidTokenError
      | None => Decoded (fst t)
      end
    else InvalidTokenError;
  jwt_payload := fun t => Some (fst t)
|}.

(** The hash [hasher] accepts; the salt is not used. *)
Definition generator : PasswordGenerator := {|
  generate_password_hash := fun _ password => "plain:" ++ password
|}.

(** A client whose requests all get the same scripted replies. *)
Definition http (reply : http_reply) (stream : stream_reply) : HttpClient := {|
  http_get := fun _ _ => reply;
  http_stream := fun _ _ _ => stream
|}.

End Sample.

(** ** Populated stores and responses *)

Module Demo.

Definition alice : Account.t :=
  Account.mk 1%N "a@x.com" "plain:secret1" "A" AccountStatus.ACTIVE None.
Definition bob : Account.t :=
  Account.mk 2%N "b@x.com" "plain:secret2" "B" AccountStatus.ACTIVE None.
Definition mallory : Account.t :=
  Account.mk 3%N "m@x.com" "plain:secret3" "M" AccountStatus.BANNED None.
Definition sleepy : Account.t :=
  Account.mk 4%N "s@x.com" "plain:secret4" "S" AccountStatus.INACTIVE None.

Definition registered : Store := with_accounts [alice; bob; mallory; sleepy] empty_store.

Definition http : HttpClient := Sample.http Http2xx (StreamLines [] None).

(** Alice creates tenant [10] and adds Bob as a plain member. *)
Definition team : Store :=
  Trace.run_all (U := Sample.uuid_text) (H := Sample.hasher) (J := Sample.jwt) (C := http)
    [ Trace.Create_tenant 10%N 11%N "T1" 1%N TenantPlan.FREE;
      Trace.Add_member 12%N 10%N 2%N TenantRole.MEMBER 1%N ]
    registered.

End Demo.

Module DemoApps.

Definition bot : App.t :=
  App.mk 20%N 10%N "Bot" None AppMode.CHAT true true AppStatus.NORMAL (Some 2%N).

(** Bob creates an app in the tenant of [Demo.team]. *)
Definition workspace : Store :=
  Trace.run (U := Sample.uuid_text) (H := Sample.hasher) (J := Sample.jwt) (C := Demo.http)
    (Trace.Create_app 20%N 10%N 2%N " Bot " AppMode.CHAT None) Demo.team.

End DemoApps.

Module DemoProviders.

Definition credentials : pyval := PyDict [(PyStr "api_key", PyStr "sk-test-key")].

(** The adapter cannot reach the provider. *)
Definition offline : HttpClient :=
  Sample.http (HttpError "401 Unauthorized") (StreamFails "401 Unauthorized").

(** Alice configures a provider for the tenant of [Demo.team] ... *)
Definition configured : Store :=
  Trace.run (U := Sample.uuid_text) (H := Sample.hasher) (J := Sample.jwt) (C := Demo.http)
    (Trace.Add_provider 30%N 10%N "OpenAI GPT-4" ProviderType.OPENAI credentials
       None None (Some 1%N))
    Demo.team.

(** ... and then deactivates it. *)
Definition retired : Store :=
  Trace.run (U := Sample.uuid_text) (H := Sample.hasher) (J := Sample.jwt) (C := Demo.http)
    (Trace.Deactivate_provider 10%N 30%N) configured.

End DemoProviders.

Module DemoStream.

Definition config : ModelConfig.t :=
  ModelConfig.mk "gpt-3.5-turbo" "0.7" None "1.0" "0.0" "0.0" None true.

Definition messages : list LLMMessage.t := [LLMMessage.mk "user" "Hello"].

(** A client whose stream delivers [lines] and ends as [broken] says. *)
Definition serving (lines : list string) (broken : option string) : HttpClient :=
  Sample.http Http2xx (StreamLines lines broken).

Definition hello : string :=
  Sse.js "data: {'model':'gpt-3.5-turbo','choices':[{'delta':{'content':'Hello'},'index':0}]}".
Definition bang : string :=
  Sse.js "data: {'model':'gpt-3.5-turbo','choices':[{'delta':{'content':'!'},'index':0}]}".
Definition stop : string :=
  Sse.js "data: {'model':'gpt-3.5-turbo','choices':[{'delta':{},'finish_reason':'stop','index':0}]}".

(** The response of the unit test, with noise: an empty line, a comment
    line that is not JSON, and a line after the end marker. *)
Definition response : list string :=
  [hello; ""; ": keep-alive"; bang; stop; "data: [DONE]"; hello].

Definition hello_chunk : LLMResultChunk.t :=
  LLMResultChunk.mk (PyStr "gpt-3.5-turbo") (PyStr "Hello") PyNone (PyInt 0).
Definition bang_chunk : LLMResultChunk.t :=
  LLMResultChunk.mk (PyStr "gpt-3.5-turbo") (PyStr "!") PyNone (PyInt 0).

End DemoStream.

(** ** Further descriptions used in the statements *)

(** The pair a membership row is about. *)
Definition join_key (j : TenantAccountJoin.t) : UUID * UUID :=
  (TenantAccountJoin.tenant_id j, TenantAccountJoin.account_id j).

(** The constraint [unique_tenant_account]: one membership row for an
    account in a tenant. *)
Definition joins_unique (st : Store) : Prop :=
  NoDup (map join_key (tenant_account_joins st)).

(** The unique column [email] of the accounts. *)
Definition emails_unique (st : Store) : Prop :=
  NoDup (map Account.email (accounts st)).

(** The name of the retired provider of [DemoProviders] is given to a new
    provider. *)
Module DemoRenewal.

Definition renewed : Store :=
  Trace.run (U := Sample.uuid_text) (H := Sample.hasher) (J := Sample.jwt) (C := Demo.http)
    (Trace.Add_provider 31%N 10%N "OpenAI GPT-4" ProviderType.OPENAI DemoProviders.credentials
       None None (Some 1%N))
    DemoProviders.retired.

End DemoRenewal.

(** Every character of [s] is a printable ASCII character. *)
Definition printable (s : string) : bool := Re.every (Re.between 32 126) s.

(** * Part II: properties *)

(** ** Strings *)

Lemma append_assoc (a b c : string) : (a ++ b) ++ c = a ++ (b ++ c).
Proof. induction a as [|x a IH]; cbn; [reflexivity|now rewrite IH]. Qed.

Lemma append_nil_r (a : string) : a ++ "" = a.
Proof. induction a as [|x a IH]; cbn; [reflexivity|now rewrite IH]. Qed.

Lemma length_append (a b : string) :
  String.length (a ++ b) = String.length a + String.length b.
Proof. induction a as [|x a IH]; cbn; [reflexivity|now rewrite IH]. Qed.

(** ** Characters of the encoder *)

Ltac each_char c :=
  let b0 := fresh in let b1 := fresh in let b2 := fresh in let b3 := fresh in
  let b4 := fresh in let b5 := fresh in let b6 := fresh in let b7 := fresh in
  destruct c as [b0 b1 b2 b3 b4 b5 b6 b7];
  destruct b0, b1, b2, b3, b4, b5, b6, b7.

Lemma scanstring_escape_char c tail :
  Json.scanstring (Json.escape_char c ++ tail)
  = Json.pmap (String c) (Json.scanstring tail).
Proof. each_char c; reflexivity. Qed.

Lemma scanstring_escape s rest :
  Json.scanstring (Json.escape s ++ String Json.quote rest) = Json.Parsed s rest.
Proof.
  induction s as [|c s IH]; [reflexivity|].
  cbn [Json.escape]. rewrite append_assoc, scanstring_escape_char, IH. reflexivity.
Qed.

(** ** Numbers of the encoder *)

Lemma all_digits_string_of_uint u : all_digits (NilEmpty.string_of_uint u) = true.
Proof. induction u; cbn; auto. Qed.

Lemma closes_not_digit c r : closes (String c r) = true ->
  Json.is_digit c = false /\ Ascii.eqb c "." = false /\
  Ascii.eqb c "e" = false /\ Ascii.eqb c "E" = false /\ Json.is_ws c = false.
Proof. each_char c; cbn; intros; try discriminate; repeat split. Qed.

Lemma span_digits_closes ds rest :
  all_digits ds = true -> closes rest = true ->
  Json.span_digits (ds ++ rest) = (ds, rest).
Proof.
  intros Hd Hc. induction ds as [|c ds IH]; cbn in *.
  - destruct rest as [|c r]; [reflexivity|].
    cbn. now destruct (closes_not_digit c r Hc) as [-> _].
  - apply andb_true_iff in Hd as [-> Hd]. now rewrite IH.
Qed.

Lemma scan_frac_closes rest : closes rest = true -> Json.scan_frac rest = (EmptyString, rest).
Proof.
  destruct rest as [|c r]; [reflexivity|]. intros Hc. cbn.
  now destruct (closes_not_digit c r Hc) as (_ & -> & _).
Qed.

Lemma scan_exp_closes rest : closes rest = true -> Json.scan_exp rest = (EmptyString, rest).
Proof.
  destruct rest as [|c r]; [reflexivity|]. intros Hc. cbn.
  now destruct (closes_not_digit c r Hc) as (_ & _ & -> & -> & _).
Qed.

Lemma nzhead_not_D0 u u' : Decimal.nzhead u <> Decimal.D0 u'.
Proof. induction u; cbn; try discriminate. exact IHu. Qed.

Lemma to_uint_leading p u : Pos.to_uint p <> Decimal.D0 u.
Proof.
  intros E.
  pose proof (DecimalPos.Unsigned.to_of (Pos.to_uint p)) as Hn.
  rewrite DecimalPos.Unsigned.of_to in Hn. cbn in Hn. rewrite E in Hn.
  unfold Decimal.unorm in Hn.
  destruct (Decimal.nzhead (Decimal.D0 u)) eqn:Hz; try discriminate.
  - injection Hn as ->. now apply (DecimalPos.Unsigned.to_uint_nonzero p).
  - now apply nzhead_not_D0 in Hz.
Qed.

(** The decimal text of a positive number: a digit other than [0], then
    digits. *)
Lemma string_of_pos p :
  exists c ds,
    NilEmpty.string_of_uint (Pos.to_uint p) = String c ds /\
    Json.is_digit c = true /\ Ascii.eqb c "0" = false /\ all_digits ds = true.
Proof.
  pose proof (to_uint_leading p) as Hlead.
  pose proof (DecimalPos.Unsigned.to_uint_nonnil p) as Hnil.
  destruct (Pos.to_uint p) as [|u|u|u|u|u|u|u|u|u|u]; cbn;
    try (now exfalso; apply Hnil);
    try (now exfalso; apply (Hlead u));
    eexists _, _; (split; [reflexivity|]); repeat split; apply all_digits_string_of_uint.
Qed.

Lemma digits_value_pos p :
  Json.digits_value (NilEmpty.string_of_uint (Pos.to_uint p)) = Zpos p.
Proof.
  unfold Json.digits_value. rewrite NilEmpty.usu.
  unfold N.of_uint. now rewrite DecimalPos.Unsigned.of_to.
Qed.

Lemma digit_not_structural c :
  Json.is_digit c = true ->
  Ascii.eqb c Json.quote = false /\ Ascii.eqb c "[" = false /\ Ascii.eqb c "{" = false /\
  Ascii.eqb c "-" = false /\ Json.is_ws c = false /\
  Ascii.eqb c "]" = false /\ Ascii.eqb c "}" = false.
Proof. each_char c; cbn; intros; try discriminate; repeat split. Qed.

Lemma constant_digit c s :
  Json.is_digit c = true ->
  Json.constant (String c s) = Json.number (String c s) /\
  Json.constant (String "-" (String c s)) = Json.number (String "-" (String c s)).
Proof. each_char c; cbn; intros; try discriminate; split; reflexivity. Qed.

Lemma number_pos p rest :
  closes rest = true ->
  Json.number (NilEmpty.string_of_uint (Pos.to_uint p) ++ rest) = Json.Parsed (PyInt (Zpos p)) rest /\
  Json.number (String "-" (NilEmpty.string_of_uint (Pos.to_uint p) ++ rest))
    = Json.Parsed (PyInt (Zneg p)) rest.
Proof.
  intros Hc. pose proof (digits_value_pos p) as Hv.
  destruct (string_of_pos p) as (c & ds & E & Hd & Hnz & Hds). rewrite E in *.
  destruct (digit_not_structural c Hd) as (_ & _ & _ & Hminus & _).
  unfold Json.number, Json.magnitude. cbn [append]. split.
  - rewrite Hminus, Hd, Hnz.
    rewrite (span_digits_closes _ _ Hds Hc), (scan_frac_closes _ Hc), (scan_exp_closes _ Hc).
    now rewrite Hv.
  - cbn [Ascii.eqb Bool.eqb]. rewrite Hd, Hnz.
    rewrite (span_digits_closes _ _ Hds Hc), (scan_frac_closes _ Hc), (scan_exp_closes _ Hc).
    now rewrite Hv.
Qed.

Lemma number_zero rest :
  closes rest = true ->
  Json.number (String "0" rest) = Json.Parsed (PyInt 0) rest.
Proof.
  intros Hc. unfold Json.number, Json.magnitude. cbn.
  now rewrite (scan_frac_closes _ Hc), (scan_exp_closes _ Hc).
Qed.

(** ** The encoder, item by item *)

Lemma dumps_list l :
  Json.dumps (PyList l) =
    match dumps_items l with
    | Ok ss => Ok ("[" ++ String.concat ", " ss ++ "]")
    | Raise e => Raise e
    end.
Proof.
  cbn [Json.dumps].
  match goal with
  | |- match ?f l with _ => _ end = _ => assert (forall l, f l = dumps_items l) as ->
  end; [|reflexivity].
  clear l. induction l as [|x r IH]; [reflexivity|].
  cbn [dumps_items]. destruct (Json.dumps x); [|reflexivity]. now rewrite IH.
Qed.

Lemma dumps_dict d :
  Json.dumps (PyDict d) =
    match dumps_entries d with
    | Ok ss => Ok ("{" ++ String.concat ", " ss ++ "}")
    | Raise e => Raise e
    end.
Proof.
  cbn [Json.dumps].
  match goal with
  | |- match ?f d with _ => _ end = _ => assert (forall d, f d = dumps_entries d) as ->
  end; [|reflexivity].
  clear d. induction d as [|[k x] r IH]; [reflexivity|].
  cbn [dumps_entries]. destruct (Json.key_text k); [|reflexivity].
  destruct (Json.dumps x); [|reflexivity]. now rewrite IH.
Qed.

(** ** Reading back what the encoder wrote *)

Lemma skip_ws_opens s rest : opens s = true -> Json.skip_ws (s ++ rest) = s ++ rest.
Proof.
  destruct s as [|c s]; [discriminate|]. cbn.
  destruct (Json.is_ws c); [discriminate|reflexivity].
Qed.

Lemma opens_head s rest :
  opens s = true ->
  exists c r, s ++ rest = String c r /\ Json.is_ws c = false /\
              Ascii.eqb c "]" = false /\ Ascii.eqb c "}" = false.
Proof.
  destruct s as [|c s]; [discriminate|]. cbn. intros Ho.
  exists c, (s ++ rest). split; [reflexivity|].
  destruct (Json.is_ws c), (Ascii.eqb c "]"), (Ascii.eqb c "}"); try discriminate; tauto.
Qed.

Lemma closes_skip_ws rest : closes rest = true -> Json.skip_ws rest = rest.
Proof.
  destruct rest as [|c r]; [reflexivity|]. intros Hc. cbn.
  now destruct (closes_not_digit c r Hc) as (_ & _ & _ & _ & ->).
Qed.

Lemma concat_cons2 sep (x y : string) l :
  String.concat sep (x :: y :: l) = x ++ sep ++ String.concat sep (y :: l).
Proof. reflexivity. Qed.

Lemma opens_concat sep x l : opens x = true -> opens (String.concat sep (x :: l)) = true.
Proof.
  destruct l; [now cbn|]. rewrite concat_cons2. destruct x; [discriminate|now cbn].
Qed.

Lemma elements_read_back l ss :
  Forall2 (fun x sx => opens sx = true /\ reads_back x sx) l ss ->
  l <> [] ->
  forall fuel rest,
    String.length (String.concat ", " ss) + 2 <= fuel ->
    Json.elements fuel (String.concat ", " ss ++ String "]" rest) = Json.Parsed l rest.
Proof.
  induction 1 as [|x sx l ss [Hopen Hread] Hall IH]; [congruence|].
  intros _ fuel rest Hfuel. destruct fuel as [|fuel]; [lia|].
  destruct Hall as [|y sy l ss Hy Hall].
  - cbn [String.concat] in *. cbn [Json.elements].
    rewrite Hread by (lia || reflexivity). reflexivity.
  - rewrite concat_cons2 in Hfuel |- *.
    set (tail := String.concat ", " (sy :: ss)) in *.
    rewrite !length_append in Hfuel. cbn [String.length] in Hfuel.
    rewrite !append_assoc. cbn [Json.elements].
    rewrite Hread by (lia || reflexivity).
    assert (opens tail = true) as Htail by (apply opens_concat, Hy).
    change (Json.skip_ws (", " ++ tail ++ String "]" rest))
      with (String "," (String " " (tail ++ String "]" rest))).
    cbn [Ascii.eqb Bool.eqb].
    change (Json.skip_ws (String " " (tail ++ String "]" rest)))
      with (Json.skip_ws (tail ++ String "]" rest)).
    rewrite (skip_ws_opens _ _ Htail).
    rewrite IH by (congruence || lia). reflexivity.
Qed.

Lemma entry_text_append k sx tail :
  entry_text k sx ++ tail
  = String Json.quote (Json.escape k ++ String Json.quote (String ":" (String " " (sx ++ tail)))).
Proof.
  unfold entry_text, Json.encode_basestring_ascii.
  repeat (rewrite append_assoc || cbn [append]). reflexivity.
Qed.

Lemma length_entry_text k sx :
  String.length (entry_text k sx) = String.length (Json.escape k) + String.length sx + 4.
Proof.
  unfold entry_text, Json.encode_basestring_ascii. cbn [String.length append].
  rewrite !length_append. cbn [String.length]. lia.
Qed.

Lemma opens_entry_text k sx : opens (entry_text k sx) = true.
Proof. reflexivity. Qed.

Lemma member_read_back fuel k sx v tail :
  reads_back v sx -> opens sx = true ->
  String.length sx < fuel -> closes tail = true ->
  Json.scanstring (Json.escape k ++ String Json.quote (String ":" (String " " (sx ++ tail))))
    = Json.Parsed k (String ":" (String " " (sx ++ tail))) /\
  Json.value fuel (Json.skip_ws (String " " (sx ++ tail))) = Json.Parsed v tail.
Proof.
  intros Hread Hopen Hfuel Hclose. split; [apply scanstring_escape|].
  change (Json.skip_ws (String " " (sx ++ tail))) with (Json.skip_ws (sx ++ tail)).
  rewrite (skip_ws_opens _ _ Hopen). now apply Hread.
Qed.

Lemma members_read_back kvs es :
  Forall2 (fun kv e => exists sx, e = entry_text (fst kv) sx /\
                                  opens sx = true /\ reads_back (snd kv) sx) kvs es ->
  kvs <> [] ->
  forall fuel rest,
    String.length (String.concat ", " es) + 2 <= fuel ->
    Json.members fuel (String.concat ", " es ++ String "}" rest) = Json.Parsed kvs rest.
Proof.
  induction 1 as [|[k v] e kvs es (sx & -> & Hopen & Hread) Hall IH]; [congruence|].
  intros _ fuel rest Hfuel. destruct fuel as [|fuel]; [lia|].
  cbn [fst snd] in *.
  destruct Hall as [|kv' e' kvs es He' Hall].
  - cbn [String.concat] in *. rewrite length_entry_text in Hfuel.
    rewrite entry_text_append. cbn [Json.members].
    rewrite Ascii.eqb_refl.
    destruct (member_read_back fuel k sx v (String "}" rest) Hread Hopen) as [-> Hv];
      [lia|reflexivity|].
    change (Json.skip_ws (String ":" (String " " (sx ++ String "}" rest))))
      with (String ":" (String " " (sx ++ String "}" rest))).
    cbn [Ascii.eqb Bool.eqb]. rewrite Hv. reflexivity.
  - rewrite concat_cons2 in Hfuel |- *.
    set (tail := String.concat ", " (e' :: es)) in *.
    rewrite !length_append, length_entry_text in Hfuel. cbn [String.length] in Hfuel.
    rewrite append_assoc, entry_text_append. cbn [Json.members].
    rewrite Ascii.eqb_refl.
    destruct (member_read_back fuel k sx v ((", " ++ tail) ++ String "}" rest) Hread Hopen)
      as [-> Hv]; [lia|reflexivity|].
    change (Json.skip_ws (String ":" (String " " (sx ++ (", " ++ tail) ++ String "}" rest))))
      with (String ":" (String " " (sx ++ (", " ++ tail) ++ String "}" rest))).
    cbn [Ascii.eqb Bool.eqb]. rewrite Hv.
    assert (opens tail = true) as Htail.
    { apply opens_concat. destruct He' as (sx' & -> & _). apply opens_entry_text. }
    change (Json.skip_ws ((", " ++ tail) ++ String "}" rest))
      with (String "," (String " " (tail ++ String "}" rest))).
    cbn [Ascii.eqb Bool.eqb].
    change (Json.skip_ws (String " " (tail ++ String "}" rest)))
      with (Json.skip_ws (tail ++ String "}" rest)).
    rewrite (skip_ws_opens _ _ Htail).
    rewrite IH by (congruence || lia). reflexivity.
Qed.

(** ** Dictionaries with distinct keys *)

Open Scope list_scope.

Lemma setitem_fresh k v acc :
  existsb (fun kv => Py.key_is k (fst kv)) acc = false ->
  Py.setitem k v acc = acc ++ [(PyStr k, v)].
Proof.
  induction acc as [|[key w] acc IH]; cbn; [reflexivity|].
  destruct (Py.key_is k key); cbn; [discriminate|]. intros Hx. now rewrite IH.
Qed.

Lemma keyed_fresh k pre :
  existsb (String.eqb k) (map fst pre) = false ->
  existsb (fun kv => Py.key_is k (fst kv)) (keyed pre) = false.
Proof.
  induction pre as [|[k' w] pre IH]; cbn; [reflexivity|].
  rewrite (String.eqb_sym k' k). destruct (String.eqb k k'); cbn; [discriminate|exact IH].
Qed.

Lemma distinct_app_cons pre k r :
  Json.distinct (pre ++ k :: r) = true ->
  existsb (String.eqb k) pre = false /\ Json.distinct ((pre ++ [k]) ++ r) = true.
Proof.
  rewrite <- List.app_assoc. cbn [app]. intros Hd. split; [|exact Hd].
  induction pre as [|p pre IH]; cbn in *; [reflexivity|].
  apply andb_true_iff in Hd as [Hp Hd]. apply negb_true_iff in Hp.
  rewrite existsb_app in Hp. cbn in Hp.
  rewrite (String.eqb_sym k p).
  destruct (String.eqb p k); cbn; [|now apply IH].
  rewrite orb_true_r in Hp. discriminate.
Qed.

Lemma fold_setitem_distinct kvs pre :
  Json.distinct (map fst pre ++ map fst kvs) = true ->
  fold_left (fun d kv => Py.setitem (fst kv) (snd kv) d) kvs (keyed pre) = keyed (pre ++ kvs).
Proof.
  revert pre. induction kvs as [|[k v] kvs IH]; intros pre Hd; cbn [fold_left map fst snd] in *.
  - now rewrite List.app_nil_r.
  - apply distinct_app_cons in Hd as [Hfresh Hd].
    rewrite setitem_fresh by now apply keyed_fresh.
    replace (keyed pre ++ [(PyStr k, v)]) with (keyed (pre ++ [(k, v)]))
      by (unfold keyed; now rewrite map_app).
    rewrite IH by (now rewrite map_app).
    now rewrite <- List.app_assoc.
Qed.

Lemma dict_of_distinct kvs :
  Json.distinct (map fst kvs) = true -> Json.dict_of kvs = keyed kvs.
Proof. intros Hd. apply (fold_setitem_distinct kvs []). exact Hd. Qed.

Open Scope string_scope.

(** ** Native values are read back *)

Lemma native_items l :
  Forall (fun v => Json.native v = true ->
                   exists s, Json.dumps v = Ok s /\ opens s = true /\ reads_back v s) l ->
  forallb Json.native l = true ->
  exists ss, dumps_items l = Ok ss /\
             Forall2 (fun x sx => opens sx = true /\ reads_back x sx) l ss.
Proof.
  induction 1 as [|x l Hx Hl IH]; cbn [forallb dumps_items]; intros Hn.
  - exists []. split; [reflexivity|constructor].
  - apply andb_true_iff in Hn as [Hnx Hnl].
    destruct (Hx Hnx) as (sx & -> & Hopen & Hread).
    destruct (IH Hnl) as (ss & -> & Hall).
    exists (sx :: ss). split; [reflexivity|]. now constructor.
Qed.

Lemma native_entries d :
  Forall (fun kv => Json.native (snd kv) = true ->
                    exists s, Json.dumps (snd kv) = Ok s /\ opens s = true
                              /\ reads_back (snd kv) s) d ->
  forallb (fun kv => match fst kv with PyStr _ => Json.native (snd kv) | _ => false end) d
    = true ->
  exists kvs es,
    d = keyed kvs /\ Json.str_keys d = map fst kvs /\ dumps_entries d = Ok es /\
    Forall2 (fun kv e => exists sx, e = entry_text (fst kv) sx /\
                                    opens sx = true /\ reads_back (snd kv) sx) kvs es.
Proof.
  induction 1 as [|[k x] d Hx Hd IH]; cbn [forallb dumps_entries fst snd] in *; intros Hn.
  - exists [], []. repeat split; constructor.
  - apply andb_true_iff in Hn as [Hnx Hnd].
    destruct k as [| | | |k| | |]; try discriminate.
    destruct (Hx Hnx) as (sx & Hdump & Hopen & Hread).
    destruct (IH Hnd) as (kvs & es & -> & Hkeys & Hes & Hall).
    exists ((k, x) :: kvs), (entry_text k sx :: es).
    split; [reflexivity|].
    split; [change (k :: Json.str_keys (keyed kvs) = k :: map fst kvs);
            now rewrite Hkeys|].
    split; [cbn [Json.key_text]; now rewrite Hdump, Hes|].
    constructor; [|exact Hall]. exists sx. cbn. tauto.
Qed.

Lemma value_literal fuel w v rest :
  String.length w < fuel ->
  Json.value fuel (w ++ rest) = Json.constant (w ++ rest) ->
  Json.constant (w ++ rest) = Json.Parsed v rest ->
  Json.value fuel (w ++ rest) = Json.Parsed v rest.
Proof. intros _ -> ->. reflexivity. Qed.

Lemma native_read_back :
  forall v, Json.native v = true ->
            exists s, Json.dumps v = Ok s /\ opens s = true /\ reads_back v s.
Proof.
  induction v as [|b|z|lit|s|l IH|l IH|d IH] using pyval_ind;
    cbn [Json.native]; intros Hn; try discriminate.
  - exists "null". repeat split.
    intros [|fuel] rest Hf Hc; [cbn in Hf; lia|reflexivity].
  - destruct b; eexists; (split; [reflexivity|]); (split; [reflexivity|]);
      intros [|fuel] rest Hf Hc; solve [cbn in Hf; lia|reflexivity].
  - exists (Json.repr_int z). split; [reflexivity|].
    destruct z as [|p|p]; cbn [Json.repr_int].
    + split; [reflexivity|]. intros [|fuel] rest Hf Hc; [cbn in Hf; lia|].
      change (Json.value (S fuel) ("0" ++ rest)) with (Json.number (String "0" rest)).
      now apply number_zero.
    + destruct (string_of_pos p) as (c & ds & E & Hd & Hnz & Hds).
      destruct (digit_not_structural c Hd) as (Hq & Hb & Hc' & Hm & Hw & Hrb & Hrc).
      split; [rewrite E; cbn; now rewrite Hw, Hrb, Hrc|].
      intros [|fuel] rest Hf Hc; [lia|].
      pose proof (proj1 (number_pos p rest Hc)) as Hnum.
      rewrite E in *. cbn [append] in *. cbn [Json.value].
      rewrite Hq, Hb, Hc'. now rewrite (proj1 (constant_digit c _ Hd)).
    + destruct (string_of_pos p) as (c & ds & E & Hd & Hnz & Hds).
      split; [reflexivity|].
      intros [|fuel] rest Hf Hc; [lia|].
      pose proof (proj2 (number_pos p rest Hc)) as Hnum.
      rewrite E in *. cbn [append] in *.
      change (Json.value (S fuel) (String "-" (String c (ds ++ rest))))
        with (Json.constant (String "-" (String c (ds ++ rest)))).
      now rewrite (proj2 (constant_digit c _ Hd)).
  - exists (Json.encode_basestring_ascii s). split; [reflexivity|]. split; [reflexivity|].
    intros [|fuel] rest Hf Hc; [lia|].
    unfold Json.encode_basestring_ascii. cbn [append Json.value].
    rewrite Ascii.eqb_refl, append_assoc. cbn [append].
    now rewrite scanstring_escape.
  - destruct (native_items l IH Hn) as (ss & Hss & Hall).
    rewrite dumps_list, Hss. eexists. split; [reflexivity|]. split; [reflexivity|].
    intros [|fuel] rest Hf Hc; [lia|].
    cbn [append String.length] in *. rewrite length_append in Hf. cbn [String.length] in Hf.
    rewrite append_assoc. cbn [append Json.value].
    change (Ascii.eqb "[" Json.quote) with false. cbn [Ascii.eqb Bool.eqb].
    destruct Hall as [|x sx l ss Hx Hall]; [reflexivity|].
    set (body := String.concat ", " (sx :: ss)) in *.
    assert (opens body = true) as Hbody by (apply opens_concat, Hx).
    rewrite (skip_ws_opens _ _ Hbody).
    destruct (opens_head body (String "]" rest) Hbody) as (c1 & r1 & E & _ & Hrb & _).
    rewrite E, Hrb, <- E.
    rewrite (elements_read_back (x :: l) (sx :: ss)); [reflexivity| |discriminate|].
    + now constructor.
    + fold body. lia.
  - apply andb_true_iff in Hn as [Hn Hdistinct].
    destruct (native_entries d IH Hn) as (kvs & es & -> & Hkeys & Hes & Hall).
    rewrite dumps_dict, Hes. eexists. split; [reflexivity|]. split; [reflexivity|].
    intros [|fuel] rest Hf Hc; [lia|].
    cbn [append String.length] in *. rewrite length_append in Hf. cbn [String.length] in Hf.
    rewrite append_assoc. cbn [append Json.value].
    change (Ascii.eqb "{" Json.quote) with false. cbn [Ascii.eqb Bool.eqb].
    destruct Hall as [|kv e kvs es He Hall]; [reflexivity|].
    set (body := String.concat ", " (e :: es)) in *.
    assert (opens body = true) as Hbody.
    { apply opens_concat. destruct He as (sx & -> & _). apply opens_entry_text. }
    rewrite (skip_ws_opens _ _ Hbody).
    destruct (opens_head body (String "}" rest) Hbody) as (c1 & r1 & E & _ & _ & Hrc).
    rewrite E, Hrc, <- E.
    rewrite (members_read_back (kv :: kvs) (e :: es)); [| |discriminate|].
    + cbn [Json.pmap]. rewrite dict_of_distinct; [reflexivity|]. now rewrite <- Hkeys.
    + now constructor.
    + fold body. lia.
Qed.

(** ** The decoder never runs out of fuel *)

Lemma skip_ws_length s : String.length (Json.skip_ws s) <= String.length s.
Proof.
  induction s as [|c s IH]; cbn; [lia|]. destruct (Json.is_ws c); cbn; lia.
Qed.

Lemma pmap_parsed {A B} (f : A -> B) p b r :
  Json.pmap f p = Json.Parsed b r -> exists a, p = Json.Parsed a r /\ b = f a.
Proof. destruct p; cbn; try discriminate. intros [= <- <-]. eauto. Qed.

Lemma pmap_exhausted {A B} (f : A -> B) p :
  Json.pmap f p = Json.Exhausted -> p = Json.Exhausted.
Proof. now destruct p. Qed.

Lemma scanstring_facts n :
  forall s, String.length s <= n ->
    Json.scanstring s <> Json.Exhausted /\
    forall k r, Json.scanstring s = Json.Parsed k r -> String.length r < String.length s.
Proof.
  induction n as [|n IH]; intros s Hn.
  - destruct s; [|cbn in Hn; lia]. cbn. split; [discriminate|]. intros; discriminate.
  - destruct s as [|c s]; [cbn; split; [discriminate|]; intros; discriminate|].
    cbn [String.length] in Hn. cbn [Json.scanstring].
    destruct (Ascii.eqb c Json.quote).
    { split; [discriminate|]. intros k r [= <- <-]. cbn. lia. }
    destruct (Ascii.eqb c Json.backslash).
    + destruct s as [|e s1]; [split; [discriminate|]; intros; discriminate|].
      destruct (Ascii.eqb e "u").
      * destruct s1 as [|h1 [|h2 [|h3 [|h4 s2]]]];
          try (split; [discriminate|]; intros; discriminate).
        destruct (Json.hex4 h1 h2 h3 h4) as [x|];
          [|split; [discriminate|]; intros; discriminate].
        destruct (x <? 256)%N; [|split; [discriminate|]; intros; discriminate].
        destruct (IH s2) as [Hne Hlen]; [cbn in Hn; lia|]. split.
        -- intros E. now apply pmap_exhausted in E.
        -- intros k r E. apply pmap_parsed in E as (a & E & _).
           apply Hlen in E. cbn. lia.
      * destruct (Json.unescape e); [|split; [discriminate|]; intros; discriminate].
        destruct (IH s1) as [Hne Hlen]; [cbn in Hn; lia|]. split.
        -- intros E. now apply pmap_exhausted in E.
        -- intros k r E. apply pmap_parsed in E as (a0 & E & _).
           apply Hlen in E. cbn. lia.
    + destruct (Text.code c <? 32)%N; [split; [discriminate|]; intros; discriminate|].
      destruct (IH s) as [Hne Hlen]; [lia|]. split.
      * intros E. now apply pmap_exhausted in E.
      * intros k r E. apply pmap_parsed in E as (a & E & _).
        apply Hlen in E. cbn. lia.
Qed.

Lemma span_digits_length s :
  String.length (snd (Json.span_digits s)) <= String.length s.
Proof.
  induction s as [|c s IH]; cbn; [lia|].
  destruct (Json.is_digit c); cbn; [|lia].
  destruct (Json.span_digits s); cbn in *. lia.
Qed.

Lemma scan_frac_length s : String.length (snd (Json.scan_frac s)) <= String.length s.
Proof.
  destruct s as [|c s]; cbn; [lia|].
  destruct (Ascii.eqb c "."); cbn; [|lia].
  pose proof (span_digits_length s) as Hs.
  destruct (Json.span_digits s) as [[|d ds] r]; cbn in *; lia.
Qed.

Lemma scan_exp_length s : String.length (snd (Json.scan_exp s)) <= String.length s.
Proof.
  destruct s as [|c s]; cbn; [lia|].
  destruct (Ascii.eqb c "e" || Ascii.eqb c "E"); cbn; [|lia].
  destruct s as [|g s'].
  - cbn. lia.
  - destruct (Ascii.eqb g "-" || Ascii.eqb g "+").
    + pose proof (span_digits_length s') as Hs.
      destruct (Json.span_digits s') as [[|d ds] r]; cbn in *; lia.
    + pose proof (span_digits_length (String g s')) as Hs.
      destruct (Json.span_digits (String g s')) as [[|d ds] r]; cbn in *; lia.
Qed.

Lemma magnitude_facts neg s :
  Json.magnitude neg s <> Json.Exhausted /\
  forall v r, Json.magnitude neg s = Json.Parsed v r -> String.length r < String.length s.
Proof.
  unfold Json.magnitude.
  destruct s as [|c r0]; [split; [discriminate|]; intros; discriminate|].
  destruct (Json.is_digit c); [|split; [discriminate|]; intros; discriminate].
  pose proof (span_digits_length r0) as H0. cbn [String.length].
  destruct (Ascii.eqb c "0").
  - pose proof (scan_frac_length r0) as H1.
    destruct (Json.scan_frac r0) as [frac r2]; cbn [snd] in H1.
    pose proof (scan_exp_length r2) as H2.
    destruct (Json.scan_exp r2) as [ex r3]; cbn [snd] in H2.
    destruct frac, ex; (split; [discriminate|]); intros v r [= <- <-]; lia.
  - destruct (Json.span_digits r0) as [d r1]; cbn [snd] in H0.
    pose proof (scan_frac_length r1) as H1.
    destruct (Json.scan_frac r1) as [frac r2]; cbn [snd] in H1.
    pose proof (scan_exp_length r2) as H2.
    destruct (Json.scan_exp r2) as [ex r3]; cbn [snd] in H2.
    destruct frac, ex; (split; [discriminate|]); intros v r [= <- <-]; lia.
Qed.

Lemma number_facts s :
  Json.number s <> Json.Exhausted /\
  forall v r, Json.number s = Json.Parsed v r -> String.length r < String.length s.
Proof.
  unfold Json.number.
  destruct s as [|c s]; [split; [discriminate|]; intros; discriminate|].
  destruct (Ascii.eqb c "-").
  - destruct (magnitude_facts true s) as [Hne Hlen]. split; [exact Hne|].
    intros v r E. apply Hlen in E. cbn. lia.
  - apply magnitude_facts.
Qed.

Lemma drop_startswith w s :
  Text.startswith w s = true ->
  String.length (Text.drop (String.length w) s) + String.length w = String.length s.
Proof.
  revert s. induction w as [|a w IH]; intros s; cbn.
  - destruct s; cbn; lia.
  - destruct s as [|b s]; [discriminate|]. intros Hs.
    apply andb_true_iff in Hs as [_ Hs]. apply IH in Hs. cbn. lia.
Qed.

Lemma literal_facts w v s p :
  w <> EmptyString -> Json.literal w v s = Some p ->
  exists r, p = Json.Parsed v r /\ String.length r < String.length s.
Proof.
  unfold Json.literal. intros Hw. destruct (Text.startswith w s) eqn:E; [|discriminate].
  intros [= <-]. eexists. split; [reflexivity|].
  apply drop_startswith in E. destruct w; [contradiction|]. cbn in *. lia.
Qed.

Lemma constant_facts s :
  Json.constant s <> Json.Exhausted /\
  forall v r, Json.constant s = Json.Parsed v r -> String.length r < String.length s.
Proof.
  unfold Json.constant.
  repeat match goal with
         | |- context [match Json.literal ?w ?v s with _ => _ end] =>
             let E := fresh "E" in
             destruct (Json.literal w v s) as [p|] eqn:E;
             [ apply literal_facts in E as (r0 & -> & Hlen); [|discriminate];
               split; [discriminate|]; intros v' r' [= <- <-]; exact Hlen | ]
         end.
  apply number_facts.
Qed.

Lemma value_consumes fuel :
  (forall s v r, Json.value fuel s = Json.Parsed v r -> String.length r < String.length s) /\
  (forall s vs r, Json.elements fuel s = Json.Parsed vs r -> String.length r < String.length s) /\
  (forall s kvs r, Json.members fuel s = Json.Parsed kvs r -> String.length r < String.length s).
Proof.
  induction fuel as [|fuel (IHv & IHe & IHm)];
    [repeat split; intros; discriminate|].
  split; [|split].
  - intros s v r. cbn [Json.value].
    destruct s as [|c s]; [discriminate|].
    destruct (Ascii.eqb c Json.quote).
    { intros E. apply pmap_parsed in E as (k & E & _).
      apply (scanstring_facts _ s (le_n _)) in E. cbn. lia. }
    destruct (Ascii.eqb c "[").
    { pose proof (skip_ws_length s) as Hs.
      destruct (Json.skip_ws s) as [|c1 r1]; [discriminate|].
      destruct (Ascii.eqb c1 "]").
      - intros [= <- <-]. cbn in *. lia.
      - intros E. apply pmap_parsed in E as (l & E & _). apply IHe in E. cbn in *. lia. }
    destruct (Ascii.eqb c "{").
    { pose proof (skip_ws_length s) as Hs.
      destruct (Json.skip_ws s) as [|c1 r1]; [discriminate|].
      destruct (Ascii.eqb c1 "}").
      - intros [= <- <-]. cbn in *. lia.
      - intros E. apply pmap_parsed in E as (l & E & _). apply IHm in E. cbn in *. lia. }
    apply constant_facts.
  - intros s vs r. cbn [Json.elements].
    destruct (Json.value fuel s) as [v r0| | |] eqn:Ev; try discriminate.
    apply IHv in Ev. pose proof (skip_ws_length r0) as Hs.
    destruct (Json.skip_ws r0) as [|c1 r1]; [discriminate|].
    destruct (Ascii.eqb c1 "]").
    + intros [= <- <-]. cbn in *. lia.
    + destruct (Ascii.eqb c1 ","); [|discriminate].
      intros E. apply pmap_parsed in E as (l & E & _). apply IHe in E.
      pose proof (skip_ws_length r1). cbn in *. lia.
  - intros s kvs r. cbn [Json.members].
    destruct s as [|c s]; [discriminate|].
    destruct (Ascii.eqb c Json.quote); [|discriminate].
    destruct (Json.scanstring s) as [k r1| | |] eqn:Ek; try discriminate.
    apply (scanstring_facts _ s (le_n _)) in Ek.
    pose proof (skip_ws_length r1) as Hs1.
    destruct (Json.skip_ws r1) as [|c2 r2]; [discriminate|].
    destruct (Ascii.eqb c2 ":"); [|discriminate].
    pose proof (skip_ws_length r2) as Hs2.
    destruct (Json.value fuel (Json.skip_ws r2)) as [v r3| | |] eqn:Ev; try discriminate.
    apply IHv in Ev. pose proof (skip_ws_length r3) as Hs3.
    destruct (Json.skip_ws r3) as [|c4 r4]; [discriminate|].
    destruct (Ascii.eqb c4 "}").
    + intros [= <- <-]. cbn in *. lia.
    + destruct (Ascii.eqb c4 ","); [|discriminate].
      intros E. apply pmap_parsed in E as (l & E & _). apply IHm in E.
      pose proof (skip_ws_length r4). cbn in *. lia.
Qed.

Lemma value_fuel fuel :
  (forall s, 2 * String.length s + 1 <= fuel -> Json.value fuel s <> Json.Exhausted) /\
  (forall s, 2 * String.length s + 2 <= fuel -> Json.elements fuel s <> Json.Exhausted) /\
  (forall s, 2 * String.length s + 2 <= fuel -> Json.members fuel s <> Json.Exhausted).
Proof.
  induction fuel as [|fuel (IHv & IHe & IHm)]; [repeat split; intros; lia|].
  destruct (value_consumes fuel) as (Cv & Ce & Cm).
  split; [|split].
  - intros s Hf. cbn [Json.value].
    destruct s as [|c s]; [discriminate|]. cbn [String.length] in Hf.
    destruct (Ascii.eqb c Json.quote).
    { intros E. apply pmap_exhausted in E.
      now apply (scanstring_facts _ s (le_n _)) in E. }
    destruct (Ascii.eqb c "[").
    { pose proof (skip_ws_length s) as Hs.
      destruct (Json.skip_ws s) as [|c1 r1]; [discriminate|].
      destruct (Ascii.eqb c1 "]"); [discriminate|].
      intros E. apply pmap_exhausted in E. revert E. apply IHe. cbn in *. lia. }
    destruct (Ascii.eqb c "{").
    { pose proof (skip_ws_length s) as Hs.
      destruct (Json.skip_ws s) as [|c1 r1]; [discriminate|].
      destruct (Ascii.eqb c1 "}"); [discriminate|].
      intros E. apply pmap_exhausted in E. revert E. apply IHm. cbn in *. lia. }
    apply constant_facts.
  - intros s Hf. cbn [Json.elements].
    destruct (Json.value fuel s) as [v r0| | |] eqn:Ev; try discriminate.
    + apply Cv in Ev. pose proof (skip_ws_length r0) as Hs.
      destruct (Json.skip_ws r0) as [|c1 r1]; [discriminate|].
      destruct (Ascii.eqb c1 "]"); [discriminate|].
      destruct (Ascii.eqb c1 ","); [|discriminate].
      intros E. apply pmap_exhausted in E. revert E. apply IHe.
      pose proof (skip_ws_length r1). cbn in *. lia.
    + exfalso. revert Ev. apply IHv. lia.
  - intros s Hf. cbn [Json.members].
    destruct s as [|c s]; [discriminate|]. cbn [String.length] in Hf.
    destruct (Ascii.eqb c Json.quote); [|discriminate].
    destruct (Json.scanstring s) as [k r1| | |] eqn:Ek; try discriminate.
    + apply (scanstring_facts _ s (le_n _)) in Ek.
      pose proof (skip_ws_length r1) as Hs1.
      destruct (Json.skip_ws r1) as [|c2 r2]; [discriminate|].
      destruct (Ascii.eqb c2 ":"); [|discriminate].
      pose proof (skip_ws_length r2) as Hs2.
      destruct (Json.value fuel (Json.skip_ws r2)) as [v r3| | |] eqn:Ev; try discriminate.
      * apply Cv in Ev. pose proof (skip_ws_length r3) as Hs3.
        destruct (Json.skip_ws r3) as [|c4 r4]; [discriminate|].
        destruct (Ascii.eqb c4 "}"); [discriminate|].
        destruct (Ascii.eqb c4 ","); [|discriminate].
        intros E. apply pmap_exhausted in E. revert E. apply IHm.
        pose proof (skip_ws_length r4). cbn in *. lia.
      * exfalso. revert Ev. apply IHv. cbn in *. lia.
    + exfalso. now apply (scanstring_facts _ s (le_n _)) in Ek.
Qed.

(** [loads] stops short only of code points above 255. *)
Lemma loads_fuel s : Json.value (2 * String.length s + 1) (Json.skip_ws s) <> Json.Exhausted.
Proof.
  apply (proj1 (value_fuel _)). pose proof (skip_ws_length s). lia.
Qed.

(** ** Credentials *)




(** ** The sample collaborators obey the laws *)

Lemma sample_uuid_text_laws : UuidTextLaws Sample.uuid_text.
Proof.
  split; intros u; cbn.
  - rewrite DecimalString.NilEmpty.usu. cbn. now rewrite DecimalN.Unsigned.of_to.
  - destruct u as [|p]; cbn; [discriminate|].
    intros E.
    pose proof (DecimalPos.Unsigned.to_uint_nonnil p) as Hn.
    destruct (Pos.to_uint p); cbn in E; try discriminate. now apply Hn.
Qed.

Lemma sample_jwt_laws : JwtLaws Sample.jwt.
Proof.
  split; cbn.
  - intros payload key now exp iat He _ _ Hlt.
    rewrite String.eqb_refl, He.
    apply Z.ltb_lt in Hlt. now rewrite Hlt.
  - intros t key now payload.
    destruct (String.eqb (snd t) key); [|discriminate].
    destruct (claim "exp" (fst t)) as [[]|]; try discriminate.
    + destruct (now <? z)%Z; [|discriminate]. now intros [= <-].
    + now intros [= <-].
  - intros t key now payload exp.
    destruct (String.eqb (snd t) key); [|discriminate].
    destruct (claim "exp" (fst t)) as [[]|] eqn:E; try discriminate.
    + destruct (now <? z)%Z eqn:L; [|discriminate].
      intros [= <-]. rewrite E. intros [= <-]. now apply Z.ltb_lt.
    + intros [= <-]. rewrite E. discriminate.
Qed.

(** ** Lists of rows *)

Section Rows.
Context {T : Type}.
Implicit Types (p q : T -> bool) (l : list T).

Lemma find_app_some p l l' x : find p l = Some x -> find p (l ++ l') = Some x.
Proof.
  induction l as [|y l IH]; cbn; [discriminate|].
  destruct (p y); auto.
Qed.

Lemma find_app_none p l l' : find p l = None -> find p (l ++ l') = find p l'.
Proof.
  induction l as [|y l IH]; cbn; [reflexivity|].
  destruct (p y); [discriminate|auto].
Qed.

Lemma find_replace_first_other p q y l :
  (forall x, p x = true -> q x = false) -> q y = false ->
  find q (replace_first p y l) = find q l.
Proof.
  intros Hpq Hy. induction l as [|x l IH]; cbn; [reflexivity|].
  destruct (p x) eqn:Px; cbn.
  - now rewrite Hy, (Hpq x Px).
  - now rewrite IH.
Qed.

Lemma find_remove_first_other p q l :
  (forall x, p x = true -> q x = false) ->
  find q (remove_first p l) = find q l.
Proof.
  intros Hpq. induction l as [|x l IH]; cbn; [reflexivity|].
  destruct (p x) eqn:Px; cbn.
  - now rewrite (Hpq x Px).
  - now rewrite IH.
Qed.

Lemma find_none_existsb p l : find p l = None -> existsb p l = false.
Proof.
  induction l as [|x l IH]; cbn; [reflexivity|].
  destruct (p x); [discriminate|auto].
Qed.

Lemma find_some_existsb p l x : find p l = Some x -> existsb p l = true.
Proof.
  induction l as [|y l IH]; cbn; [discriminate|].
  destruct (p y); cbn; auto.
Qed.

Lemma existsb_find_some p l : existsb p l = true -> exists x, find p l = Some x.
Proof.
  induction l as [|y l IH]; cbn; [discriminate|].
  destruct (p y); cbn; eauto.
Qed.

Lemma in_remove_first p l x : In x (remove_first p l) -> In x l.
Proof.
  induction l as [|y l IH]; cbn; [tauto|].
  destruct (p y); cbn; tauto.
Qed.


End Rows.

(** ** Roles *)

Lemma role_eqb_eq a b : TenantRole.eqb a b = true <-> a = b.
Proof. destruct a, b; cbn; split; congruence. Qed.

Lemma is_join_inj t a t' a' j :
  TenantRepository.is_join t a j = true ->
  TenantRepository.is_join t' a' j = true -> t = t' /\ a = a'.
Proof.
  unfold TenantRepository.is_join.
  rewrite !andb_true_iff, !N.eqb_eq. intuition congruence.
Qed.

Lemma is_join_other t a t' a' :
  (t, a) <> (t', a') ->
  forall j, TenantRepository.is_join t' a' j = true -> TenantRepository.is_join t a j = false.
Proof.
  intros Hne j Hj. destruct (TenantRepository.is_join t a j) eqn:E; [|reflexivity].
  destruct (is_join_inj _ _ _ _ _ E Hj). congruence.
Qed.

(** C2.  [check_permission] answers [true] exactly when the account holds a
    role in the tenant and that role is [owner], or is [admin] with [admin]
    or [member] required, or is [member] with [member] required; it answers
    [false] whenever the account has no membership. *)
Theorem check_permission_truth_table :
  forall (st : Store) (tenant_id account_id : UUID) (required_role : TenantRole.t),
    (TenantService.check_permission tenant_id account_id required_role st = true <->
     exists role,
       TenantRepository.get_member_role tenant_id account_id st = Some role /\
       (role = TenantRole.OWNER \/
        (role = TenantRole.ADMIN /\
         (required_role = TenantRole.ADMIN \/ required_role = TenantRole.MEMBER)) \/
        (role = TenantRole.MEMBER /\ required_role = TenantRole.MEMBER))) /\
    (TenantRepository.get_member_role tenant_id account_id st = None ->
     TenantService.check_permission tenant_id account_id required_role st = false).
Proof.
  intros st t a r. unfold TenantService.check_permission.
  destruct (TenantRepository.get_member_role t a st) as [role|]; split.
  - destruct role, r; cbn; split; intros Hx;
      try discriminate; try (eexists; split; [reflexivity|tauto]);
      try reflexivity;
      destruct Hx as (role & [= <-] & [Hx|[[Hx Hy]|[Hx Hy]]]);
      try discriminate; destruct Hy; discriminate.
  - discriminate.
  - split; [discriminate|]. intros (role & Hx & _). discriminate.
  - reflexivity.
Qed.

(** ** Unfolding service calls *)

Ltac break_match :=
  match goal with
  | |- context [match ?x with _ => _ end] =>
      lazymatch x with
      | context [match _ with _ => _ end] => fail
      | _ => destruct x eqn:?
      end
  end.

Ltac run_service :=
  unfold bind, gets, raise, ret, modify, lift in *; cbn in *.

Ltac crunch := repeat (run_service; try reflexivity; try break_match).

Section Joins.
Context {U : UuidText} {H : PasswordHasher} {J : JwtCodec} {C : HttpClient}.




Lemma is_join_with_role t a r j :
  TenantRepository.is_join t a (TenantAccountJoin.with_role r j) =
  TenantRepository.is_join t a j.
Proof. reflexivity. Qed.




End Joins.

(** ** Creating a tenant *)




(** ** The integrity of the store is kept by every call *)

Section RowUpdates.
Context {T : Type} (pk : T -> UUID).
Implicit Types (p : T -> bool) (l : list T).

Lemma map_replace_first p y l x :
  find p l = Some x -> pk y = pk x ->
  map pk (replace_first p y l) = map pk l.
Proof.
  intros Hf Hy. induction l as [|z l IH]; cbn in *; [discriminate|].
  destruct (p z); cbn.
  - injection Hf as ->. now rewrite Hy.
  - now rewrite IH.
Qed.



End RowUpdates.







Section Integrity.
Context {U : UuidText} {H : PasswordHasher} {J : JwtCodec} {C : HttpClient}.




End Integrity.

(** ** Removing or changing an owner *)





Section OwnerInvariant.
Context {U : UuidText} {H : PasswordHasher} {J : JwtCodec} {C : HttpClient}.


End OwnerInvariant.





(** ** Login *)

(** C9.  For a stored account that is banned (resp. inactive), [login] raises
    [AuthenticationError] with the message of that status whatever password
    is supplied and whatever the password check would answer: the status is
    examined first and the password hash is never consulted. *)
Theorem login_status_before_password :
  forall (U : UuidText) (J : JwtCodec) (self : AuthService.t) (utcnow : Z)
         (st : Store) (email password : string) (account : Account.t),
    AccountRepository.get_by_email email st = Some account ->
    Account.status account <> AccountStatus.ACTIVE ->
    forall (H : PasswordHasher),
      AuthService.login self utcnow email password st =
        (Raise (AuthenticationError
                  (match Account.status account with
                   | AccountStatus.BANNED => "Account has been banned"
                   | _ => "Account is inactive"
                   end)), st).
Proof.
  intros U J self utcnow st email password account Hfound Hstatus H.
  unfold AuthService.login, bind, gets, raise. rewrite Hfound.
  destruct (Account.status account); [contradiction|reflexivity|reflexivity].
Qed.

Lemma login_status_before_password_witness :
  AuthService.login (U := Sample.uuid_text) (H := Sample.hasher) (J := Sample.jwt)
      (AuthService.mk "change-me-in-production" 24) 1700000000 "m@x.com" "not the password"
      Demo.registered
    = (Raise (AuthenticationError "Account has been banned"), Demo.registered)
  /\ AuthService.login (U := Sample.uuid_text) (H := Sample.hasher) (J := Sample.jwt)
      (AuthService.mk "change-me-in-production" 24) 1700000000 "s@x.com" "secret4"
      Demo.registered
    = (Raise (AuthenticationError "Account is inactive"), Demo.registered).
Proof.
  split.
  - apply (login_status_before_password Sample.uuid_text Sample.jwt _ _ _ _ _ Demo.mallory);
      [reflexivity|discriminate].
  - apply (login_status_before_password Sample.uuid_text Sample.jwt _ _ _ _ _ Demo.sleepy);
      [reflexivity|discriminate].
Defined.

(** ** Archiving apps *)

Section KeyedRows.
Context {T : Type} (pk : T -> UUID).

Lemma find_replace_first_same i y l x :
  find (has_pk pk i) l = Some x -> pk y = i ->
  find (has_pk pk i) (replace_first (has_pk pk i) y l) = Some y.
Proof.
  intros Hf Hy. induction l as [|z l IH]; cbn in *; [discriminate|].
  destruct (has_pk pk i z) eqn:E; cbn.
  - unfold has_pk. now rewrite Hy, N.eqb_refl.
  - rewrite E. auto.
Qed.

Lemma replace_first_back i y l x :
  find (has_pk pk i) l = Some x ->
  pk y = i ->
  replace_first (has_pk pk i) x (replace_first (has_pk pk i) y l) = l.
Proof.
  intros Hf Hy. induction l as [|z l IH]; cbn in *; [discriminate|].
  destruct (has_pk pk i z) eqn:E; cbn.
  - injection Hf as ->. unfold has_pk. now rewrite Hy, N.eqb_refl.
  - rewrite E. f_equal. auto.
Qed.

Lemma in_replace_first_nodup i y l x :
  NoDup (map pk l) -> find (has_pk pk i) l = Some x ->
  forall z, In z (replace_first (has_pk pk i) y l) -> z = y \/ (In z l /\ pk z <> i).
Proof.
  intros Hn Hf z. induction l as [|w l IH]; cbn in *; [discriminate|].
  inversion Hn as [|? ? Hnot Hrest]; subst.
  destruct (has_pk pk i w) eqn:E; cbn.
  - intros [<-|Hin]; [now left|]. right. split; [now right|].
    intros Hz. apply Hnot. apply N.eqb_eq in E. rewrite E, <- Hz. now apply in_map.
  - intros [<-|Hin].
    + right. split; [now left|]. intros Hz. unfold has_pk in E.
      rewrite Hz, N.eqb_refl in E. discriminate.
    + destruct (IH Hrest Hf Hin) as [->|[Hin' Hne]]; [now left|]. right. tauto.
Qed.

Lemma find_insert i l x :
  pk_taken pk i l = false -> pk x = i -> find (has_pk pk i) (l ++ [x]) = Some x.
Proof.
  intros Hfresh Hx. rewrite find_app_none.
  - cbn. unfold has_pk. now rewrite Hx, N.eqb_refl.
  - destruct (find (has_pk pk i) l) eqn:E; [|reflexivity].
    apply find_some_existsb in E. unfold pk_taken, has_pk in *. congruence.
Qed.

End KeyedRows.

Lemma archive_unarchive_attr app :
  App.status app = AppStatus.NORMAL ->
  App.setattr (App.Set_status AppStatus.NORMAL)
    (App.setattr (App.Set_status AppStatus.ARCHIVED) app) = app.
Proof. destruct app; cbn; now intros ->. Qed.

Lemma as_member_found {A} app_id account_id (k : App.t -> M A) st app :
  AppRepository.get_by_id app_id st = Some app ->
  TenantRepository.is_member (App.tenant_id app) account_id st = true ->
  AppService.as_member app_id account_id k st = k app st.
Proof.
  intros Hf Hm. unfold AppService.as_member, bind, gets. now rewrite Hf, Hm.
Qed.

Lemma app_update_found app_id kwargs st app :
  AppRepository.get_by_id app_id st = Some app ->
  AppRepository.update app_id kwargs st =
    (Ok (Some (fold_left (fun x a => App.setattr a x) kwargs app)),
     with_apps (replace_first (has_pk App.id app_id)
                  (fold_left (fun x a => App.setattr a x) kwargs app) (apps st)) st).
Proof.
  intros Hf. unfold AppRepository.update, bind, gets, modify, ret. now rewrite Hf.
Qed.

(** C8.  An app made by [create_app] is stored with status [normal].  For a
    stored app with status [normal] and a caller who is a member of its
    tenant: [archive_app] returns the app with status [archived] and the
    listing without archived apps no longer contains it; [unarchive_app]
    then returns the app with status [normal], restores the store, and the
    listing contains the app again.  The listing without archived apps is
    exactly the tenant's apps whose status is [normal]. *)
Theorem archive_unarchive_visibility :
  (forall st app_pk tenant_id creator name mode description app st1,
     AppService.create_app app_pk tenant_id creator name mode description st = (Ok app, st1) ->
     App.status app = AppStatus.NORMAL /\ App.tenant_id app = tenant_id /\
     AppRepository.get_by_id (App.id app) st1 = Some app /\
     TenantRepository.get_by_id tenant_id st1 <> None) /\
  (forall st app caller,
     NoDup (map App.id (apps st)) ->
     AppRepository.get_by_id (App.id app) st = Some app ->
     App.status app = AppStatus.NORMAL ->
     TenantRepository.get_by_id (App.tenant_id app) st <> None ->
     TenantRepository.is_member (App.tenant_id app) caller st = true ->
     exists archived st2 listing2 listing3,
       AppService.archive_app (App.id app) caller st = (Ok (Some archived), st2) /\
       App.status archived = AppStatus.ARCHIVED /\
       AppRepository.get_by_id (App.id app) st2 = Some archived /\
       AppService.get_tenant_apps (App.tenant_id app) caller false st2 = Ok listing2 /\
       ~ In (App.id app) (map App.id listing2) /\
       AppService.unarchive_app (App.id app) caller st2 = (Ok (Some app), st) /\
       AppService.get_tenant_apps (App.tenant_id app) caller false st = Ok listing3 /\
       In app listing3) /\
  (forall st tenant_id caller,
     TenantRepository.get_by_id tenant_id st <> None ->
     TenantRepository.is_member tenant_id caller st = true ->
     AppService.get_tenant_apps tenant_id caller false st =
       Ok (filter (fun a => N.eqb (App.tenant_id a) tenant_id
                            && AppStatus.eqb (App.status a) AppStatus.NORMAL) (apps st))).
Proof.
  split; [|split].
  - intros st app_pk tenant_id creator name mode description app st1.
    unfold AppService.create_app, AppRepository.create, AppRepository.get_by_id.
    crunch; intros Heq; try discriminate; injection Heq as <- <-; cbn.
    repeat split.
    + now apply (find_insert App.id).
    + match goal with
      | Hf : TenantRepository.get_by_id _ _ = Some _ |- _ =>
          unfold TenantRepository.get_by_id in *; cbn; rewrite Hf; discriminate
      end.
  - intros st app caller Hn Hstored Hnormal Htenant Hmember.
    set (archived := App.setattr (App.Set_status AppStatus.ARCHIVED) app).
    set (st2 := with_apps (replace_first (has_pk App.id (App.id app)) archived (apps st)) st).
    assert (AppService.archive_app (App.id app) caller st = (Ok (Some archived), st2)) as Harch.
    { unfold AppService.archive_app, AppRepository.archive.
      rewrite (as_member_found _ _ _ _ _ Hstored Hmember).
      now rewrite (app_update_found _ _ _ _ Hstored). }
    assert (AppRepository.get_by_id (App.id app) st2 = Some archived) as Hstored2.
    { unfold AppRepository.get_by_id, st2. cbn.
      apply (find_replace_first_same App.id _ _ _ app); [exact Hstored|].
      now destruct app. }
    assert (App.tenant_id archived = App.tenant_id app) as Htid by now destruct app.
    exists archived, st2,
      (AppRepository.get_active_apps_by_tenant (App.tenant_id app) st2),
      (AppRepository.get_active_apps_by_tenant (App.tenant_id app) st).
    split; [exact Harch|]. split; [now destruct app|]. split; [exact Hstored2|].
    split; [|split; [|split; [|split]]].
    + unfold AppService.get_tenant_apps.
      change (TenantRepository.get_by_id (App.tenant_id app) st2)
        with (TenantRepository.get_by_id (App.tenant_id app) st).
      change (TenantRepository.is_member (App.tenant_id app) caller st2)
        with (TenantRepository.is_member (App.tenant_id app) caller st).
      rewrite Hmember. now destruct (TenantRepository.get_by_id (App.tenant_id app) st).
    + intros Hin. apply in_map_iff in Hin as (z & Hz & Hin).
      unfold AppRepository.get_active_apps_by_tenant in Hin.
      apply filter_In in Hin as [Hin Hkeep]. unfold st2 in Hin. cbn in Hin.
      destruct (in_replace_first_nodup App.id _ archived _ _ Hn Hstored z Hin)
        as [->|[_ Hne]]; [|contradiction].
      destruct app; cbn in *. rewrite andb_false_r in Hkeep. discriminate.
    + unfold AppService.unarchive_app, AppRepository.unarchive.
      rewrite (as_member_found _ _ _ _ archived Hstored2)
        by (rewrite Htid; exact Hmember).
      rewrite (app_update_found _ _ _ _ Hstored2). cbn [fold_left].
      assert (App.setattr (App.Set_status AppStatus.NORMAL) archived = app) as ->
        by apply (archive_unarchive_attr app Hnormal).
      f_equal. unfold st2, with_apps.
      cbn [apps accounts tenants tenant_account_joins model_providers].
      rewrite (replace_first_back App.id _ _ _ app Hstored) by now destruct app.
      now destruct st.
    + unfold AppService.get_tenant_apps. rewrite Hmember.
      now destruct (TenantRepository.get_by_id (App.tenant_id app) st).
    + unfold AppRepository.get_active_apps_by_tenant. apply filter_In. split.
      * unfold AppRepository.get_by_id in Hstored. now apply find_some in Hstored.
      * now rewrite N.eqb_refl, Hnormal.
  - intros st tenant_id caller Htenant Hmember.
    unfold AppService.get_tenant_apps. rewrite Hmember.
    now destruct (TenantRepository.get_by_id tenant_id st).
Qed.

Lemma archive_unarchive_visibility_witness :
  AppService.create_app 20%N 10%N 2%N " Bot " AppMode.CHAT None Demo.team
    = (Ok DemoApps.bot, DemoApps.workspace) /\
  exists archived st2 listing2 listing3,
    AppService.archive_app 20%N 1%N DemoApps.workspace = (Ok (Some archived), st2) /\
    App.status archived = AppStatus.ARCHIVED /\
    AppRepository.get_by_id 20%N st2 = Some archived /\
    AppService.get_tenant_apps 10%N 1%N false st2 = Ok listing2 /\
    ~ In 20%N (map App.id listing2) /\
    AppService.unarchive_app 20%N 1%N st2 = (Ok (Some DemoApps.bot), DemoApps.workspace) /\
    AppService.get_tenant_apps 10%N 1%N false DemoApps.workspace = Ok listing3 /\
    In DemoApps.bot listing3.
Proof.
  split; [reflexivity|].
  apply (proj1 (proj2 archive_unarchive_visibility) DemoApps.workspace DemoApps.bot 1%N).
  - repeat constructor. intros [].
  - reflexivity.
  - reflexivity.
  - discriminate.
  - reflexivity.
Defined.

(** ** Adding a provider *)

Lemma existsb_pointwise {T} (p q : T -> bool) l :
  (forall x, p x = q x) -> existsb p l = existsb q l.
Proof.
  intros Hpq. induction l as [|x l IH]; cbn; [reflexivity|]. now rewrite Hpq, IH.
Qed.

Lemma active_name_taken_filter tenant_id name st :
  active_name_taken tenant_id name st =
  existsb (fun p => N.eqb (ModelProvider.tenant_id p) tenant_id
                    && String.eqb (ModelProvider.name p) name
                    && Bool.eqb (ModelProvider.is_active p) true)
          (model_providers st).
Proof.
  apply existsb_pointwise. intros p. now destruct (ModelProvider.is_active p).
Qed.

Lemma get_active_by_tenant_and_name_taken tenant_id name st :
  active_name_taken tenant_id name st = true ->
  exists p, ModelProviderRepository.get_active_by_tenant_and_name tenant_id name st = Some p.
Proof.
  rewrite active_name_taken_filter.
  unfold ModelProviderRepository.get_active_by_tenant_and_name.
  apply existsb_find_some.
Qed.

Lemma get_active_by_tenant_and_name_free tenant_id name st :
  active_name_taken tenant_id name st = false ->
  ModelProviderRepository.get_active_by_tenant_and_name tenant_id name st = None.
Proof.
  rewrite active_name_taken_filter.
  unfold ModelProviderRepository.get_active_by_tenant_and_name.
  intros Hx. destruct (find _ _) as [p|] eqn:E; [|reflexivity].
  apply find_some_existsb in E. congruence.
Qed.

Lemma provider_name_ok_checks name :
  provider_name_ok name = true ->
  Text.is_empty name || (Text.len (Text.strip name) =? 0)%N = false /\
  (100 <? Text.len name)%N = false.
Proof.
  unfold provider_name_ok. intros Hx. apply andb_true_iff in Hx as [Ha Hb].
  split; [now apply negb_true_iff in Ha|now apply negb_true_iff in Hb].
Qed.

Section AddProvider.
Context {U : UuidText} {C : HttpClient}.

(** C4.  With an existing tenant and an acceptable name: [add_provider]
    raises [ResourceConflictError] when an active provider of the tenant has
    the name; it succeeds, appending a row with [is_active = true], when every
    provider of the tenant with that name is inactive, the credentials are
    non-empty, pass the adapter's validation and can be serialized, and the
    new key is unused. *)
Theorem add_provider_active_name_asymmetry :
  forall st provider_pk tenant_id name provider_type credentials config quota_config
         created_by,
    TenantRepository.get_by_id tenant_id st <> None ->
    provider_name_ok name = true ->
    (active_name_taken tenant_id name st = true ->
     ModelProviderService.add_provider provider_pk tenant_id name provider_type credentials
       config quota_config created_by st
     = (Raise (ResourceConflictError ("Provider with name '" ++ name ++ "' already exists")),
        st)) /\
    (active_name_taken tenant_id name st = false ->
     Py.truthy credentials = true ->
     is_ok (ModelProviderService._validate_credentials provider_type credentials) = true ->
     is_ok (ModelProvider.encrypt_credentials credentials) = true ->
     pk_taken ModelProvider.id provider_pk (model_providers st) = false ->
     exists provider,
       ModelProviderService.add_provider provider_pk tenant_id name provider_type credentials
         config quota_config created_by st
       = (Ok provider, with_providers (model_providers st ++ [provider]) st) /\
       ModelProvider.is_active provider = true /\
       ModelProvider.id provider = provider_pk /\
       ModelProvider.tenant_id provider = tenant_id /\
       ModelProvider.name provider = name).
Proof.
  intros st provider_pk tenant_id name provider_type credentials config quota_config
    created_by Htenant Hname.
  apply provider_name_ok_checks in Hname as [Hblank Hlong].
  unfold ModelProviderService.add_provider, bind, gets, raise, lift.
  destruct (TenantRepository.get_by_id tenant_id st); [|contradiction].
  rewrite Hblank, Hlong. split.
  - intros Htaken.
    apply get_active_by_tenant_and_name_taken in Htaken as [p Hp]. now rewrite Hp.
  - intros Hfree Htruthy Hvalid Henc Hfresh.
    rewrite (get_active_by_tenant_and_name_free _ _ _ Hfree), Htruthy. cbn [negb].
    destruct (ModelProviderService._validate_credentials provider_type credentials);
      [|discriminate].
    destruct (ModelProvider.encrypt_credentials credentials) as [enc|]; [|discriminate].
    unfold ModelProviderRepository.create, bind, gets, raise, modify, ret. cbn.
    rewrite Hfresh. eexists. split; [reflexivity|]. cbn. tauto.
Qed.

(** C3, with the check for empty credentials.  When the adapter's validation raises on the
    credentials, [add_provider] raises and the store is left as it was; with
    an existing tenant, an acceptable name not used by an active provider and
    non-empty credentials, what it raises is [BusinessLogicError] with the
    message ["Invalid credentials: "] followed by the text of the adapter's
    exception. *)
Theorem add_provider_invalid_credentials :
  forall st provider_pk tenant_id name provider_type credentials config quota_config
         created_by e,
    ModelProviderService._validate_credentials provider_type credentials = Raise e ->
    (exists e',
       ModelProviderService.add_provider provider_pk tenant_id name provider_type credentials
         config quota_config created_by st = (Raise e', st)) /\
    (TenantRepository.get_by_id tenant_id st <> None ->
     provider_name_ok name = true ->
     active_name_taken tenant_id name st = false ->
     Py.truthy credentials = true ->
     ModelProviderService.add_provider provider_pk tenant_id name provider_type credentials
       config quota_config created_by st
     = (Raise (BusinessLogicError
                 ("Invalid credentials: " ++ ModelProviderService.exn_str e)), st)).
Proof.
  intros st provider_pk tenant_id name provider_type credentials config quota_config
    created_by e Hraise.
  unfold ModelProviderService.add_provider, bind, gets, raise, lift.
  rewrite Hraise. split.
  - repeat break_match; eexists; reflexivity.
  - intros Htenant Hname Hfree Htruthy.
    apply provider_name_ok_checks in Hname as [Hblank Hlong].
    destruct (TenantRepository.get_by_id tenant_id st); [|contradiction].
    now rewrite Hblank, Hlong, (get_active_by_tenant_and_name_free _ _ _ Hfree), Htruthy.
Qed.

End AddProvider.

Lemma add_provider_active_name_asymmetry_witness :
  ModelProviderService.add_provider (U := Sample.uuid_text) (C := Demo.http)
      31%N 10%N "OpenAI GPT-4" ProviderType.OPENAI DemoProviders.credentials None None None
      DemoProviders.configured
    = (Raise (ResourceConflictError "Provider with name 'OpenAI GPT-4' already exists"),
       DemoProviders.configured)
  /\ exists provider,
       ModelProviderService.add_provider (U := Sample.uuid_text) (C := Demo.http)
           31%N 10%N "OpenAI GPT-4" ProviderType.OPENAI DemoProviders.credentials
           None None None DemoProviders.retired
         = (Ok provider,
            with_providers (model_providers DemoProviders.retired ++ [provider])
              DemoProviders.retired) /\
       ModelProvider.is_active provider = true /\
       ModelProvider.id provider = 31%N /\
       ModelProvider.tenant_id provider = 10%N /\
       ModelProvider.name provider = "OpenAI GPT-4".
Proof.
  split.
  - apply (proj1 (add_provider_active_name_asymmetry (U := Sample.uuid_text) (C := Demo.http)
                    DemoProviders.configured 31%N 10%N "OpenAI GPT-4" ProviderType.OPENAI
                    DemoProviders.credentials None None None
                    ltac:(discriminate) eq_refl)).
    reflexivity.
  - apply (proj2 (add_provider_active_name_asymmetry (U := Sample.uuid_text) (C := Demo.http)
                    DemoProviders.retired 31%N 10%N "OpenAI GPT-4" ProviderType.OPENAI
                    DemoProviders.credentials None None None
                    ltac:(discriminate) eq_refl)); reflexivity.
Defined.

Lemma add_provider_invalid_credentials_witness :
  ModelProviderService.add_provider (U := Sample.uuid_text) (C := DemoProviders.offline)
      31%N 10%N "Backup" ProviderType.OPENAI DemoProviders.credentials None None None
      Demo.team
    = (Raise (BusinessLogicError
                "Invalid credentials: Failed to validate credentials: 401 Unauthorized"),
       Demo.team).
Proof.
  apply (proj2 (add_provider_invalid_credentials (U := Sample.uuid_text)
                  (C := DemoProviders.offline)
                  Demo.team 31%N 10%N "Backup" ProviderType.OPENAI
                  DemoProviders.credentials None None None
                  (ValueError "Failed to validate credentials: 401 Unauthorized") eq_refl));
    [discriminate|reflexivity..].
Defined.

(** C3 does not hold for empty credentials: the adapter would raise
    on them, but [add_provider] turns them away before asking it. *)
Lemma add_provider_empty_credentials :
  ~ (forall e,
       ModelProviderService._validate_credentials (C := Demo.http)
         ProviderType.OPENAI (PyDict []) = Raise e ->
       exists m,
         fst (ModelProviderService.add_provider (U := Sample.uuid_text) (C := Demo.http)
                31%N 10%N "Backup" ProviderType.OPENAI (PyDict []) None None None Demo.team)
         = Raise (BusinessLogicError ("Invalid credentials: " ++ m))).
Proof.
  intros Hall.
  destruct (Hall (ValueError "api_key is required") eq_refl) as [m Hm].
  vm_compute in Hm. discriminate.
Qed.

(** ** Tokens *)

Lemma generated_claims {U : UuidText} self utcnow account_id email :
  let payload :=
    PyDict [ (PyStr "account_id", PyStr (uuid_str account_id));
             (PyStr "email", PyStr email);
             (PyStr "exp", PyInt (utcnow + 3600 * AuthService.token_expiry_hours self));
             (PyStr "iat", PyInt utcnow) ] in
  claim "exp" payload = Some (PyInt (utcnow + 3600 * AuthService.token_expiry_hours self))
  /\ claim "iat" payload = Some (PyInt utcnow).
Proof. split; reflexivity. Qed.

(** C5.  With a codec that obeys the laws of [jwt] and a lawful textual form
    of UUIDs: for an active account found under its id, [verify_token] on
    the token issued for it returns that account, at any time from the issue
    up to the expiry; and for a token whose [exp] claim is not in the future,
    [verify_token] raises [AuthenticationError]. *)
Theorem token_round_trip :
  forall (U : UuidText) (J : JwtCodec),
    UuidTextLaws U -> JwtLaws J ->
    (forall self st account issued now,
       AccountRepository.get_by_id (Account.id account) st = Some account ->
       Account.status account = AccountStatus.ACTIVE ->
       (issued <= now)%Z ->
       (now < issued + 3600 * AuthService.token_expiry_hours self)%Z ->
       AuthService.verify_token self now
         (AuthService._generate_token self issued (Account.id account) (Account.email account))
         st = Ok account) /\
    (forall self st now tok payload exp,
       jwt_payload tok = Some payload ->
       claim "exp" payload = Some (PyInt exp) ->
       (exp <= now)%Z ->
       exists m, AuthService.verify_token self now tok st = Raise (AuthenticationError m)).
Proof.
  intros U J HU HJ. split.
  - intros self st account issued now Hfound Hactive Hissued Hfresh.
    unfold AuthService.verify_token, AuthService._generate_token.
    destruct (generated_claims self issued (Account.id account) (Account.email account))
      as [Hexp Hiat].
    rewrite (jwt_decode_encode J HJ _ _ now _ _ Hexp Hiat Hissued Hfresh).
    cbn [Py.lookup Py.key_is String.eqb Ascii.eqb Bool.eqb Py.truthy].
    destruct (uuid_str (Account.id account)) eqn:Hs.
    + exfalso. now apply (uuid_str_not_empty U HU (Account.id account)).
    + cbn [Text.is_empty negb]. rewrite <- Hs.
      rewrite (UUID_of_str_uuid_str U HU), Hfound.
      unfold Account.is_active. now rewrite Hactive.
  - intros self st now tok payload exp Hpayload Hexp Hpast.
    unfold AuthService.verify_token.
    destruct (jwt_decode tok (AuthService.secret_key self) now) as [payload'| |] eqn:Hd.
    + exfalso.
      pose proof (jwt_decode_payload J HJ _ _ _ _ Hd) as Hp.
      rewrite Hpayload in Hp. injection Hp as <-.
      pose proof (jwt_decode_fresh J HJ _ _ _ _ _ Hd Hexp). lia.
    + eexists; reflexivity.
    + eexists; reflexivity.
Qed.

Lemma token_round_trip_witness :
  AuthService.verify_token (U := Sample.uuid_text) (J := Sample.jwt)
      (AuthService.mk "change-me-in-production" 24) 1700000100
      (AuthService._generate_token (U := Sample.uuid_text) (J := Sample.jwt)
         (AuthService.mk "change-me-in-production" 24) 1700000000 1%N "a@x.com")
      Demo.registered
    = Ok Demo.alice
  /\ exists m,
       AuthService.verify_token (U := Sample.uuid_text) (J := Sample.jwt)
         (AuthService.mk "change-me-in-production" 24) 1700000100
         (PyDict [(PyStr "account_id", PyStr "1"); (PyStr "exp", PyInt 1600000000)],
          "change-me-in-production")
         Demo.registered
       = Raise (AuthenticationError m).
Proof.
  split.
  - apply (proj1 (token_round_trip Sample.uuid_text Sample.jwt
                    sample_uuid_text_laws sample_jwt_laws)
             (AuthService.mk "change-me-in-production" 24) Demo.registered Demo.alice
             1700000000%Z 1700000100%Z); [reflexivity|reflexivity|lia|cbn; lia].
  - apply (proj2 (token_round_trip Sample.uuid_text Sample.jwt
                    sample_uuid_text_laws sample_jwt_laws)
             (AuthService.mk "change-me-in-production" 24) Demo.registered 1700000100%Z
             (PyDict [(PyStr "account_id", PyStr "1"); (PyStr "exp", PyInt 1600000000)],
              "change-me-in-production")
             _ 1600000000%Z eq_refl eq_refl); lia.
Defined.

(** ** The streaming adapter *)








(** C10.  The loop tolerates only text that is not JSON: on a line that is
    JSON but has no [choices] ([{}]) the generator raises [KeyError], on one
    whose [choices] is empty it raises [IndexError]; in both cases nothing
    is yielded for the lines that follow. *)
Theorem stream_invoke_aborts_on_unexpected_json :
  Json.loads "{}" = Ok (PyDict []) /\
  Json.loads (Sse.js "{'choices': []}") = Ok (PyDict [(PyStr "choices", PyList [])]) /\
  forall rest broken,
    OpenAIProvider.stream_invoke (C := DemoStream.serving ("data: {}" :: rest) broken)
        DemoProviders.credentials DemoStream.config DemoStream.messages
      = Generated [] (Some (KeyError "'choices'")) /\
    OpenAIProvider.stream_invoke
        (C := DemoStream.serving (Sse.js "data: {'choices': []}" :: rest) broken)
        DemoProviders.credentials DemoStream.config DemoStream.messages
      = Generated [] (Some (IndexError "list index out of range")).
Proof.
  split; [reflexivity|]. split; [reflexivity|].
  intros rest broken. split; reflexivity.
Qed.

(** * Part III: further properties of the services *)

(** ** Memberships *)

Lemma nodup_snoc {A} (l : list A) (x : A) : NoDup l -> ~ In x l -> NoDup (l ++ [x]).
Proof.
  induction l as [|y l IH]; cbn; intros Hn Hx.
  - constructor; [intros []|constructor].
  - inversion Hn as [|? ? Hy Hl]; subst. constructor.
    + rewrite in_app_iff. cbn. intros [Hin|[<-|[]]]; tauto.
    + apply IH; tauto.
Qed.

Lemma is_join_key t a j : TenantRepository.is_join t a j = true <-> join_key j = (t, a).
Proof.
  unfold TenantRepository.is_join, join_key.
  rewrite andb_true_iff, !N.eqb_eq. split; [intros [-> ->]; reflexivity|now intros [= -> ->]].
Qed.

Lemma find_join_none t a l :
  find (TenantRepository.is_join t a) l = None <-> ~ In (t, a) (map join_key l).
Proof.
  induction l as [|j l IH]; cbn; [tauto|].
  destruct (TenantRepository.is_join t a j) eqn:E.
  - apply is_join_key in E. split; [discriminate|]. intros Hx. exfalso. apply Hx. now left.
  - rewrite IH. split; [|tauto]. intros Hn [Hx|Hx]; [|tauto].
    apply is_join_key in Hx. congruence.
Qed.

Lemma is_member_role t a st :
  TenantRepository.is_member t a st = TenantService.is_member t a st.
Proof.
  unfold TenantRepository.is_member, TenantService.is_member, TenantRepository.get_member_role.
  destruct (find _ _) eqn:E.
  - now apply find_some_existsb in E.
  - now apply find_none_existsb in E.
Qed.

Lemma get_member_role_other_insert t a t' a' j st :
  join_key j = (t, a) -> (t', a') <> (t, a) ->
  TenantRepository.get_member_role t' a' (with_joins (tenant_account_joins st ++ [j]) st)
  = TenantRepository.get_member_role t' a' st.
Proof.
  intros Hj Hne. unfold TenantRepository.get_member_role. cbn.
  destruct (find (TenantRepository.is_join t' a') (tenant_account_joins st)) eqn:E.
  - now rewrite (find_app_some _ _ _ _ E).
  - rewrite (find_app_none _ _ _ E). cbn.
    destruct (TenantRepository.is_join t' a' j) eqn:E'; [|reflexivity].
    apply is_join_key in E'. congruence.
Qed.

(** X1.  [add_member] by an owner or admin, for an existing account that is
    not yet a member, appends one membership row with the role asked for,
    whatever that role is (also [owner]); the account then holds that role,
    every other membership is as before and the pairs stay unique.
    Conversely it returns only when the operator is owner or admin and the
    account was not a member. *)
Theorem add_member_adds :
  (forall st join_pk t a role op,
     TenantRepository.get_by_id t st <> None ->
     AccountRepository.get_by_id a st <> None ->
     manages t op st = true ->
     TenantService.is_member t a st = false ->
     pk_taken TenantAccountJoin.id join_pk (tenant_account_joins st) = false ->
     let st' := with_joins (tenant_account_joins st
                            ++ [TenantAccountJoin.mk join_pk t a role]) st in
     TenantService.add_member join_pk t a role op st = (Ok tt, st') /\
     TenantRepository.get_member_role t a st' = Some role /\
     (forall t' a', (t', a') <> (t, a) ->
        TenantRepository.get_member_role t' a' st'
        = TenantRepository.get_member_role t' a' st) /\
     (joins_unique st -> joins_unique st')) /\
  (forall st join_pk t a role op st',
     TenantService.add_member join_pk t a role op st = (Ok tt, st') ->
     manages t op st = true /\ TenantService.is_member t a st = false /\
     TenantService.is_member t a st' = true).
Proof.
  split.
  - intros st join_pk t a role op Ht Ha Hop Hm Hpk st'.
    assert (Hfind : find (TenantRepository.is_join t a) (tenant_account_joins st) = None).
    { unfold TenantService.is_member, TenantRepository.get_member_role in Hm.
      now destruct (find _ _). }
    split; [|split; [|split]].
    + unfold TenantService.add_member, TenantRepository.add_member, bind, gets, raise, ret,
        modify.
      destruct (TenantRepository.get_by_id t st); [|contradiction].
      destruct (AccountRepository.get_by_id a st); [|contradiction].
      unfold manages in Hop.
      destruct (TenantRepository.get_member_role t op st) as [r|]; [|discriminate].
      rewrite Hop, is_member_role, Hm. unfold TenantRepository.get_member_join.
      rewrite Hfind, Hpk. reflexivity.
    + unfold TenantRepository.get_member_role. cbn.
      rewrite (find_app_none _ _ _ Hfind). cbn.
      unfold TenantRepository.is_join. cbn. now rewrite !N.eqb_refl.
    + intros t' a' Hne. now apply (get_member_role_other_insert t a).
    + unfold joins_unique. cbn. rewrite map_app. cbn. intros Hn.
      apply nodup_snoc; [exact Hn|]. now apply find_join_none in Hfind.
  - intros st join_pk t a role op st' Hrun.
    unfold TenantService.add_member, TenantRepository.add_member, bind, gets, raise, ret,
      modify in Hrun.
    unfold manages. rewrite <- !is_member_role.
    destruct (TenantRepository.get_by_id t st); [|discriminate].
    destruct (AccountRepository.get_by_id a st); [|discriminate].
    destruct (TenantRepository.get_member_role t op st) as [r|]; [|discriminate].
    destruct (owner_or_admin r); [|discriminate].
    destruct (TenantRepository.is_member t a st) eqn:Hm; [discriminate|].
    unfold TenantRepository.get_member_join in Hrun.
    destruct (find _ _) eqn:Hf in Hrun.
    + apply find_some_existsb in Hf. unfold TenantRepository.is_member in Hm. congruence.
    + destruct (pk_taken _ _ _); [discriminate|]. injection Hrun as <-.
      repeat split. unfold TenantRepository.is_member. cbn.
      rewrite existsb_app. cbn. unfold TenantRepository.is_join. cbn.
      rewrite !N.eqb_refl. apply orb_true_r.
Qed.

Lemma add_member_adds_witness :
  TenantService.add_member 13%N 10%N 3%N TenantRole.OWNER 1%N Demo.team
    = (Ok tt, with_joins (tenant_account_joins Demo.team
                          ++ [TenantAccountJoin.mk 13%N 10%N 3%N TenantRole.OWNER]) Demo.team).
Proof.
  apply (proj1 add_member_adds Demo.team 13%N 10%N 3%N TenantRole.OWNER 1%N);
    (discriminate || reflexivity).
Defined.

Section KeyedBy.
Context {T K : Type} (key : T -> K).
Implicit Types (p : T -> bool) (l : list T).

Lemma nodup_key_remove_first p l :
  NoDup (map key l) -> NoDup (map key (remove_first p l)).
Proof.
  induction l as [|x l IH]; cbn; [auto|]. intros Hn.
  inversion Hn as [|? ? Hx Hl]; subst. destruct (p x); [exact Hl|].
  cbn. constructor; [|auto]. intros Hin. apply Hx.
  apply in_map_iff in Hin as (y & Hy & Hin). apply in_map_iff. exists y.
  split; [exact Hy|]. now apply in_remove_first in Hin.
Qed.

Lemma map_key_replace_first p y l :
  (forall x, p x = true -> key x = key y) ->
  map key (replace_first p y l) = map key l.
Proof.
  intros Hp. induction l as [|x l IH]; cbn; [reflexivity|].
  destruct (p x) eqn:E; cbn; [now rewrite (Hp x E)|now rewrite IH].
Qed.

Lemma find_remove_first_gone p l :
  (forall x y, p x = true -> p y = true -> key x = key y) ->
  NoDup (map key l) -> find p (remove_first p l) = None.
Proof.
  intros Hp. induction l as [|x l IH]; cbn; [reflexivity|]. intros Hn.
  inversion Hn as [|? ? Hx Hl]; subst. destruct (p x) eqn:E.
  - destruct (find p l) as [y|] eqn:Ef; [|reflexivity].
    apply find_some in Ef as [Hin Hy]. exfalso. apply Hx.
    rewrite (Hp x y E Hy). now apply in_map.
  - cbn. rewrite E. auto.
Qed.

End KeyedBy.

(** X2.  Nobody leaves a tenant by removing themselves: [remove_member]
    with the operator as its own target always raises and leaves the store
    as it was, whatever the operator's role. *)
Theorem remove_member_never_self :
  forall st t a, exists e, TenantService.remove_member t a a st = (Raise e, st).
Proof.
  intros st t a. unfold TenantService.remove_member, bind, gets, raise.
  destruct (TenantRepository.get_by_id t st); [|eexists; reflexivity].
  destruct (TenantRepository.get_member_role t a st) as [[]|] eqn:E; cbn; rewrite ?E; cbn;
    eexists; reflexivity.
Qed.

(** X3.  [remove_member] by an owner, or by an admin on a plain member,
    deletes the membership row of a target that is not an owner: the target
    is no member afterwards, every other membership is as before. *)
Theorem remove_member_removes :
  forall st t a op r mr,
    TenantRepository.get_by_id t st <> None ->
    TenantRepository.get_member_role t op st = Some r ->
    owner_or_admin r = true ->
    TenantRepository.get_member_role t a st = Some mr ->
    mr <> TenantRole.OWNER ->
    (r = TenantRole.ADMIN -> mr <> TenantRole.ADMIN) ->
    joins_unique st ->
    let st' := with_joins (remove_first (TenantRepository.is_join t a)
                             (tenant_account_joins st)) st in
    TenantService.remove_member t a op st = (Ok tt, st') /\
    TenantService.is_member t a st' = false /\
    (forall t' a', (t', a') <> (t, a) ->
       TenantRepository.get_member_role t' a' st'
       = TenantRepository.get_member_role t' a' st) /\
    joins_unique st'.
Proof.
  intros st t a op r mr Ht Hop Hr Hmr Hno Hadmin Hu st'.
  split; [|split; [|split]].
  - unfold TenantService.remove_member, TenantRepository.remove_member, bind, gets, raise,
      ret, modify.
    destruct (TenantRepository.get_by_id t st); [|contradiction].
    rewrite Hop, Hr. cbn [negb]. rewrite Hmr.
    assert (TenantRole.eqb mr TenantRole.OWNER = false) as ->
      by (destruct mr; [contradiction|reflexivity..]).
    assert (TenantRole.eqb r TenantRole.ADMIN && TenantRole.eqb mr TenantRole.ADMIN = false)
      as -> by (destruct r, mr; try reflexivity; exfalso; now apply Hadmin).
    unfold TenantRepository.get_member_join.
    unfold TenantRepository.get_member_role in Hmr.
    destruct (find _ _); [reflexivity|discriminate].
  - unfold TenantService.is_member, TenantRepository.get_member_role. cbn.
    rewrite (find_remove_first_gone join_key); [reflexivity| |exact Hu].
    intros x y Hx Hy. apply is_join_key in Hx, Hy. congruence.
  - intros t' a' Hne. unfold TenantRepository.get_member_role. cbn.
    rewrite find_remove_first_other; [reflexivity|].
    intros j Hj. now apply (is_join_other t' a' t a).
  - unfold joins_unique. cbn. now apply nodup_key_remove_first.
Qed.

Lemma demo_team_joins_unique : joins_unique Demo.team.
Proof.
  unfold joins_unique. cbn. repeat constructor; cbn; intuition discriminate.
Qed.

Lemma remove_member_removes_witness :
  TenantService.remove_member 10%N 2%N 1%N Demo.team
    = (Ok tt, with_joins (remove_first (TenantRepository.is_join 10%N 2%N)
                            (tenant_account_joins Demo.team)) Demo.team).
Proof.
  apply (remove_member_removes Demo.team 10%N 2%N 1%N TenantRole.OWNER TenantRole.MEMBER);
    try discriminate; try reflexivity.
  exact demo_team_joins_unique.
Defined.

(** X4.  [update_member_role] by an owner, on a member that is not an
    owner and towards a role other than [owner], changes the role of that
    one membership row: the member holds the new role, the table has the
    same rows for the same pairs, and every other membership is as before. *)
Theorem update_member_role_updates :
  forall st t a new_role op mr,
    TenantRepository.get_by_id t st <> None ->
    owns t op st = true ->
    TenantRepository.get_member_role t a st = Some mr ->
    mr <> TenantRole.OWNER ->
    new_role <> TenantRole.OWNER ->
    exists st',
      TenantService.update_member_role t a new_role op st = (Ok tt, st') /\
      TenantRepository.get_member_role t a st' = Some new_role /\
      (forall t' a', (t', a') <> (t, a) ->
         TenantRepository.get_member_role t' a' st'
         = TenantRepository.get_member_role t' a' st) /\
      map join_key (tenant_account_joins st') = map join_key (tenant_account_joins st) /\
      accounts st' = accounts st /\ tenants st' = tenants st.
Proof.
  intros st t a new_role op mr Ht Hop Hmr Hno Hnew.
  unfold TenantRepository.get_member_role in Hmr.
  destruct (find (TenantRepository.is_join t a) (tenant_account_joins st)) as [j|] eqn:Hj;
    [|discriminate].
  injection Hmr as <-.
  exists (with_joins (replace_first (TenantRepository.is_join t a)
                        (TenantAccountJoin.with_role new_role j)
                        (tenant_account_joins st)) st).
  pose proof (find_some _ _ Hj) as [_ Hjj].
  split; [|split; [|split; [|split; [|split]]]]; try reflexivity.
  - unfold TenantService.update_member_role, TenantRepository.update_member_role, bind, gets,
      raise, ret, modify.
    destruct (TenantRepository.get_by_id t st); [|contradiction].
    unfold owns in Hop.
    destruct (TenantRepository.get_member_role t op st) as [[]|]; try discriminate.
    unfold TenantRepository.get_member_role, TenantRepository.get_member_join. rewrite Hj.
    assert (TenantRole.eqb (TenantAccountJoin.role j) TenantRole.OWNER = false) as ->
      by (destruct (TenantAccountJoin.role j); [contradiction|reflexivity..]).
    assert (TenantRole.eqb new_role TenantRole.OWNER = false) as ->
      by (destruct new_role; [contradiction|reflexivity..]).
    rewrite Hj. reflexivity.
  - unfold TenantRepository.get_member_role. cbn.
    assert (find (TenantRepository.is_join t a)
              (replace_first (TenantRepository.is_join t a)
                 (TenantAccountJoin.with_role new_role j) (tenant_account_joins st))
            = Some (TenantAccountJoin.with_role new_role j)) as ->; [|reflexivity].
    clear Hno. induction (tenant_account_joins st) as [|x l IH]; cbn in *; [discriminate|].
    destruct (TenantRepository.is_join t a x) eqn:E; cbn.
    + now rewrite is_join_with_role, Hjj.
    + rewrite E. auto.
  - intros t' a' Hne. unfold TenantRepository.get_member_role. cbn.
    rewrite find_replace_first_other; [reflexivity| |].
    + intros x Hx. now apply (is_join_other t' a' t a).
    + rewrite is_join_with_role. now apply (is_join_other t' a' t a).
  - cbn. apply map_key_replace_first. intros x Hx.
    apply is_join_key in Hx, Hjj. unfold join_key in *. cbn. congruence.
Qed.

Lemma update_member_role_updates_witness :
  exists st',
    TenantService.update_member_role 10%N 2%N TenantRole.ADMIN 1%N Demo.team = (Ok tt, st') /\
    TenantRepository.get_member_role 10%N 2%N st' = Some TenantRole.ADMIN.
Proof.
  destruct (update_member_role_updates Demo.team 10%N 2%N TenantRole.ADMIN 1%N
              TenantRole.MEMBER ltac:(discriminate) eq_refl eq_refl
              ltac:(discriminate) ltac:(discriminate)) as (st' & Hrun & Hrole & _).
  exists st'. split; assumption.
Defined.

(** ** What every call keeps *)

Section EveryCall.
Context {U : UuidText} {H : PasswordHasher} {J : JwtCodec} {C : HttpClient}.




End EveryCall.



(** ** Apps and their tenant *)

Lemma as_member_stranger {A} app_id account_id (k : App.t -> M A) st app :
  AppRepository.get_by_id app_id st = Some app ->
  TenantService.is_member (App.tenant_id app) account_id st = false ->
  AppService.as_member app_id account_id k st
  = (Raise (AuthorizationError "Not a member of this tenant"), st).
Proof.
  intros Hf Hm. rewrite <- is_member_role in Hm.
  unfold AppService.as_member, bind, gets, raise. now rewrite Hf, Hm.
Qed.

(** X7.  An app is out of reach of every account that is not a member of
    the app's own tenant: updating, archiving, unarchiving, toggling and
    deleting it all raise [AuthorizationError] and leave the store as it
    was, and the listing of that tenant is refused too. *)
Theorem apps_closed_to_strangers :
  forall st app_id account app,
    AppRepository.get_by_id app_id st = Some app ->
    TenantService.is_member (App.tenant_id app) account st = false ->
    let refused := AuthorizationError "Not a member of this tenant" in
    (forall updates, AppService.update_app app_id account updates st = (Raise refused, st)) /\
    AppService.archive_app app_id account st = (Raise refused, st) /\
    AppService.unarchive_app app_id account st = (Raise refused, st) /\
    (forall enable, AppService.toggle_site app_id account enable st = (Raise refused, st)) /\
    (forall enable, AppService.toggle_api app_id account enable st = (Raise refused, st)) /\
    AppService.delete_app app_id account st
      = (Raise (AuthorizationError "Only admin or owner can delete apps"), st) /\
    (forall include_archived,
       TenantRepository.get_by_id (App.tenant_id app) st <> None ->
       AppService.get_tenant_apps (App.tenant_id app) account include_archived st
       = Raise refused).
Proof.
  intros st app_id account app Hf Hm refused.
  repeat split; intros;
    try (unfold AppService.update_app, AppService.archive_app, AppService.unarchive_app,
           AppService.toggle_site, AppService.toggle_api;
         now apply as_member_stranger with (app := app)).
  - unfold AppService.delete_app, bind, gets, raise. rewrite Hf.
    unfold TenantService.is_member in Hm.
    now destruct (TenantRepository.get_member_role _ _ _).
  - unfold AppService.get_tenant_apps. rewrite is_member_role, Hm.
    now destruct (TenantRepository.get_by_id _ _).
Qed.

Lemma apps_closed_to_strangers_witness :
  AppService.archive_app 20%N 3%N DemoApps.workspace
    = (Raise (AuthorizationError "Not a member of this tenant"), DemoApps.workspace).
Proof.
  apply (apps_closed_to_strangers DemoApps.workspace 20%N 3%N DemoApps.bot); reflexivity.
Defined.

(** X8.  Deleting is reserved to owners and admins, and it is final.  For a
    stored app: a plain member of its tenant may archive it but not delete
    it; an owner or admin deletes it, after which the app is not found, every
    member-gated operation on it raises [ResourceNotFoundError], and the
    other apps are as before. *)
Theorem delete_app_is_final :
  forall st app_id account app r,
    NoDup (map App.id (apps st)) ->
    AppRepository.get_by_id app_id st = Some app ->
    TenantRepository.get_member_role (App.tenant_id app) account st = Some r ->
    (r = TenantRole.MEMBER ->
     AppService.delete_app app_id account st
       = (Raise (AuthorizationError "Only admin or owner can delete apps"), st) /\
     exists archived st', AppService.archive_app app_id account st = (Ok (Some archived), st')) /\
    (r <> TenantRole.MEMBER ->
     let st' := with_apps (remove_first (has_pk App.id app_id) (apps st)) st in
     AppService.delete_app app_id account st = (Ok tt, st') /\
     AppRepository.get_by_id app_id st' = None /\
     (forall i, i <> app_id -> AppRepository.get_by_id i st' = AppRepository.get_by_id i st) /\
     (forall who, AppService.unarchive_app app_id who st'
                  = (Raise (ResourceNotFoundError "App" (IdUUID app_id)), st')) /\
     (forall who, AppService.delete_app app_id who st'
                  = (Raise (ResourceNotFoundError "App" (IdUUID app_id)), st'))).
Proof.
  intros st app_id account app r Hn Hf Hr. split.
  - intros ->. split.
    + unfold AppService.delete_app, bind, gets, raise. now rewrite Hf, Hr.
    + unfold AppService.archive_app. rewrite (as_member_found _ _ _ _ app Hf).
      * unfold AppRepository.archive. rewrite (app_update_found _ _ _ _ Hf). eauto.
      * rewrite is_member_role. unfold TenantService.is_member. now rewrite Hr.
  - intros Hr' st'.
    assert (Hgone : AppRepository.get_by_id app_id st' = None).
    { unfold AppRepository.get_by_id. cbn.
      apply (find_remove_first_gone App.id); [|exact Hn].
      intros x y Hx Hy. unfold has_pk in *. apply N.eqb_eq in Hx, Hy. congruence. }
    split; [|split; [exact Hgone|split; [|split]]].
    + unfold AppService.delete_app, AppRepository.delete, bind, gets, raise, ret, modify.
      rewrite Hf, Hr.
      assert (owner_or_admin r = true) as -> by (destruct r; [reflexivity..|contradiction]).
      now rewrite Hf.
    + intros i Hi. unfold AppRepository.get_by_id. cbn.
      apply find_remove_first_other. intros x Hx. unfold has_pk in Hx.
      apply N.eqb_eq in Hx. apply N.eqb_neq. congruence.
    + intros who. unfold AppService.unarchive_app, AppService.as_member, bind, gets, raise.
      now rewrite Hgone.
    + intros who. unfold AppService.delete_app, bind, gets, raise. now rewrite Hgone.
Qed.

Lemma delete_app_is_final_witness :
  AppService.delete_app 20%N 2%N DemoApps.workspace
    = (Raise (AuthorizationError "Only admin or owner can delete apps"), DemoApps.workspace) /\
  AppRepository.get_by_id 20%N (snd (AppService.delete_app 20%N 1%N DemoApps.workspace)) = None.
Proof.
  split.
  - apply (proj1 (delete_app_is_final DemoApps.workspace 20%N 2%N DemoApps.bot
                    TenantRole.MEMBER ltac:(repeat constructor; intros []) eq_refl eq_refl)
                 eq_refl).
  - destruct (proj2 (delete_app_is_final DemoApps.workspace 20%N 1%N DemoApps.bot
                       TenantRole.OWNER ltac:(repeat constructor; intros []) eq_refl eq_refl)
                    ltac:(discriminate)) as (Hrun & Hgone & _).
    rewrite Hrun. exact Hgone.
Defined.

(** ** Providers and their tenant *)

Lemma find_unique_key {T} (pk : T -> UUID) (p : T -> bool) i l x :
  NoDup (map pk l) -> find p l = Some x -> pk x = i ->
  find (has_pk pk i) l = Some x.
Proof.
  intros Hn Hf Hx. induction l as [|y l IH]; cbn in *; [discriminate|].
  inversion Hn as [|? ? Hy Hl]; subst.
  destruct (p y) eqn:E.
  - injection Hf as ->. unfold has_pk. now rewrite N.eqb_refl.
  - destruct (has_pk pk (pk x) y) eqn:E'; [|auto].
    exfalso. apply Hy. unfold has_pk in E'. apply N.eqb_eq in E'. rewrite E'.
    apply in_map. now apply find_some in Hf.
Qed.

Lemma find_in_unique {T} (pk : T -> UUID) (p : T -> bool) l x :
  NoDup (map pk l) -> In x l -> p x = true ->
  (forall y, p y = true -> pk y = pk x) ->
  find p l = Some x.
Proof.
  intros Hn Hin Hx Hp. induction l as [|y l IH]; cbn in *; [contradiction|].
  inversion Hn as [|? ? Hy Hl]; subst.
  destruct (p y) eqn:E.
  - destruct Hin as [->|Hin]; [reflexivity|].
    exfalso. apply Hy. rewrite (Hp y E). now apply in_map.
  - destruct Hin as [->|Hin]; [congruence|auto].
Qed.

Lemma get_by_tenant_and_id_some t i st p :
  ModelProviderRepository.get_by_tenant_and_id t i st = Some p ->
  In p (model_providers st) /\ ModelProvider.tenant_id p = t /\ ModelProvider.id p = i.
Proof.
  unfold ModelProviderRepository.get_by_tenant_and_id. intros Hf.
  apply find_some in Hf as [Hin Hp]. apply andb_true_iff in Hp as [Ht Hi].
  apply N.eqb_eq in Ht, Hi. auto.
Qed.

Lemma get_by_tenant_and_id_by_id t i st p :
  NoDup (map ModelProvider.id (model_providers st)) ->
  ModelProviderRepository.get_by_tenant_and_id t i st = Some p ->
  ModelProviderRepository.get_by_id i st = Some p.
Proof.
  intros Hn Hf. pose proof (get_by_tenant_and_id_some _ _ _ _ Hf) as (_ & _ & Hi).
  exact (find_unique_key ModelProvider.id _ i _ p Hn Hf Hi).
Qed.

Lemma get_by_tenant_and_id_foreign t i st p :
  NoDup (map ModelProvider.id (model_providers st)) ->
  ModelProviderRepository.get_by_id i st = Some p ->
  ModelProvider.tenant_id p <> t ->
  ModelProviderRepository.get_by_tenant_and_id t i st = None.
Proof.
  intros Hn Hf Ht.
  destruct (ModelProviderRepository.get_by_tenant_and_id t i st) as [q|] eqn:E;
    [|reflexivity].
  pose proof (get_by_tenant_and_id_by_id _ _ _ _ Hn E) as Hq.
  apply get_by_tenant_and_id_some in E as (_ & Hqt & _). congruence.
Qed.

Section Providers.
Context {U : UuidText} {C : HttpClient}.

(** X9.  A provider is out of reach through any tenant but its own: with
    the id of a stored provider and another tenant's id, reading, updating,
    deleting, activating, deactivating and testing it all raise
    [ResourceNotFoundError] and leave the store as it was. *)
Theorem providers_closed_to_other_tenants :
  forall st t i p,
    NoDup (map ModelProvider.id (model_providers st)) ->
    ModelProviderRepository.get_by_id i st = Some p ->
    ModelProvider.tenant_id p <> t ->
    let missing := ResourceNotFoundError "Provider" (IdUUID i) in
    ModelProviderService.get_provider t i st = (Raise missing, st) /\
    (forall name credentials config quota_config updated_by,
       ModelProviderService.update_provider t i name credentials config quota_config
         updated_by st = (Raise missing, st)) /\
    ModelProviderService.delete_provider t i st = (Raise missing, st) /\
    ModelProviderService.activate_provider t i st = (Raise missing, st) /\
    ModelProviderService.deactivate_provider t i st = (Raise missing, st) /\
    ModelProviderService.test_connection t i st = Raise missing.
Proof.
  intros st t i p Hn Hf Ht missing.
  pose proof (get_by_tenant_and_id_foreign _ _ _ _ Hn Hf Ht) as Hnone.
  assert (Hget : ModelProviderService.get_provider t i st = (Raise missing, st)).
  { unfold ModelProviderService.get_provider, bind, gets, raise. now rewrite Hnone. }
  repeat split; intros;
    unfold ModelProviderService.update_provider, ModelProviderService.delete_provider,
      ModelProviderService.activate_provider, ModelProviderService.deactivate_provider,
      ModelProviderService.test_connection, bind;
    now rewrite ?Hget.
Qed.

Lemma set_active_found i b st p :
  ModelProviderRepository.get_by_id i st = Some p ->
  ModelProviderRepository.set_active i b st
  = (Ok true,
     with_providers (replace_first (has_pk ModelProvider.id i)
                       (ModelProvider.with_is_active b p) (model_providers st)) st).
Proof.
  intros Hf. unfold ModelProviderRepository.set_active, bind, gets, modify, ret.
  now rewrite Hf.
Qed.

Lemma with_is_active_back p :
  ModelProvider.is_active p = true ->
  ModelProvider.with_is_active true (ModelProvider.with_is_active false p) = p.
Proof. destruct p; cbn; now intros ->. Qed.

(** X10.  Deactivating and activating are inverse and each refuses to
    repeat itself: for a stored active provider, [deactivate_provider]
    returns it with [is_active = false]; deactivating again raises
    [BusinessLogicError]; [activate_provider] then returns the original
    provider and restores the store; activating again raises
    [BusinessLogicError]. *)
Theorem deactivate_activate_round_trip :
  forall st t i p,
    NoDup (map ModelProvider.id (model_providers st)) ->
    ModelProviderRepository.get_by_tenant_and_id t i st = Some p ->
    ModelProvider.is_active p = true ->
    exists st1,
      ModelProviderService.deactivate_provider t i st
        = (Ok (Some (ModelProvider.with_is_active false p)), st1) /\
      ModelProviderService.deactivate_provider t i st1
        = (Raise (BusinessLogicError "Provider is already inactive"), st1) /\
      ModelProviderService.activate_provider t i st1 = (Ok (Some p), st) /\
      ModelProviderService.activate_provider t i st
        = (Raise (BusinessLogicError "Provider is already active"), st).
Proof.
  intros st t i p Hn Hf Ha.
  pose proof (get_by_tenant_and_id_by_id _ _ _ _ Hn Hf) as Hid.
  pose proof (get_by_tenant_and_id_some _ _ _ _ Hf) as (Hin & Hpt & Hpi).
  set (q := ModelProvider.with_is_active false p).
  set (st1 := with_providers (replace_first (has_pk ModelProvider.id i) q (model_providers st)) st).
  assert (Hid1 : ModelProviderRepository.get_by_id i st1 = Some q).
  { unfold ModelProviderRepository.get_by_id, st1. cbn.
    apply (find_replace_first_same ModelProvider.id i q _ p); [exact Hid|].
    unfold q. now destruct p. }
  assert (Hf1 : ModelProviderRepository.get_by_tenant_and_id t i st1 = Some q).
  { unfold ModelProviderRepository.get_by_tenant_and_id.
    apply (find_in_unique ModelProvider.id).
    - unfold st1. cbn.
      rewrite (map_replace_first ModelProvider.id (has_pk ModelProvider.id i) q _ p Hid);
        [exact Hn|unfold q; now destruct p].
    - now apply find_some in Hid1.
    - unfold q. destruct p; cbn in *. subst. now rewrite !N.eqb_refl.
    - intros y Hy. apply andb_true_iff in Hy as [_ Hy]. apply N.eqb_eq in Hy.
      rewrite Hy. unfold q. now destruct p. }
  exists st1. split; [|split; [|split]].
  - unfold ModelProviderService.deactivate_provider, ModelProviderService.get_provider,
      ModelProviderRepository.deactivate, bind, gets, raise, ret.
    rewrite Hf, Ha. cbn [negb]. rewrite (set_active_found _ _ _ _ Hid).
    exact (f_equal2 pair (f_equal Ok Hid1) eq_refl).
  - unfold ModelProviderService.deactivate_provider, ModelProviderService.get_provider,
      bind, gets, raise, ret. rewrite Hf1. unfold q. now destruct p.
  - unfold ModelProviderService.activate_provider, ModelProviderService.get_provider,
      ModelProviderRepository.activate, bind, gets, raise, ret.
    rewrite Hf1. replace (ModelProvider.is_active q) with false by (unfold q; now destruct p).
    rewrite (set_active_found _ _ _ _ Hid1).
    replace (ModelProvider.with_is_active true q) with p
      by (unfold q; now rewrite with_is_active_back).
    assert (Hback : with_providers
                      (replace_first (has_pk ModelProvider.id i) p (model_providers st1)) st1
                    = st).
    { unfold st1. cbn. unfold with_providers. cbn.
      rewrite (replace_first_back ModelProvider.id i q _ p Hid)
        by (unfold q; now destruct p).
      now destruct st. }
    rewrite Hback. now rewrite Hid.
  - unfold ModelProviderService.activate_provider, ModelProviderService.get_provider,
      bind, gets, raise, ret. now rewrite Hf, Ha.
Qed.

Lemma in_unique_key {T} (pk : T -> UUID) l x y :
  NoDup (map pk l) -> In x l -> In y l -> pk x = pk y -> x = y.
Proof.
  intros Hn Hx Hy He. induction l as [|z l IH]; cbn in *; [contradiction|].
  inversion Hn as [|? ? Hz Hl]; subst.
  destruct Hx as [->|Hx], Hy as [->|Hy]; auto.
  - exfalso. apply Hz. rewrite He. now apply in_map.
  - exfalso. apply Hz. rewrite <- He. now apply in_map.
Qed.

Lemma in_replace_first_kept {T} (p : T -> bool) y l x :
  In x l -> p x = false -> In x (replace_first p y l).
Proof.
  intros Hin Hx. induction l as [|z l IH]; cbn in *; [contradiction|].
  destruct Hin as [->|Hin].
  - rewrite Hx. now left.
  - destruct (p z); [now right|right; auto].
Qed.

Lemma in_replace_first_new {T} (p : T -> bool) y l x :
  find p l = Some x -> In y (replace_first p y l).
Proof.
  induction l as [|z l IH]; cbn; [discriminate|].
  destruct (p z); [now left|right; auto].
Qed.

(** X11.  Activation does not look at names: an inactive provider is
    activated even when an active provider of the same tenant already has
    its name, so that the tenant ends with two distinct active providers
    under one name, which [add_provider] would have refused. *)
Theorem activate_provider_ignores_names :
  forall st t i p q,
    NoDup (map ModelProvider.id (model_providers st)) ->
    ModelProviderRepository.get_by_tenant_and_id t i st = Some p ->
    ModelProvider.is_active p = false ->
    In q (model_providers st) ->
    ModelProvider.tenant_id q = t ->
    ModelProvider.name q = ModelProvider.name p ->
    ModelProvider.is_active q = true ->
    exists p' st',
      ModelProviderService.activate_provider t i st = (Ok (Some p'), st') /\
      In p' (model_providers st') /\ In q (model_providers st') /\
      ModelProvider.id p' <> ModelProvider.id q /\
      ModelProvider.tenant_id p' = ModelProvider.tenant_id q /\
      ModelProvider.name p' = ModelProvider.name q /\
      ModelProvider.is_active p' = true /\ ModelProvider.is_active q = true.
Proof.
  intros st t i p q Hn Hf Hp Hq Hqt Hqn Hqa.
  pose proof (get_by_tenant_and_id_by_id _ _ _ _ Hn Hf) as Hid.
  pose proof (get_by_tenant_and_id_some _ _ _ _ Hf) as (Hin & Hpt & Hpi).
  assert (Hne : ModelProvider.id p <> ModelProvider.id q).
  { intros He. rewrite (in_unique_key ModelProvider.id _ p q Hn Hin Hq He) in Hp. congruence. }
  set (p' := ModelProvider.with_is_active true p).
  set (st' := with_providers (replace_first (has_pk ModelProvider.id i) p'
                                (model_providers st)) st).
  assert (Hid' : ModelProviderRepository.get_by_id i st' = Some p').
  { unfold ModelProviderRepository.get_by_id, st'. cbn.
    apply (find_replace_first_same ModelProvider.id i p' _ p); [exact Hid|].
    unfold p'. now destruct p. }
  exists p', st'. repeat split.
  - unfold ModelProviderService.activate_provider, ModelProviderService.get_provider,
      ModelProviderRepository.activate, bind, gets, raise, ret.
    rewrite Hf, Hp. rewrite (set_active_found _ _ _ _ Hid).
    exact (f_equal2 pair (f_equal Ok Hid') eq_refl).
  - unfold st'. cbn. now apply (in_replace_first_new _ _ _ p).
  - unfold st'. cbn. apply in_replace_first_kept; [exact Hq|].
    unfold has_pk. apply N.eqb_neq. congruence.
  - unfold p'. now destruct p.
  - unfold p'. destruct p; cbn in *; congruence.
  - unfold p'. destruct p; cbn in *; congruence.
  - exact Hqa.
Qed.

End Providers.

Lemma providers_closed_to_other_tenants_witness :
  ModelProviderService.get_provider 99%N 30%N DemoProviders.configured
    = (Raise (ResourceNotFoundError "Provider" (IdUUID 30%N)), DemoProviders.configured).
Proof.
  eapply (proj1 (providers_closed_to_other_tenants (U := Sample.uuid_text) (C := Demo.http)
                   DemoProviders.configured 99%N 30%N _
                   ltac:(repeat constructor; intros []) eq_refl ltac:(discriminate))).
Defined.

Lemma deactivate_activate_round_trip_witness :
  exists st1,
    ModelProviderService.deactivate_provider 10%N 30%N DemoProviders.configured
      = (Ok (ModelProviderRepository.get_by_id 30%N DemoProviders.retired), st1) /\
    fst (ModelProviderService.activate_provider 10%N 30%N st1)
      = Ok (ModelProviderRepository.get_by_id 30%N DemoProviders.configured) /\
    snd (ModelProviderService.activate_provider 10%N 30%N st1) = DemoProviders.configured.
Proof.
  destruct (deactivate_activate_round_trip
              DemoProviders.configured 10%N 30%N _
              ltac:(repeat constructor; intros []) eq_refl eq_refl)
    as (st1 & Hd & _ & Ha & _).
  exists st1. rewrite Hd, Ha. repeat split.
Defined.

Lemma activate_provider_ignores_names_witness :
  exists p' st',
    ModelProviderService.activate_provider 10%N 30%N DemoRenewal.renewed = (Ok (Some p'), st') /\
    ModelProvider.name p' = "OpenAI GPT-4" /\ ModelProvider.is_active p' = true /\
    ModelProviderRepository.get_active_by_tenant_and_name 10%N "OpenAI GPT-4"
      DemoRenewal.renewed <> None.
Proof.
  destruct (activate_provider_ignores_names
              DemoRenewal.renewed 10%N 30%N _
              (ModelProvider.mk 31%N 10%N "OpenAI GPT-4" ProviderType.OPENAI
                 (Sse.js "{'api_key': 'sk-test-key'}") true (PyDict []) (PyDict [])
                 (Some 1%N) None)
              ltac:(repeat constructor; cbn; intuition discriminate) eq_refl eq_refl
              ltac:(vm_compute; tauto) eq_refl eq_refl eq_refl)
    as (p' & st' & Hrun & _ & _ & _ & _ & Hname & Hact & _).
  exists p', st'. repeat split; [exact Hrun|exact Hname|exact Hact|discriminate].
Defined.

(** ** The pattern of e-mail addresses *)

Lemma many_spec cls k min s :
  Re.many cls k min s = true <->
  exists pre post,
    s = pre ++ post /\ Re.every cls pre = true /\ min <= String.length pre /\ k post = true.
Proof.
  revert min. induction s as [|c r IH]; intros min; cbn.
  - rewrite andb_true_iff, Nat.eqb_eq. split.
    + intros [-> Hk]. exists EmptyString, EmptyString. cbn. auto.
    + intros (pre & post & Hs & _ & Hmin & Hk).
      destruct pre; [|discriminate]. cbn in *. subst post. split; [lia|exact Hk].
  - rewrite orb_true_iff, !andb_true_iff, Nat.eqb_eq, IH. split.
    + intros [[Hc (pre & post & -> & Hpre & Hmin & Hk)]|[-> Hk]].
      * exists (String c pre), post. cbn. rewrite Hc, Hpre. repeat split; auto. lia.
      * exists EmptyString, (String c r). cbn. auto.
    + intros (pre & post & Hs & Hpre & Hmin & Hk). destruct pre as [|d pre]; cbn in *.
      * right. subst post. split; [lia|exact Hk].
      * injection Hs as <- ->. apply andb_true_iff in Hpre as [Hc Hpre].
        left. split; [exact Hc|]. exists pre, post. repeat split; auto. lia.
Qed.

Lemma at_end_spec s :
  Re.at_end s = true <-> s = EmptyString \/ s = String "010" EmptyString.
Proof.
  destruct s as [|c [|d r]]; cbn.
  - tauto.
  - rewrite Ascii.eqb_eq. split; [intros ->; now right|intros [|[=]]; congruence].
  - split; [discriminate|intros [|]; discriminate].
Qed.

(** X12.  [_validate_email] accepts exactly the strings
    [local@domain.tld] in which [local] is a non-empty run of letters,
    digits and [._%+-], [domain] a non-empty run of letters, digits and
    [.-], and [tld] at least two letters, and the same strings followed by
    one newline, which [$] lets through. *)
Theorem validate_email_accepts :
  forall email,
    AuthService._validate_email email = true <->
    exists local domain tld ending,
      email = local ++ "@" ++ domain ++ "." ++ tld ++ ending /\
      Re.every AuthService.local_char local = true /\ 1 <= String.length local /\
      Re.every AuthService.domain_char domain = true /\ 1 <= String.length domain /\
      Re.every Re.alpha tld = true /\ 2 <= String.length tld /\
      (ending = EmptyString \/ ending = String "010" EmptyString).
Proof.
  intros email. unfold AuthService._validate_email, AuthService.email_pattern.
  cbn [Re.matches]. rewrite many_spec. split.
  - intros (local & post & -> & Hl & Hln & Hk).
    destruct post as [|d post]; [discriminate|].
    apply andb_true_iff in Hk as [Hd Hk]. apply Ascii.eqb_eq in Hd. subst d.
    apply many_spec in Hk as (domain & post2 & -> & Hd & Hdn & Hk).
    destruct post2 as [|d post2]; [discriminate|].
    apply andb_true_iff in Hk as [Hdot Hk]. apply Ascii.eqb_eq in Hdot. subst d.
    apply many_spec in Hk as (tld & ending & -> & Ht & Htn & Hk).
    rewrite andb_true_r in Hk. apply at_end_spec in Hk.
    exists local, domain, tld, ending. repeat split; auto.
  - intros (local & domain & tld & ending & -> & Hl & Hln & Hd & Hdn & Ht & Htn & He).
    exists local, ("@" ++ domain ++ "." ++ tld ++ ending). repeat split; auto.
    cbn. apply many_spec. exists domain, ("." ++ tld ++ ending). repeat split; auto.
    cbn. apply many_spec. exists tld, ending. repeat split; auto.
    rewrite andb_true_r. now apply at_end_spec.
Qed.

(** ** Accounts and passwords *)

Lemma find_replace_first_both {T} (p q : T -> bool) y l x :
  find p l = Some x -> find q l = Some x -> q y = true ->
  find q (replace_first p y l) = Some y.
Proof.
  intros Hp Hq Hy. induction l as [|z l IH]; cbn in *; [discriminate|].
  destruct (p z) eqn:Pz, (q z) eqn:Qz; cbn.
  - now rewrite Hy.
  - now rewrite Hy.
  - injection Hq as <-. apply find_some in Hp as [_ Hp]. congruence.
  - rewrite Qz. auto.
Qed.

Section Passwords.
Context {U : UuidText} {H : PasswordHasher} {G : PasswordGenerator} {J : JwtCodec}.

(** What [login] does for an active account whose password checks. *)
Lemma login_accepts self utcnow st email password a :
  AccountRepository.get_by_email email st = Some a ->
  AccountRepository.get_by_id (Account.id a) st = Some a ->
  Account.status a = AccountStatus.ACTIVE ->
  check_password_hash (Account.password_hash a) password = true ->
  AuthService.login self utcnow email password st
  = (Ok (Account.setattr (Account.Set_last_login_at utcnow) a,
         AuthService._generate_token self utcnow (Account.id a) (Account.email a)),
     with_accounts (replace_first (has_pk Account.id (Account.id a))
                      (Account.setattr (Account.Set_last_login_at utcnow) a)
                      (accounts st)) st).
Proof.
  intros He Hi Hs Hc.
  unfold AuthService.login, AccountRepository.update, bind, gets, raise, ret, modify.
  now rewrite He, Hs, Hc, Hi.
Qed.

(** X13.  Registration and login compose.  With a well-formed e-mail
    address that is not registered yet, a password of six characters or
    more, a name that is not blank and an unused key, [register] stores an
    active account under the stripped name; [login] with the same address
    and password then returns that account, stamped with the login time, and
    a token for it. *)
Theorem register_then_login :
  PasswordLaws H G ->
  forall self st account_pk salt email password name utcnow,
    AuthService._validate_email email = true ->
    (6 <= Text.len password)%N ->
    Text.strip name <> EmptyString ->
    AccountRepository.email_exists email st = false ->
    pk_taken Account.id account_pk (accounts st) = false ->
    let account := Account.mk account_pk email (generate_password_hash salt password)
                     (Text.strip name) AccountStatus.ACTIVE None in
    let st1 := with_accounts (accounts st ++ [account]) st in
    AuthService.register account_pk salt email password name st = (Ok account, st1) /\
    exists st2,
      AuthService.login self utcnow email password st1
      = (Ok (Account.setattr (Account.Set_last_login_at utcnow) account,
             AuthService._generate_token self utcnow account_pk email), st2) /\
      AccountRepository.get_by_id account_pk st2
      = Some (Account.setattr (Account.Set_last_login_at utcnow) account).
Proof.
  intros HG self st account_pk salt email password name utcnow Hemail Hpw Hname Hfree Hpk
    account st1.
  assert (Hnonblank : Text.is_empty name || (Text.len (Text.strip name) =? 0)%N = false).
  { destruct name as [|c r]; [now cbn in Hname|]. cbn [Text.is_empty orb].
    apply N.eqb_neq. unfold Text.len. destruct (Text.strip (String c r)); [contradiction|].
    cbn. lia. }
  split.
  - unfold AuthService.register, AccountRepository.create, bind, gets, raise, ret, modify.
    rewrite Hemail. unfold AuthService._validate_password.
    apply N.leb_le in Hpw. rewrite Hpw, Hnonblank. cbn. rewrite Hfree. cbn.
    rewrite Hfree, Hpk. reflexivity.
  - assert (He : AccountRepository.get_by_email email st1 = Some account).
    { unfold AccountRepository.get_by_email, st1. cbn. rewrite find_app_none.
      - cbn. now rewrite String.eqb_refl.
      - unfold AccountRepository.email_exists in Hfree.
        destruct (find _ (accounts st)) eqn:E; [|reflexivity].
        apply find_some_existsb in E. congruence. }
    assert (Hi : AccountRepository.get_by_id account_pk st1 = Some account).
    { unfold AccountRepository.get_by_id, st1. cbn.
      now apply (find_insert Account.id account_pk). }
    eexists. split.
    + apply (login_accepts self utcnow st1 email password account He Hi eq_refl).
      apply (check_generate H G HG).
    + unfold AccountRepository.get_by_id. cbn.
      now apply (find_replace_first_same Account.id account_pk _ _ account).
Qed.

(** X14.  An e-mail address is registered at most once: the accounts keep
    distinct addresses through [register], and once an address is
    registered every later [register] with it raises, whatever the other
    arguments, and leaves the store as it was. *)
Theorem register_keeps_emails_unique :
  forall st account_pk salt email password name,
    (emails_unique st ->
     emails_unique (snd (AuthService.register account_pk salt email password name st))) /\
    (AccountRepository.email_exists email st = true ->
     exists e,
       AuthService.register account_pk salt email password name st = (Raise e, st) /\
       (AuthService._validate_email email = true ->
        AuthService._validate_password password = true ->
        Text.strip name <> EmptyString ->
        e = ResourceConflictError ("Email already exists: " ++ email))).
Proof.
  intros st account_pk salt email password name. split.
  - intros Hu.
    unfold AuthService.register, AccountRepository.create, bind, gets, raise, ret, modify.
    destruct (negb _); [exact Hu|]. destruct (negb _); [exact Hu|].
    destruct (_ || _); [exact Hu|].
    destruct (AccountRepository.email_exists email st) eqn:He; [exact Hu|].
    cbv beta. rewrite He, orb_false_r. destruct (pk_taken _ _ _); [exact Hu|].
    unfold emails_unique in *. cbn. rewrite map_app. cbn.
    apply nodup_snoc; [exact Hu|].
    unfold AccountRepository.email_exists in He. intros Hin.
    apply in_map_iff in Hin as (x & Hx & Hin).
    assert (existsb (fun a => String.eqb (Account.email a) email) (accounts st) = true);
      [|congruence].
    apply existsb_exists. exists x. split; [exact Hin|]. now apply String.eqb_eq.
  - intros He.
    unfold AuthService.register, AccountRepository.create, bind, gets, raise, ret, modify.
    destruct (AuthService._validate_email email); cbn [negb];
      [|eexists; split; [reflexivity|discriminate]].
    destruct (AuthService._validate_password password); cbn [negb];
      [|eexists; split; [reflexivity|discriminate]].
    destruct (Text.is_empty name || (Text.len (Text.strip name) =? 0)%N) eqn:Hn.
    + eexists. split; [reflexivity|]. intros _ _ Hname. exfalso.
      destruct name as [|c r]; [now cbn in Hname|]. cbn [Text.is_empty orb] in Hn.
      apply N.eqb_eq in Hn. unfold Text.len in Hn.
      destruct (Text.strip (String c r)); [contradiction|]. cbn in Hn. lia.
    + rewrite He. eexists. split; reflexivity.
Qed.

Lemma account_update_found id kwargs st a :
  AccountRepository.get_by_id id st = Some a ->
  AccountRepository.update id kwargs st
  = (Ok (Some (fold_left (fun x k => Account.setattr k x) kwargs a)),
     with_accounts (replace_first (has_pk Account.id id)
                      (fold_left (fun x k => Account.setattr k x) kwargs a) (accounts st)) st).
Proof.
  intros Hf. unfold AccountRepository.update, bind, gets, modify, ret. now rewrite Hf.
Qed.

(** The account found under an address and under its own id, with a new
    hash in its row. *)
Lemma rehashed_lookup st email a hash :
  AccountRepository.get_by_email email st = Some a ->
  AccountRepository.get_by_id (Account.id a) st = Some a ->
  let a' := Account.setattr (Account.Set_password_hash hash) a in
  let st1 := with_accounts (replace_first (has_pk Account.id (Account.id a)) a'
                              (accounts st)) st in
  AccountRepository.get_by_email email st1 = Some a' /\
  AccountRepository.get_by_id (Account.id a') st1 = Some a'.
Proof.
  intros He Hi a' st1. split.
  - unfold AccountRepository.get_by_email, st1. cbn.
    apply (find_replace_first_both _ _ _ _ a Hi He).
    apply find_some in He as [_ He]. exact He.
  - unfold AccountRepository.get_by_id, st1. cbn.
    now apply (find_replace_first_same Account.id (Account.id a) _ _ a).
Qed.

(** X15.  [change_password] asks for the old password before anything
    else: with a wrong old password it raises [AuthenticationError] and
    changes nothing, also when the new password is too short; with the right
    one and a new password of six characters or more it replaces the hash of
    that account only, after which an active account logs in with the new
    password. *)
Theorem change_password_then_login :
  PasswordLaws H G ->
  forall self st salt account_id old_password new_password a utcnow,
    AccountRepository.get_by_id account_id st = Some a ->
    (check_password_hash (Account.password_hash a) old_password = false ->
     AuthService.change_password salt account_id old_password new_password st
     = (Raise (AuthenticationError "Old password is incorrect"), st)) /\
    (check_password_hash (Account.password_hash a) old_password = true ->
     (6 <= Text.len new_password)%N ->
     let a' := Account.setattr
                 (Account.Set_password_hash (generate_password_hash salt new_password)) a in
     exists st1,
       AuthService.change_password salt account_id old_password new_password st
       = (Ok (Some a'), st1) /\
       AccountRepository.get_by_id account_id st1 = Some a' /\
       (forall i, i <> account_id ->
          AccountRepository.get_by_id i st1 = AccountRepository.get_by_id i st) /\
       (AccountRepository.get_by_email (Account.email a) st = Some a ->
        Account.status a = AccountStatus.ACTIVE ->
        exists logged st2,
          AuthService.login self utcnow (Account.email a) new_password st1
          = (Ok (logged, AuthService._generate_token self utcnow account_id (Account.email a)),
             st2))).
Proof.
  intros HG self st salt account_id old_password new_password a utcnow Hi.
  assert (Hid : Account.id a = account_id).
  { apply find_some in Hi as [_ Hi]. now apply N.eqb_eq in Hi. }
  split.
  - intros Hc. unfold AuthService.change_password, bind, gets, raise. now rewrite Hi, Hc.
  - intros Hc Hlen a'. apply N.leb_le in Hlen.
    exists (with_accounts (replace_first (has_pk Account.id account_id) a' (accounts st)) st).
    split; [|split; [|split]].
    + unfold AuthService.change_password, bind, gets, raise.
      rewrite Hi, Hc. unfold AuthService._validate_password. rewrite Hlen. cbn [negb].
      rewrite (account_update_found _ _ _ _ Hi). reflexivity.
    + unfold AccountRepository.get_by_id. cbn.
      apply (find_replace_first_same Account.id account_id _ _ a Hi). exact Hid.
    + intros i Hne. unfold AccountRepository.get_by_id. cbn.
      apply find_replace_first_other.
      * intros x Hx. unfold has_pk in Hx. apply N.eqb_eq in Hx. apply N.eqb_neq. congruence.
      * apply N.eqb_neq. cbn. congruence.
    + intros He Hs. subst account_id.
      destruct (rehashed_lookup st (Account.email a) a
                  (generate_password_hash salt new_password) He Hi) as [He1 Hi1].
      unfold a'. eexists _, _.
      rewrite (login_accepts self utcnow _ (Account.email a) new_password _ He1 Hi1).
      * reflexivity.
      * exact Hs.
      * apply (check_generate H G HG).
Qed.

(** X16.  [reset_password] needs neither the old password nor an active
    account: for any stored address and a new password of six characters or
    more it replaces the hash and keeps the status.  An active account then
    logs in with the new password; a banned or inactive one is still turned
    away by its status. *)
Theorem reset_password_then_login :
  PasswordLaws H G ->
  forall self st salt email new_password a utcnow,
    AccountRepository.get_by_email email st = Some a ->
    AccountRepository.get_by_id (Account.id a) st = Some a ->
    (6 <= Text.len new_password)%N ->
    let a' := Account.setattr
                (Account.Set_password_hash (generate_password_hash salt new_password)) a in
    exists st1,
      AuthService.reset_password salt email new_password st = (Ok (Some a'), st1) /\
      Account.status a' = Account.status a /\
      (Account.status a = AccountStatus.ACTIVE ->
       exists logged st2,
         AuthService.login self utcnow email new_password st1
         = (Ok (logged, AuthService._generate_token self utcnow (Account.id a) (Account.email a)),
            st2)) /\
      (Account.status a <> AccountStatus.ACTIVE ->
       exists m, AuthService.login self utcnow email new_password st1
                 = (Raise (AuthenticationError m), st1)).
Proof.
  intros HG self st salt email new_password a utcnow He Hi Hlen a'.
  apply N.leb_le in Hlen.
  destruct (rehashed_lookup st email a (generate_password_hash salt new_password) He Hi)
    as [He1 Hi1].
  exists (with_accounts (replace_first (has_pk Account.id (Account.id a)) a' (accounts st)) st).
  split; [|split; [|split]].
  - unfold AuthService.reset_password, bind, gets, raise.
    rewrite He. unfold AuthService._validate_password. rewrite Hlen. cbn [negb].
    rewrite (account_update_found _ _ _ _ Hi). reflexivity.
  - reflexivity.
  - intros Hs. unfold a'. eexists _, _.
    rewrite (login_accepts self utcnow _ email new_password _ He1 Hi1).
    + reflexivity.
    + exact Hs.
    + apply (check_generate H G HG).
  - intros Hs. unfold a'. unfold AuthService.login, bind, gets, raise. rewrite He1.
    cbn [Account.setattr Account.status].
    destruct (Account.status a); [contradiction|eexists; reflexivity..].
Qed.

End Passwords.

Lemma sample_password_laws : PasswordLaws Sample.hasher Sample.generator.
Proof. split. intros salt password. cbn. apply String.eqb_refl. Qed.

Lemma register_then_login_witness :
  exists account st1 logged st2,
    AuthService.register (G := Sample.generator) 5%N "salt" "c@x.com" "secret5" " Carol "
      Demo.registered = (Ok account, st1) /\
    Account.name account = "Carol" /\
    AuthService.login (U := Sample.uuid_text) (H := Sample.hasher) (J := Sample.jwt)
      (AuthService.mk "key" 24) 1700000000 "c@x.com" "secret5" st1
    = (Ok (logged, AuthService._generate_token (U := Sample.uuid_text) (J := Sample.jwt)
                     (AuthService.mk "key" 24) 1700000000 5%N "c@x.com"), st2) /\
    Account.last_login_at logged = Some 1700000000%Z.
Proof.
  destruct (register_then_login (U := Sample.uuid_text) (J := Sample.jwt)
              sample_password_laws (AuthService.mk "key" 24) Demo.registered 5%N "salt"
              "c@x.com" "secret5" " Carol " 1700000000
              eq_refl ltac:(vm_compute; discriminate) ltac:(vm_compute; discriminate)
              eq_refl eq_refl) as (Hreg & st2 & Hlogin & _).
  eexists _, _, _, st2. split; [exact Hreg|]. split; [reflexivity|].
  split; [exact Hlogin|reflexivity].
Defined.

Lemma register_keeps_emails_unique_witness :
  AuthService.register (G := Sample.generator) 5%N "salt" "a@x.com" "secret5" "Alice again"
    Demo.registered
  = (Raise (ResourceConflictError "Email already exists: a@x.com"), Demo.registered).
Proof.
  destruct (proj2 (register_keeps_emails_unique (G := Sample.generator) Demo.registered 5%N
                     "salt" "a@x.com" "secret5" "Alice again") eq_refl)
    as (e & Hrun & He).
  rewrite Hrun, (He eq_refl eq_refl ltac:(vm_compute; discriminate)). reflexivity.
Defined.

Lemma change_password_then_login_witness :
  AuthService.change_password (H := Sample.hasher) (G := Sample.generator)
    "salt" 1%N "guess" "x" Demo.registered
  = (Raise (AuthenticationError "Old password is incorrect"), Demo.registered) /\
  exists st1 logged st2,
    fst (AuthService.change_password (H := Sample.hasher) (G := Sample.generator)
           "salt" 1%N "secret1" "secret9" Demo.registered)
    = Ok (AccountRepository.get_by_id 1%N st1) /\
    AuthService.login (U := Sample.uuid_text) (H := Sample.hasher) (J := Sample.jwt)
      (AuthService.mk "key" 24) 1700000000 "a@x.com" "secret9" st1
    = (Ok (logged, AuthService._generate_token (U := Sample.uuid_text) (J := Sample.jwt)
                     (AuthService.mk "key" 24) 1700000000 1%N "a@x.com"), st2).
Proof.
  pose proof (change_password_then_login (U := Sample.uuid_text) (J := Sample.jwt)
                sample_password_laws (AuthService.mk "key" 24) Demo.registered "salt" 1%N)
    as Hx.
  split.
  - exact (proj1 (Hx "guess" "x" Demo.alice 1700000000%Z eq_refl) eq_refl).
  - destruct (proj2 (Hx "secret1" "secret9" Demo.alice 1700000000%Z eq_refl) eq_refl
                ltac:(vm_compute; discriminate)) as (st1 & Hrun & Hfound & _ & Hlogin).
    destruct (Hlogin eq_refl eq_refl) as (logged & st2 & Hl).
    exists st1, logged, st2. rewrite Hrun, Hfound. split; [reflexivity|exact Hl].
Defined.

Lemma reset_password_then_login_witness :
  exists st1 m,
    snd (AuthService.reset_password (G := Sample.generator) "salt" "m@x.com" "secret9"
           Demo.registered) = st1 /\
    AuthService.login (U := Sample.uuid_text) (H := Sample.hasher) (J := Sample.jwt)
      (AuthService.mk "key" 24) 1700000000 "m@x.com" "secret9" st1
    = (Raise (AuthenticationError m), st1).
Proof.
  destruct (reset_password_then_login (U := Sample.uuid_text) (J := Sample.jwt)
              sample_password_laws (AuthService.mk "key" 24) Demo.registered "salt"
              "m@x.com" "secret9" Demo.mallory 1700000000%Z eq_refl eq_refl
              ltac:(vm_compute; discriminate)) as (st1 & Hrun & _ & _ & Hban).
  destruct (Hban ltac:(discriminate)) as (m & Hm).
  exists st1, m. rewrite Hrun. split; [reflexivity|exact Hm].
Defined.

(** ** Updating and testing a provider *)

(** What is stored for credentials made of JSON values reads back. *)
Lemma encrypt_decrypt_native credentials :
  Json.native credentials = true ->
  exists stored,
    ModelProvider.encrypt_credentials credentials = Ok stored /\
    ModelProvider.decrypt_credentials stored = Ok credentials.
Proof.
  intros Hn. destruct (native_read_back credentials Hn) as (s & Hdump & Hopen & Hread).
  exists s. split; [exact Hdump|].
  unfold ModelProvider.decrypt_credentials, Json.loads.
  pose proof (skip_ws_opens s EmptyString Hopen) as Hskip.
  rewrite append_nil_r in Hskip. rewrite Hskip.
  pose proof (Hread (2 * String.length s + 1) EmptyString) as Hv.
  rewrite append_nil_r in Hv. rewrite Hv by (lia || reflexivity). reflexivity.
Qed.

Lemma fold_provider_setattr kwargs x :
  let y := fold_left (fun x a => ModelProvider.setattr a x) kwargs x in
  ModelProvider.id y = ModelProvider.id x /\
  ModelProvider.tenant_id y = ModelProvider.tenant_id x /\
  ModelProvider.provider_type y = ModelProvider.provider_type x /\
  ModelProvider.is_active y = ModelProvider.is_active x /\
  ModelProvider.created_by y = ModelProvider.created_by x.
Proof.
  revert x. induction kwargs as [|a kwargs IH]; intros x; cbn; [repeat split|].
  destruct (IH (ModelProvider.setattr a x)) as (H1 & H2 & H3 & H4 & H5).
  cbn in *. rewrite H1, H2, H3, H4, H5. now destruct a.
Qed.

Section UpdateProvider.
Context {U : UuidText} {C : HttpClient}.

Lemma name_updates_reads t p name st r st' :
  ModelProviderService.name_updates t p name st = (r, st') -> st' = st.
Proof.
  unfold ModelProviderService.name_updates. destruct name as [name|]; crunch; congruence.
Qed.

Lemma credentials_updates_reads p credentials st r st' :
  ModelProviderService.credentials_updates p credentials st = (r, st') -> st' = st.
Proof.
  unfold ModelProviderService.credentials_updates.
  destruct credentials as [credentials|]; crunch; congruence.
Qed.

Lemma provider_update_found i kwargs st p :
  ModelProviderRepository.get_by_id i st = Some p ->
  ModelProviderRepository.update i kwargs st
  = (Ok (Some (fold_left (fun x a => ModelProvider.setattr a x) kwargs p)),
     with_providers (replace_first (has_pk ModelProvider.id i)
                       (fold_left (fun x a => ModelProvider.setattr a x) kwargs p)
                       (model_providers st)) st).
Proof.
  intros Hf. unfold ModelProviderRepository.update, bind, gets, modify, ret. now rewrite Hf.
Qed.

(** X17.  [update_provider] is all or nothing and keeps what identifies a
    provider.  With nothing to change it returns the provider and leaves the
    store as it was.  Otherwise it either raises, leaving the store as it
    was, or returns the provider with the same id, tenant, type, activity
    and creator; only that row has changed. *)
Theorem update_provider_keeps_identity :
  forall st t i p,
    NoDup (map ModelProvider.id (model_providers st)) ->
    ModelProviderRepository.get_by_tenant_and_id t i st = Some p ->
    ModelProviderService.update_provider t i None None None None None st = (Ok (Some p), st) /\
    forall name credentials config quota_config updated_by r st',
      ModelProviderService.update_provider t i name credentials config quota_config
        updated_by st = (r, st') ->
      (exists e, r = Raise e /\ st' = st) \/
      (exists p',
         r = Ok (Some p') /\
         ModelProvider.id p' = i /\ ModelProvider.tenant_id p' = t /\
         ModelProvider.provider_type p' = ModelProvider.provider_type p /\
         ModelProvider.is_active p' = ModelProvider.is_active p /\
         ModelProvider.created_by p' = ModelProvider.created_by p /\
         ModelProviderRepository.get_by_tenant_and_id t i st' = Some p' /\
         (forall j, j <> i -> ModelProviderRepository.get_by_id j st'
                              = ModelProviderRepository.get_by_id j st)).
Proof.
  intros st t i p Hn Hf.
  pose proof (get_by_tenant_and_id_by_id _ _ _ _ Hn Hf) as Hid.
  pose proof (get_by_tenant_and_id_some _ _ _ _ Hf) as (Hin & Hpt & Hpi).
  assert (Hget : ModelProviderService.get_provider t i st = (Ok p, st)).
  { unfold ModelProviderService.get_provider, bind, gets, ret. now rewrite Hf. }
  split.
  - unfold ModelProviderService.update_provider, bind. now rewrite Hget.
  - intros name credentials config quota_config updated_by r st'.
    unfold ModelProviderService.update_provider, bind. rewrite Hget.
    destruct (ModelProviderService.name_updates t p name st) as [[named|e] s1] eqn:E1;
      pose proof (name_updates_reads _ _ _ _ _ _ E1) as ->;
      [|intros [= <- <-]; left; eauto].
    destruct (ModelProviderService.credentials_updates p credentials st)
      as [[keyed|e] s2] eqn:E2;
      pose proof (credentials_updates_reads _ _ _ _ _ E2) as ->;
      [|intros [= <- <-]; left; eauto].
    match goal with |- context [match ?l with [] => _ | _ :: _ => _ end] =>
      destruct l as [|a kwargs] eqn:El end.
    + intros [= <- <-]. right. exists p. repeat split; auto.
    + rewrite (provider_update_found _ _ _ _ Hid). intros [= <- <-]. right.
      eexists. split; [reflexivity|].
      destruct (fold_provider_setattr (a :: kwargs) p) as (H1 & H2 & H3 & H4 & H5).
      cbn [fold_left] in *.
      split; [congruence|]. split; [congruence|]. split; [exact H3|].
      split; [exact H4|]. split; [exact H5|]. split.
      * unfold ModelProviderRepository.get_by_tenant_and_id.
        apply (find_in_unique ModelProvider.id).
        -- cbn [model_providers with_providers].
           rewrite (map_replace_first ModelProvider.id (has_pk ModelProvider.id i) _ _ p Hid);
             [exact Hn|exact H1].
        -- cbn [model_providers with_providers]. now apply (in_replace_first_new _ _ _ p).
        -- rewrite H1, H2, Hpt, Hpi, !N.eqb_refl. reflexivity.
        -- intros y Hy. apply andb_true_iff in Hy as [_ Hy]. apply N.eqb_eq in Hy.
           congruence.
      * intros j Hj. unfold ModelProviderRepository.get_by_id.
        cbn [model_providers with_providers].
        apply find_replace_first_other.
        -- intros x Hx. unfold has_pk in Hx. apply N.eqb_eq in Hx. apply N.eqb_neq.
           congruence.
        -- apply N.eqb_neq. congruence.
Qed.

(** X18.  On an update every failure of the adapter is reported as invalid
    credentials, empty credentials included: unlike [add_provider],
    [update_provider] has no check of its own for them.  When the name
    passes its checks and the adapter raises on the credentials, the call
    raises [BusinessLogicError] with the adapter's message and changes
    nothing. *)
Theorem update_provider_invalid_credentials :
  forall st t i p name named credentials config quota_config updated_by e,
    ModelProviderRepository.get_by_tenant_and_id t i st = Some p ->
    ModelProviderService.name_updates t p name st = (Ok named, st) ->
    ModelProviderService._validate_credentials (ModelProvider.provider_type p) credentials
      = Raise e ->
    ModelProviderService.update_provider t i name (Some credentials) config quota_config
      updated_by st
    = (Raise (BusinessLogicError ("Invalid credentials: " ++ ModelProviderService.exn_str e)),
       st).
Proof.
  intros st t i p name named credentials config quota_config updated_by e Hf Hname Hraise.
  unfold ModelProviderService.update_provider, ModelProviderService.get_provider,
    ModelProviderService.credentials_updates, bind, gets, ret, raise.
  now rewrite Hf, Hname, Hraise.
Qed.

End UpdateProvider.

(** X19.  Stored credentials can be used again.  For credentials made of
    JSON values, what [add_provider] stores decrypts to the credentials it
    was given, and [test_connection] on the new provider reports what the
    adapter says about those very credentials at the time of the test:
    success, or failure with the adapter's message; it does not raise. *)
Theorem test_connection_after_add :
  forall (U : UuidText) (C C' : HttpClient) st provider_pk t name provider_type credentials
         config quota_config created_by p st',
    Json.native credentials = true ->
    ModelProviderService.add_provider (C := C) provider_pk t name provider_type credentials
      config quota_config created_by st = (Ok p, st') ->
    ModelProvider.decrypt_credentials (ModelProvider.encrypted_credentials p) = Ok credentials /\
    ModelProviderService.test_connection (C := C') t provider_pk st'
    = Ok (match ModelProviderService._validate_credentials (C := C') provider_type credentials
          with
          | Ok _ => ModelProviderService.connection_report true "Connection successful"
          | Raise e =>
              ModelProviderService.connection_report false (ModelProviderService.exn_str e)
          end).
Proof.
  intros U C C' st provider_pk t name provider_type credentials config quota_config
    created_by p st' Hn Hadd.
  destruct (encrypt_decrypt_native credentials Hn) as (stored & Henc & Hdec).
  unfold ModelProviderService.add_provider, ModelProviderRepository.create,
    bind, gets, raise, ret, modify, lift in Hadd.
  destruct (TenantRepository.get_by_id t st); [|discriminate].
  destruct (_ || _); [discriminate|]. destruct (_ <? _)%N; [discriminate|].
  destruct (ModelProviderRepository.get_active_by_tenant_and_name t name st); [discriminate|].
  destruct (negb _); [discriminate|].
  destruct (ModelProviderService._validate_credentials provider_type credentials);
    [|discriminate].
  rewrite Henc in Hadd. cbn in Hadd.
  destruct (pk_taken _ _ _) eqn:Hpk; [discriminate|].
  injection Hadd as <- <-. split; [exact Hdec|].
  unfold ModelProviderService.test_connection, ModelProviderService.get_provider,
    bind, gets, raise, ret.
  assert (ModelProviderRepository.get_by_tenant_and_id t provider_pk
            (with_providers
               (model_providers st ++
                [ModelProvider.mk provider_pk t name provider_type stored true
                   (ModelProviderService.or_empty_dict config)
                   (ModelProviderService.or_empty_dict quota_config) created_by None]) st)
          = Some (ModelProvider.mk provider_pk t name provider_type stored true
                    (ModelProviderService.or_empty_dict config)
                    (ModelProviderService.or_empty_dict quota_config) created_by None)) as ->.
  { unfold ModelProviderRepository.get_by_tenant_and_id. cbn [model_providers with_providers].
    rewrite find_app_none.
    - cbn. now rewrite !N.eqb_refl.
    - destruct (find _ (model_providers st)) as [x|] eqn:E; [|reflexivity].
      apply find_some in E as [Hin Hx]. apply andb_true_iff in Hx as [_ Hx].
      assert (pk_taken ModelProvider.id provider_pk (model_providers st) = true);
        [|congruence].
      apply existsb_exists. exists x. split; assumption. }
  cbn [fst ModelProvider.encrypted_credentials ModelProvider.provider_type].
  rewrite Hdec.
  now destruct (ModelProviderService._validate_credentials provider_type credentials).
Qed.

Lemma update_provider_keeps_identity_witness :
  ModelProviderService.update_provider (U := Sample.uuid_text) (C := Demo.http)
    10%N 30%N None None None None None DemoProviders.configured
  = (Ok (ModelProviderRepository.get_by_id 30%N DemoProviders.configured),
     DemoProviders.configured).
Proof.
  apply (proj1 (update_provider_keeps_identity (U := Sample.uuid_text) (C := Demo.http)
                  DemoProviders.configured 10%N 30%N _
                  ltac:(repeat constructor; intros []) eq_refl)).
Defined.

Lemma update_provider_invalid_credentials_witness :
  ModelProviderService.update_provider (U := Sample.uuid_text) (C := Demo.http)
    10%N 30%N (Some "GPT-4") (Some (PyDict [])) None None None DemoProviders.configured
  = (Raise (BusinessLogicError "Invalid credentials: api_key is required"),
     DemoProviders.configured).
Proof.
  apply (update_provider_invalid_credentials (U := Sample.uuid_text) (C := Demo.http)
           DemoProviders.configured 10%N 30%N _ (Some "GPT-4")
           [ModelProvider.Set_name "GPT-4"] (PyDict []) None None None
           (ValueError "api_key is required") eq_refl eq_refl eq_refl).
Defined.

Lemma test_connection_after_add_witness :
  ModelProviderService.test_connection (U := Sample.uuid_text) (C := DemoProviders.offline)
    10%N 30%N DemoProviders.configured
  = Ok (ModelProviderService.connection_report false
          "Failed to validate credentials: 401 Unauthorized").
Proof.
  apply (proj2 (test_connection_after_add Sample.uuid_text Demo.http DemoProviders.offline
                  Demo.team 30%N 10%N "OpenAI GPT-4" ProviderType.OPENAI
                  DemoProviders.credentials None None (Some 1%N) _ _ eq_refl eq_refl)).
Defined.

(** ** What the encoder writes *)

Lemma every_append cls a b : Re.every cls (a ++ b) = Re.every cls a && Re.every cls b.
Proof. induction a as [|c a IH]; cbn; [reflexivity|]. now rewrite IH, andb_assoc. Qed.

Lemma printable_escape_char c : printable (Json.escape_char c) = true.
Proof. each_char c; reflexivity. Qed.

Lemma printable_escape s : printable (Json.escape s) = true.
Proof.
  induction s as [|c s IH]; [reflexivity|]. cbn [Json.escape]. unfold printable in *.
  rewrite every_append, IH, andb_true_r. apply printable_escape_char.
Qed.

Lemma printable_encode s : printable (Json.encode_basestring_ascii s) = true.
Proof.
  unfold Json.encode_basestring_ascii, printable. cbn [Re.every].
  rewrite every_append. fold (printable (Json.escape s)). now rewrite printable_escape.
Qed.

Lemma printable_digits s : all_digits s = true -> printable s = true.
Proof.
  induction s as [|c s IH]; [reflexivity|]. cbn. intros Hd.
  apply andb_true_iff in Hd as [Hc Hs]. unfold printable in IH. rewrite (IH Hs), andb_true_r.
  unfold Json.is_digit in Hc. unfold Re.between.
  apply andb_true_iff in Hc as [Hlo Hhi]. apply N.leb_le in Hlo, Hhi.
  apply andb_true_iff. split; apply N.leb_le; lia.
Qed.

Lemma printable_repr_int z : printable (Json.repr_int z) = true.
Proof.
  destruct z as [|p|p]; cbn [Json.repr_int]; [reflexivity| |].
  - apply printable_digits, all_digits_string_of_uint.
  - unfold printable. cbn [Re.every]. fold (printable (NilEmpty.string_of_uint (Pos.to_uint p))).
    now rewrite printable_digits by apply all_digits_string_of_uint.
Qed.

Lemma printable_concat ss :
  Forall (fun s => printable s = true) ss -> printable (String.concat ", " ss) = true.
Proof.
  induction 1 as [|x l Hx Hl IH]; [reflexivity|].
  destruct l as [|y l]; [exact Hx|]. rewrite concat_cons2. unfold printable in *.
  now rewrite !every_append, Hx, IH.
Qed.

Lemma dumps_tuple l :
  Json.dumps (PyTuple l) =
    match dumps_items l with
    | Ok ss => Ok ("[" ++ String.concat ", " ss ++ "]")
    | Raise e => Raise e
    end.
Proof.
  cbn [Json.dumps].
  match goal with
  | |- match ?f l with _ => _ end = _ => assert (forall l, f l = dumps_items l) as ->
  end; [|reflexivity].
  clear l. induction l as [|x r IH]; [reflexivity|].
  cbn [dumps_items]. destruct (Json.dumps x); [|reflexivity]. now rewrite IH.
Qed.

Lemma printable_items l :
  Forall (fun v => forall s, Json.dumps v = Ok s -> printable s = true) l ->
  forall ss, dumps_items l = Ok ss -> Forall (fun s => printable s = true) ss.
Proof.
  induction 1 as [|x l Hx Hl IH]; cbn; intros ss Hss.
  - injection Hss as <-. constructor.
  - destruct (Json.dumps x) as [sx|]; [|discriminate].
    destruct (dumps_items l) as [sr|]; [|discriminate].
    injection Hss as <-. constructor; auto.
Qed.

Lemma printable_key k sk : Json.key_text k = Ok sk -> printable (Json.encode_basestring_ascii sk) = true.
Proof. intros _. apply printable_encode. Qed.

Lemma printable_entry sk sx : printable sx = true -> printable (entry_text sk sx) = true.
Proof.
  intros Hx. unfold entry_text, printable. rewrite !every_append.
  fold (printable (Json.encode_basestring_ascii sk)). fold (printable sx).
  now rewrite printable_encode, Hx.
Qed.

Lemma printable_entries d :
  Forall (fun kv => forall s, Json.dumps (snd kv) = Ok s -> printable s = true) d ->
  forall ss, dumps_entries d = Ok ss -> Forall (fun s => printable s = true) ss.
Proof.
  induction 1 as [|[k x] d Hx Hd IH]; cbn [dumps_entries]; intros ss Hss.
  - injection Hss as <-. constructor.
  - destruct (Json.key_text k) as [sk|]; [|discriminate].
    destruct (Json.dumps x) as [sx|] eqn:Ex; [|discriminate].
    destruct (dumps_entries d) as [sr|]; [|discriminate].
    injection Hss as <-. constructor; [|auto].
    apply (printable_entry sk sx). now apply Hx.
Qed.

(** X20.  Whatever [json.dumps] returns consists of printable ASCII
    characters only: every other character of a string or key is written as
    an escape.  So do the stored credentials of a provider. *)
Theorem dumps_is_printable_ascii :
  forall v s, Json.dumps v = Ok s -> printable s = true.
Proof.
  induction v as [|b|z|lit|s0|l IH|l IH|d IH] using pyval_ind; intros s Hs.
  - injection Hs as <-. reflexivity.
  - destruct b; injection Hs as <-; reflexivity.
  - injection Hs as <-. apply printable_repr_int.
  - discriminate.
  - injection Hs as <-. apply printable_encode.
  - rewrite dumps_list in Hs. destruct (dumps_items l) as [ss|] eqn:E; [|discriminate].
    injection Hs as <-. unfold printable. cbn [append Re.every]. rewrite every_append.
    fold (printable (String.concat ", " ss)).
    now rewrite (printable_concat ss (printable_items l IH ss E)).
  - rewrite dumps_tuple in Hs. destruct (dumps_items l) as [ss|] eqn:E; [|discriminate].
    injection Hs as <-. unfold printable. cbn [append Re.every]. rewrite every_append.
    fold (printable (String.concat ", " ss)).
    now rewrite (printable_concat ss (printable_items l IH ss E)).
  - rewrite dumps_dict in Hs. destruct (dumps_entries d) as [ss|] eqn:E; [|discriminate].
    injection Hs as <-. unfold printable. cbn [append Re.every]. rewrite every_append.
    fold (printable (String.concat ", " ss)).
    now rewrite (printable_concat ss (printable_entries d IH ss E)).
Qed.

Lemma dumps_is_printable_ascii_witness :
  printable (Sse.js "{'api_key': 'sk-\u00e9'}") = true.
Proof.
  apply (dumps_is_printable_ascii
           (PyDict [(PyStr "api_key", PyStr (String "s" (String "k" (String "-"
                       (String "233" EmptyString)))))])).
  reflexivity.
Defined.

(** X21.  The stored form tells credentials apart: two values made of JSON
    values that [encrypt_credentials] writes as the same text are the same
    value. *)
Theorem encrypt_credentials_injective :
  forall v w s,
    Json.native v = true -> Json.native w = true ->
    ModelProvider.encrypt_credentials v = Ok s ->
    ModelProvider.encrypt_credentials w = Ok s ->
    v = w.
Proof.
  intros v w s Hv Hw Ev Ew.
  destruct (encrypt_decrypt_native v Hv) as (sv & Hsv & Hdv).
  destruct (encrypt_decrypt_native w Hw) as (sw & Hsw & Hdw).
  congruence.
Qed.

Lemma encrypt_credentials_injective_witness :
  PyDict [(PyStr "k", PyInt 1)] = PyDict [(PyStr "k", PyInt 1)].
Proof.
  apply (encrypt_credentials_injective _ _ (Sse.js "{'k': 1}")); reflexivity.
Defined.

(** ** The end of a stream *)

(** X22.  Nothing after the end marker is looked at: the lines that follow
    the first [[DONE]], well formed or not, and a failure of the transport
    after it, do not change what the stream yields or how it ends. *)
Theorem stream_ends_at_done :
  forall before marker after broken,
    Text.is_empty marker = false ->
    Sse.payload_of marker = "[DONE]" ->
    OpenAIProvider.parse_stream (before ++ marker :: after) broken
    = OpenAIProvider.parse_stream (before ++ [marker]) None.
Proof.
  intros before marker after broken Hne Hdone.
  induction before as [|line before IH]; cbn [app OpenAIProvider.parse_stream].
  - rewrite Hne. fold (Sse.payload_of marker). now rewrite Hdone.
  - destruct (Text.is_empty line); [exact IH|].
    destruct (String.eqb _ "[DONE]"); [reflexivity|].
    destruct (OpenAIProvider.chunk_of_line _) as [[chunk|]|[]]; now rewrite ?IH.
Qed.

Lemma stream_ends_at_done_witness :
  OpenAIProvider.parse_stream
    [DemoStream.hello; "data: [DONE]"; "data: {}"; DemoStream.bang] (Some "connection reset")
  = OpenAIProvider.parse_stream [DemoStream.hello; "data: [DONE]"] None.
Proof.
  apply (stream_ends_at_done [DemoStream.hello] "data: [DONE]" ["data: {}"; DemoStream.bang]);
    reflexivity.
Defined.

(** X23.  A failure of the transport loses no chunk: when the response
    breaks off, the stream yields the chunks it would have yielded from the
    lines delivered; a line that aborts the stream still decides how it
    ends, and otherwise, if no end marker was delivered, it ends with
    [ValueError] carrying the transport's message. *)
Theorem stream_failure_keeps_chunks :
  forall lines m,
    yielded (OpenAIProvider.parse_stream lines (Some m))
    = yielded (OpenAIProvider.parse_stream lines None) /\
    (forall e, raised (OpenAIProvider.parse_stream lines None) = Some e ->
               raised (OpenAIProvider.parse_stream lines (Some m)) = Some e) /\
    (raised (OpenAIProvider.parse_stream lines None) = None ->
     ~ In "[DONE]" (map Sse.payload_of lines) ->
     raised (OpenAIProvider.parse_stream lines (Some m))
     = Some (ValueError ("Failed to stream invoke model: " ++ m))).
Proof.
  intros lines m.
  induction lines as [|line lines (IHy & IHe & IHn)]; cbn [OpenAIProvider.parse_stream].
  - cbn. repeat split; intros; congruence.
  - destruct (Text.is_empty line) eqn:Hempty.
    + repeat split; auto. intros Hr Hd. apply IHn; [exact Hr|]. cbn in Hd. tauto.
    + fold (Sse.payload_of line).
      destruct (String.eqb (Sse.payload_of line) "[DONE]") eqn:Hdone.
      * apply String.eqb_eq in Hdone. cbn. repeat split; intros; try congruence.
        exfalso. match goal with Hd : ~ _ |- _ => apply Hd end. cbn. now left.
      * assert (Hrest : ~ In "[DONE]" (map Sse.payload_of (line :: lines)) ->
                        ~ In "[DONE]" (map Sse.payload_of lines)) by (cbn; tauto).
        destruct (OpenAIProvider.chunk_of_line _) as [[chunk|]|[]];
          cbn [yield yielded raised]; repeat split; auto; try congruence.
Qed.

Lemma stream_failure_keeps_chunks_witness :
  OpenAIProvider.parse_stream [DemoStream.hello; DemoStream.bang] (Some "connection reset")
  = Generated [DemoStream.hello_chunk; DemoStream.bang_chunk]
      (Some (ValueError "Failed to stream invoke model: connection reset")).
Proof.
  destruct (stream_failure_keeps_chunks [DemoStream.hello; DemoStream.bang] "connection reset")
    as (Hy & _ & Hn).
  specialize (Hn eq_refl ltac:(vm_compute; intuition discriminate)).
  destruct (OpenAIProvider.parse_stream _ (Some _)) as [ys r]. cbn in Hy, Hn.
  now rewrite Hy, Hn.
Defined.

(** ** Who may do what *)

(** X24.  The services enforce the role hierarchy of [check_permission]:
    a call returns only for an operator whom [check_permission] grants the
    level the operation asks for, in the tenant concerned: [admin] for
    adding and removing members and for deleting an app, [owner] for
    changing roles and the tenant itself, [member] for creating, updating,
    archiving and toggling an app. *)
Theorem calls_respect_check_permission :
  forall st,
    (forall join_pk t a role op r st',
       TenantService.add_member join_pk t a role op st = (Ok r, st') ->
       TenantService.check_permission t op TenantRole.ADMIN st = true) /\
    (forall t a op r st',
       TenantService.remove_member t a op st = (Ok r, st') ->
       TenantService.check_permission t op TenantRole.ADMIN st = true) /\
    (forall t a new_role op r st',
       TenantService.update_member_role t a new_role op st = (Ok r, st') ->
       TenantService.check_permission t op TenantRole.OWNER st = true) /\
    (forall t op updates r st',
       TenantService.update_tenant t op updates st = (Ok r, st') ->
       TenantService.check_permission t op TenantRole.OWNER st = true) /\
    (forall app_pk t account name mode description r st',
       AppService.create_app app_pk t account name mode description st = (Ok r, st') ->
       TenantService.check_permission t account TenantRole.MEMBER st = true) /\
    (forall app_id account r st',
       AppService.delete_app app_id account st = (Ok r, st') ->
       exists app, AppRepository.get_by_id app_id st = Some app /\
         TenantService.check_permission (App.tenant_id app) account TenantRole.ADMIN st = true) /\
    (forall app_id account r st',
       (exists updates, AppService.update_app app_id account updates st = (Ok r, st')) \/
       AppService.archive_app app_id account st = (Ok r, st') \/
       AppService.unarchive_app app_id account st = (Ok r, st') \/
       (exists enable, AppService.toggle_site app_id account enable st = (Ok r, st')) \/
       (exists enable, AppService.toggle_api app_id account enable st = (Ok r, st')) ->
       exists app, AppRepository.get_by_id app_id st = Some app /\
         TenantService.check_permission (App.tenant_id app) account TenantRole.MEMBER st = true).
Proof.
  intros st.
  assert (Hmember : forall t a, TenantRepository.is_member t a st = true ->
                      TenantService.check_permission t a TenantRole.MEMBER st = true).
  { intros t a Hm. rewrite is_member_role in Hm.
    unfold TenantService.is_member, TenantService.check_permission in *.
    now destruct (TenantRepository.get_member_role t a st) as [[]|]. }
  assert (Has : forall A app_id account (k : App.t -> M A) r st',
             AppService.as_member app_id account k st = (Ok r, st') ->
             exists app, AppRepository.get_by_id app_id st = Some app /\
               TenantService.check_permission (App.tenant_id app) account TenantRole.MEMBER st
               = true).
  { intros A app_id account k r st'. unfold AppService.as_member, bind, gets, raise.
    destruct (AppRepository.get_by_id app_id st) as [app|]; [|discriminate].
    destruct (TenantRepository.is_member _ _ _) eqn:Hm; [|discriminate].
    intros _. exists app. split; [reflexivity|]. now apply Hmember. }
  repeat split.
  - intros join_pk t a role op r st'.
    unfold TenantService.add_member, TenantService.check_permission, bind, gets, raise.
    destruct (TenantRepository.get_by_id t st); [|discriminate].
    destruct (AccountRepository.get_by_id a st); [|discriminate].
    destruct (TenantRepository.get_member_role t op st) as [[]|]; cbn; congruence.
  - intros t a op r st'.
    unfold TenantService.remove_member, TenantService.check_permission, bind, gets, raise.
    destruct (TenantRepository.get_by_id t st); [|discriminate].
    destruct (TenantRepository.get_member_role t op st) as [[]|]; cbn; congruence.
  - intros t a new_role op r st'.
    unfold TenantService.update_member_role, TenantService.check_permission, bind, gets,
      raise.
    destruct (TenantRepository.get_by_id t st); [|discriminate].
    destruct (TenantRepository.get_member_role t op st) as [[]|]; cbn; congruence.
  - intros t op updates r st'.
    unfold TenantService.update_tenant, TenantService.check_permission, bind, gets, raise.
    destruct (TenantRepository.get_by_id t st); [|discriminate].
    destruct (TenantRepository.get_member_role t op st) as [[]|]; cbn; congruence.
  - intros app_pk t account name mode description r st'.
    unfold AppService.create_app, bind, gets, raise.
    destruct (_ || _); [discriminate|]. destruct (_ <? _)%N; [discriminate|].
    destruct (TenantRepository.get_by_id t st); [|discriminate].
    destruct (TenantRepository.is_member t account st) eqn:Hm; [|discriminate].
    intros _. now apply Hmember.
  - intros app_id account r st'.
    unfold AppService.delete_app, TenantService.check_permission, bind, gets, raise.
    destruct (AppRepository.get_by_id app_id st) as [app|]; [|discriminate].
    destruct (TenantRepository.get_member_role (App.tenant_id app) account st) as [[]|]
      eqn:Hr;
      cbn [owner_or_admin TenantRole.eqb orb]; intros Hx; try discriminate Hx;
      exists app; (split; [reflexivity|]); now rewrite Hr.
  - intros app_id account r st' [[updates Hx]|[Hx|[Hx|[[enable Hx]|[enable Hx]]]]];
      exact (Has _ _ _ _ _ _ Hx).
Qed.

Lemma calls_respect_check_permission_witness :
  TenantService.check_permission 10%N 1%N TenantRole.ADMIN Demo.team = true.
Proof.
  apply (proj1 (proj2 (calls_respect_check_permission Demo.team)) 10%N 2%N 1%N tt
           (with_joins (remove_first (TenantRepository.is_join 10%N 2%N)
                          (tenant_account_joins Demo.team)) Demo.team)).
  reflexivity.
Defined.

(** ** Names of tenants *)

(** X25.  The name of a tenant is checked against the others when the
    tenant is created and not afterwards: [create_tenant] refuses a name
    whose stripped form another tenant has, but the owner of a tenant can
    rename it with [update_tenant] to the name of another tenant, after
    which two tenants carry that name. *)
Theorem tenant_names_checked_at_creation_only :
  (forall st tenant_pk join_pk name owner plan existing,
     Text.strip name <> EmptyString ->
     (Text.len (Text.strip name) <= 100)%N ->
     AccountRepository.get_by_id owner st <> None ->
     TenantRepository.get_by_name (Text.strip name) st = Some existing ->
     TenantService.create_tenant tenant_pk join_pk name owner plan st
     = (Raise (ResourceConflictError ("Tenant name already exists: " ++ name)), st)) /\
  (forall st t op x other,
     TenantRepository.get_by_id t st = Some x ->
     owns t op st = true ->
     In other (tenants st) ->
     Tenant.id other <> t ->
     exists x' st',
       TenantService.update_tenant t op [Tenant.Set_name (Tenant.name other)] st
       = (Ok (Some x'), st') /\
       Tenant.id x' = t /\ Tenant.name x' = Tenant.name other /\
       In x' (tenants st') /\ In other (tenants st')).
Proof.
  split.
  - intros st tenant_pk join_pk name owner plan existing Hname Hlen Howner Hexisting.
    unfold TenantService.create_tenant, bind, gets, raise.
    assert (Text.is_empty name || (Text.len (Text.strip name) =? 0)%N = false) as ->.
    { destruct name as [|c r]; [now cbn in Hname|]. cbn [Text.is_empty orb].
      apply N.eqb_neq. unfold Text.len. destruct (Text.strip (String c r)); [contradiction|].
      cbn. lia. }
    assert ((100 <? Text.len (Text.strip name))%N = false) as -> by (apply N.ltb_ge; lia).
    destruct (AccountRepository.get_by_id owner st); [|contradiction].
    now rewrite Hexisting.
  - intros st t op x other Hx Hop Hother Hne.
    assert (Hid : Tenant.id x = t).
    { apply find_some in Hx as [_ Hx]. now apply N.eqb_eq in Hx. }
    exists (Tenant.setattr (Tenant.Set_name (Tenant.name other)) x).
    exists (with_tenants (replace_first (has_pk Tenant.id t)
                            (Tenant.setattr (Tenant.Set_name (Tenant.name other)) x)
                            (tenants st)) st).
    split; [|split; [exact Hid|split; [reflexivity|split]]].
    + unfold TenantService.update_tenant, TenantRepository.update, bind, gets, raise, ret,
        modify.
      rewrite Hx. unfold owns in Hop.
      destruct (TenantRepository.get_member_role t op st) as [[]|]; try discriminate.
      now rewrite Hx.
    + cbn. now apply (in_replace_first_new _ _ _ x).
    + cbn. apply in_replace_first_kept; [exact Hother|].
      unfold has_pk. now apply N.eqb_neq.
Qed.

Lemma tenant_names_checked_at_creation_only_witness :
  TenantService.create_tenant 40%N 41%N " T1 " 2%N TenantPlan.FREE Demo.team
  = (Raise (ResourceConflictError "Tenant name already exists:  T1 "), Demo.team).
Proof.
  apply (proj1 tenant_names_checked_at_creation_only Demo.team 40%N 41%N " T1 " 2%N
           TenantPlan.FREE (Tenant.mk 10%N "T1" TenantPlan.FREE TenantStatus.ACTIVE));
    solve [vm_compute; discriminate | reflexivity].
Defined.

(** ** Tokens and the current account *)

(** X26.  A token carries no state of the account.  Within its validity,
    [verify_token] on an issued token answers from the row the account id
    has at that moment: the current row if the account is active,
    [AuthenticationError] if it has been banned or deactivated since, or if
    the id is no longer there; the address in the token is not consulted. *)
Theorem token_follows_account :
  forall (U : UuidText) (J : JwtCodec),
    UuidTextLaws U -> JwtLaws J ->
    forall self st account_id email issued now,
      (issued <= now)%Z ->
      (now < issued + 3600 * AuthService.token_expiry_hours self)%Z ->
      AuthService.verify_token self now
        (AuthService._generate_token self issued account_id email) st
      = match AccountRepository.get_by_id account_id st with
        | None => Raise (AuthenticationError "Account not found")
        | Some account =>
            if Account.is_active account then Ok account
            else Raise (AuthenticationError "Account is not active")
        end.
Proof.
  intros U J HU HJ self st account_id email issued now Hissued Hfresh.
  unfold AuthService.verify_token, AuthService._generate_token.
  destruct (generated_claims self issued account_id email) as [Hexp Hiat].
  rewrite (jwt_decode_encode J HJ _ _ now _ _ Hexp Hiat Hissued Hfresh).
  cbn [Py.lookup Py.key_is String.eqb Ascii.eqb Bool.eqb Py.truthy].
  destruct (uuid_str account_id) eqn:Hs.
  - exfalso. now apply (uuid_str_not_empty U HU account_id).
  - cbn [Text.is_empty negb]. rewrite <- Hs.
    rewrite (UUID_of_str_uuid_str U HU).
    destruct (AccountRepository.get_by_id account_id st) as [account|]; [|reflexivity].
    now destruct (Account.is_active account).
Qed.

Lemma token_follows_account_witness :
  AuthService.verify_token (U := Sample.uuid_text) (J := Sample.jwt)
    (AuthService.mk "key" 24) 1700000060
    (AuthService._generate_token (U := Sample.uuid_text) (J := Sample.jwt)
       (AuthService.mk "key" 24) 1700000000 3%N "m@x.com") Demo.registered
  = Raise (AuthenticationError "Account is not active").
Proof.
  apply (token_follows_account Sample.uuid_text Sample.jwt sample_uuid_text_laws
           sample_jwt_laws (AuthService.mk "key" 24) Demo.registered 3%N "m@x.com"
           1700000000%Z 1700000060%Z); cbn; lia.
Defined.

(** ** Requests to the provider *)

Lemma lookup_setitem_same k v d : Py.lookup k (Py.setitem k v d) = Some v.
Proof.
  induction d as [|[key w] d IH]; cbn.
  - now rewrite String.eqb_refl.
  - destruct (Py.key_is k key) eqn:E; cbn; now rewrite E.
Qed.

Lemma lookup_setitem_other k k' v d :
  k <> k' -> Py.lookup k' (Py.setitem k v d) = Py.lookup k' d.
Proof.
  intros Hne. induction d as [|[key w] d IH]; cbn.
  - destruct (String.eqb k k') eqn:E; [apply String.eqb_eq in E; contradiction|reflexivity].
  - destruct (Py.key_is k key) eqn:E; cbn; [|now rewrite IH].
    destruct key; try discriminate. cbn in *. apply String.eqb_eq in E. subst.
    destruct (String.eqb k k') eqn:E'; [apply String.eqb_eq in E'; contradiction|reflexivity].
Qed.

Lemma rstrip_slash_slash s : rstrip_slash (s ++ "/") = rstrip_slash s.
Proof.
  induction s as [|c s IH]; [reflexivity|].
  cbn [append rstrip_slash]. now rewrite IH.
Qed.

Section Requests.
Context {C : HttpClient}.

(** X27.  Trailing slashes of [base_url] do not matter: credentials that
    differ only by one more slash at the end of [base_url] are validated
    against the same address and stream from the same address, with the
    same outcome.  For the embedding adapter this needs a non-empty
    address: an empty [base_url] is refused as missing, a lone slash is
    not. *)
Theorem base_url_trailing_slash :
  forall d base,
    let at_url u := PyDict (Py.setitem "base_url" (PyStr u) d) in
    OpenAIProvider.validate_credentials (at_url (base ++ "/"))
    = OpenAIProvider.validate_credentials (at_url base) /\
    (forall model_config messages,
       OpenAIProvider.stream_invoke (at_url (base ++ "/")) model_config messages
       = OpenAIProvider.stream_invoke (at_url base) model_config messages) /\
    (base <> EmptyString ->
     TEIProvider.validate_credentials (at_url (base ++ "/"))
     = TEIProvider.validate_credentials (at_url base)).
Proof.
  intros d base at_url. unfold at_url.
  assert (Hkey : forall u, Py.lookup "api_key" (Py.setitem "base_url" (PyStr u) d)
                           = Py.lookup "api_key" d)
    by (intros u; apply lookup_setitem_other; discriminate).
  split; [|split].
  - unfold OpenAIProvider.validate_credentials, ProviderCredentials.get, try, endpoint.
    rewrite !Hkey, !lookup_setitem_same. now rewrite rstrip_slash_slash.
  - intros model_config messages.
    unfold OpenAIProvider.stream_invoke, ProviderCredentials.get, endpoint.
    rewrite !Hkey, !lookup_setitem_same. now rewrite rstrip_slash_slash.
  - intros Hbase.
    unfold TEIProvider.validate_credentials, ProviderCredentials.get, try, endpoint.
    rewrite !lookup_setitem_same. cbn [Py.truthy].
    rewrite rstrip_slash_slash.
    destruct base; [contradiction|reflexivity].
Qed.

(** X28.  What [stream_invoke] sends is a streaming request whatever the
    configuration says: once the arguments are accepted, the request body
    is a dictionary whose ["stream"] is [True] and whose ["messages"] are
    the messages in order, each with its role and content; and the outcome
    of the call is that of this request. *)
Theorem stream_invoke_request :
  forall credentials model_config messages api_key base_url,
    ProviderCredentials.get credentials "api_key" PyNone = Ok api_key ->
    Py.truthy api_key = true ->
    ProviderCredentials.get credentials "base_url" OpenAIProvider.default_base_url
      = Ok (PyStr base_url) ->
    messages <> [] ->
    exists request,
      Py.lookup "stream" request = Some (PyBool true) /\
      Py.lookup "messages" request
      = Some (PyList (map (fun msg =>
                             PyDict [ (PyStr "role", PyStr (LLMMessage.role msg));
                                      (PyStr "content", PyStr (LLMMessage.content msg)) ])
                          messages)) /\
      Py.lookup "model" request = Some (PyStr (ModelConfig.model model_config)) /\
      OpenAIProvider.stream_invoke credentials model_config messages
      = match http_stream (rstrip_slash base_url ++ "/chat/completions") api_key
                (PyDict request) with
        | StreamFails m => Generated [] (Some (ValueError ("Failed to stream invoke model: " ++ m)))
        | StreamLines lines broken => OpenAIProvider.parse_stream lines broken
        end.
Proof.
  intros credentials model_config messages api_key base_url Hkey Htruthy Hurl Hmsgs.
  eexists. split; [|split; [|split]].
  4: { unfold OpenAIProvider.stream_invoke. rewrite Hkey, Hurl, Htruthy. cbn [negb].
       destruct messages as [|m ms]; [contradiction|]. cbn [endpoint]. reflexivity. }
  - apply lookup_setitem_same.
  - rewrite lookup_setitem_other by discriminate. apply lookup_setitem_same.
  - rewrite !lookup_setitem_other by discriminate.
    unfold ModelConfig.to_dict.
    destruct (ModelConfig.max_tokens model_config), (ModelConfig.stop model_config);
      reflexivity.
Qed.

End Requests.

Lemma base_url_trailing_slash_witness :
  TEIProvider.validate_credentials (C := Demo.http)
    (PyDict [(PyStr "base_url", PyStr "http://tei:8080/")])
  = TEIProvider.validate_credentials (C := Demo.http)
    (PyDict [(PyStr "base_url", PyStr "http://tei:8080")]).
Proof.
  apply (proj2 (proj2 (base_url_trailing_slash (C := Demo.http) [] "http://tei:8080"))).
  discriminate.
Defined.

Lemma stream_invoke_request_witness :
  exists request,
    Py.lookup "stream" request = Some (PyBool true) /\
    OpenAIProvider.stream_invoke (C := DemoStream.serving DemoStream.response None)
      DemoProviders.credentials
      (ModelConfig.mk "gpt-3.5-turbo" "0.7" None "1.0" "0.0" "0.0" None false)
      DemoStream.messages
    = Generated [DemoStream.hello_chunk; DemoStream.bang_chunk] None.
Proof.
  destruct (stream_invoke_request (C := DemoStream.serving DemoStream.response None)
              DemoProviders.credentials
              (ModelConfig.mk "gpt-3.5-turbo" "0.7" None "1.0" "0.0" "0.0" None false)
              DemoStream.messages (PyStr "sk-test-key") "https://api.openai.com/v1"
              eq_refl eq_refl eq_refl ltac:(discriminate))
    as (request & Hstream & _ & _ & Hrun).
  exists request. split; [exact Hstream|]. rewrite Hrun. reflexivity.
Defined.

(** ** References between tables, and what a login writes *)

Section References.
Context {U : UuidText} {H : PasswordHasher} {J : JwtCodec} {C : HttpClient}.


Lemma map_key_replace_found {T K} (key : T -> K) (p : T -> bool) y l x :
  find p l = Some x -> key y = key x -> map key (replace_first p y l) = map key l.
Proof.
  intros Hf Hy. induction l as [|z l IH]; cbn in *; [discriminate|].
  destruct (p z); cbn.
  - injection Hf as ->. now rewrite Hy.
  - now rewrite IH.
Qed.

(** X30.  A login writes the login time and nothing else: when [login]
    returns, the accounts are the same rows with the same id, address,
    password hash, name and status, in the same order, and the tenants,
    memberships, apps and providers are untouched. *)
Theorem login_writes_login_time_only :
  forall self utcnow email password st r st',
    AuthService.login self utcnow email password st = (Ok r, st') ->
    map (fun a => (Account.id a, Account.email a, Account.password_hash a, Account.name a,
                   Account.status a)) (accounts st')
    = map (fun a => (Account.id a, Account.email a, Account.password_hash a, Account.name a,
                     Account.status a)) (accounts st) /\
    tenants st' = tenants st /\
    tenant_account_joins st' = tenant_account_joins st /\
    apps st' = apps st /\
    model_providers st' = model_providers st.
Proof.
  intros self utcnow email password st r st'.
  unfold AuthService.login, AccountRepository.update, bind, gets, raise, ret, modify.
  destruct (AccountRepository.get_by_email email st) as [a|]; [|discriminate].
  destruct (Account.status a); try discriminate.
  destruct (check_password_hash _ _); [|discriminate].
  destruct (AccountRepository.get_by_id (Account.id a) st) as [x|] eqn:Hx.
  - intros [= _ <-]. cbn. repeat split.
    apply (map_key_replace_found _ _ _ _ x Hx). reflexivity.
  - intros [= _ <-]. repeat split.
Qed.

End References.


Lemma login_writes_login_time_only_witness :
  tenant_account_joins
    (snd (AuthService.login (U := Sample.uuid_text) (H := Sample.hasher) (J := Sample.jwt)
            (AuthService.mk "key" 24) 1700000000 "a@x.com" "secret1" Demo.team))
  = tenant_account_joins Demo.team.
Proof.
  eapply (login_writes_login_time_only (U := Sample.uuid_text) (H := Sample.hasher)
            (J := Sample.jwt) (AuthService.mk "key" 24) 1700000000 "a@x.com" "secret1"
            Demo.team).
  reflexivity.
Defined.
